(** * Healthcare voice assistant: RAG indexing/retrieval and the safety filter

    A shallow embedding of the algorithmic core of the repository
    ([rag/document_processor.py], [rag/vector_store.py], [rag/rag_pipeline.py],
    [safety/healthcare_filter.py]) together with the properties that the
    specification states about it.

    Conventions of the embedding.
    - A Python [str] is a list of characters; a character is a code point
      below 256 (type [ascii]), classified as CPython classifies it
      ([str.isspace], the regex classes [\s] and [\w], [str.lower], and
      literal matching under [re.IGNORECASE]). Statements about every string
      are statements about every string over these code points.
    - A Python [int] is a [Z]; a Python [float] is an IEEE-754 binary64 value
      of [SpecFloat.spec_float], with the library's correctly rounded
      operations.
    - A [dict] is an insertion-ordered association list ([PyDict]).
    - A raised exception is an explicit result ([None], a [false] flag next to
      the state reached, or a constructor of the result type); a loop is given
      fuel and a result that tells exhaustion of the fuel apart from a return.
    - A method that mutates [self] is a function from the state to the new
      state and the value returned.
    - The FAISS search and the embedding provider are outside the repository
      and are variables of the sections that use them.
    - Logging, the wall-clock fields, the optional remote backup and the
      writing of the index files by [_save_index] (none of which can raise
      into its caller) are left out. *)

From Stdlib Require Import Ascii String DecimalString.
From Stdlib Require DecimalNat DecimalFacts.
From Stdlib Require Import List ZArith NArith Bool Lia SpecFloat.
Import ListNotations.

Set Implicit Arguments.
Local Open Scope Z_scope.

(** ** Python strings *)

Module Py.

Definition str := list ascii.

(** A string literal of the source. *)
Definition lit (s : string) : str := list_ascii_of_string s.

Definition ord (c : ascii) : N := N_of_ascii c.

Definition between (lo hi n : N) : bool := (N.leb lo n && N.leb n hi)%bool.

(** [str.isspace] on one character, which is also the regex class [\s]:
    TAB..CR, FS..US, SPACE, NEL and NBSP. *)
Definition isspace (c : ascii) : bool :=
  let n := ord c in
  (between 9 13 n || between 28 32 n || N.eqb n 133 || N.eqb n 160)%bool.

(** [str.isalnum] on one character: letters, decimal digits, and the
    superscript digits and vulgar fractions of Latin-1. *)
Definition isalnum (c : ascii) : bool :=
  let n := ord c in
  (between 48 57 n || between 65 90 n || between 97 122 n
   || N.eqb n 170 || between 178 179 n || N.eqb n 181
   || between 185 186 n || between 188 190 n
   || between 192 214 n || between 216 246 n || between 248 255 n)%bool.

(** The regex class [\w]. *)
Definition is_word (c : ascii) : bool := (isalnum c || N.eqb (ord c) 95)%bool.

(** [str.lower] on one character. *)
Definition lower_char (c : ascii) : ascii :=
  let n := ord c in
  if (between 65 90 n || between 192 214 n || between 216 222 n)%bool
  then ascii_of_N (n + 32) else c.

Definition lower (s : str) : str := map lower_char s.

Definition len (s : str) : Z := Z.of_nat (length s).

Fixpoint lstrip (s : str) : str :=
  match s with
  | [] => []
  | c :: s' => if isspace c then lstrip s' else s
  end.

Fixpoint rstrip (s : str) : str :=
  match s with
  | [] => []
  | c :: s' =>
      match rstrip s' with
      | [] => if isspace c then [] else [c]
      | t => c :: t
      end
  end.

(** [s.strip()] *)
Definition strip (s : str) : str := rstrip (lstrip s).

(** [s[lo:hi]] with Python's treatment of negative and out-of-range
    bounds. *)
Definition slice_bound (n i : Z) : Z :=
  if i <? 0 then Z.max 0 (i + n) else Z.min i n.

Definition slice {A : Type} (s : list A) (lo hi : Z) : list A :=
  let n := Z.of_nat (length s) in
  let lo' := slice_bound n lo in
  let hi' := slice_bound n hi in
  firstn (Z.to_nat (hi' - lo')) (skipn (Z.to_nat lo') s).

(** [s.rfind(c)] for a one-character needle: the last index of [c], or -1. *)
Fixpoint rfind_from (c : ascii) (s : str) (i : Z) (found : Z) : Z :=
  match s with
  | [] => found
  | x :: s' => rfind_from c s' (i + 1) (if Ascii.eqb x c then i else found)
  end.

Definition rfind (s : str) (c : ascii) : Z := rfind_from c s 0 (-1).

(** [needle in s] for strings. *)
Fixpoint startswith (s needle : str) : bool :=
  match needle, s with
  | [], _ => true
  | _ :: _, [] => false
  | n :: needle', c :: s' => (Ascii.eqb c n && startswith s' needle')%bool
  end.

Fixpoint contains (s needle : str) : bool :=
  (startswith s needle ||
   match s with
   | [] => false
   | _ :: s' => contains s' needle
   end)%bool.

(** [re.sub(r'C+', r, s)] for a character class [C] and a one-character
    replacement: every maximal run of characters of the class is replaced
    by [r] (emitted where the run ends). *)
Fixpoint re_sub_runs (p : ascii -> bool) (r : ascii) (s : str) : str :=
  match s with
  | [] => []
  | c :: s' =>
      if p c then
        match s' with
        | c' :: _ => if p c' then re_sub_runs p r s' else r :: re_sub_runs p r s'
        | [] => [r]
        end
      else c :: re_sub_runs p r s'
  end.

(** [re.sub(r'[C]', r, s)]: every character of the class is replaced. *)
Definition re_sub_each (p : ascii -> bool) (r : ascii) (s : str) : str :=
  map (fun c => if p c then r else c) s.

(** [x or default] for an optional integer: [None] and [0] are falsy. *)
Definition int_or (x : option Z) (default : Z) : Z :=
  match x with
  | Some v => if v =? 0 then default else v
  | None => default
  end.

(** Python floats. *)
Definition float := spec_float.

(** [float(z)]: [None] is [OverflowError]. *)
Definition float_of_int (z : Z) : option float :=
  match binary_normalize 53 1024 z 0 false with
  | S754_infinity _ => None
  | f => Some f
  end.

Definition fmul (x y : float) : float := SFmul 53 1024 x y.

(** [z > f] for an int and a float: Python compares the exact values. *)
Definition int_gt_float (z : Z) (f : float) : bool :=
  match f with
  | S754_zero _ => 0 <? z
  | S754_infinity s => s
  | S754_nan => false
  | S754_finite s m e =>
      let v := if s then Z.neg m else Z.pos m in
      if 0 <=? e then v * 2 ^ e <? z else v <? z * 2 ^ (- e)
  end.

(** Truth value of a float: zero of either sign is falsy, NaN is truthy. *)
Definition float_truthy (f : float) : bool :=
  match f with
  | S754_zero _ => false
  | _ => true
  end.

Definition float_or (x : option float) (default : float) : float :=
  match x with
  | Some v => if float_truthy v then v else default
  | None => default
  end.

(** [str(n)] for a non-negative integer, and [str(z)] for any integer. *)
Definition str_of_nat (n : nat) : string := NilZero.string_of_uint (Nat.to_uint n).

Definition str_of_int (z : Z) : string :=
  if z <? 0 then String.append "-" (str_of_nat (Z.to_nat (- z)))
  else str_of_nat (Z.to_nat z).

End Py.

(** ** Settings ([config/settings.py], the fields the core reads) *)

Module Settings.

Record t := {
  embedding_model : string;
  top_k_results : Z;
  chunk_size : Z;
  chunk_overlap : Z;
  similarity_threshold : Py.float
}.

(** The float literal [0.7]: 0x1.6666666666666p-1. *)
Definition f0_7 : Py.float := S754_finite false 6305039478318694 (-53).

(** The field defaults, used when the environment overrides nothing. *)
Definition defaults : t := {|
  embedding_model := "text-embedding-3-large";
  top_k_results := 5;
  chunk_size := 1000;
  chunk_overlap := 200;
  similarity_threshold := f0_7
|}.

End Settings.

(** A call either returns, raises, or (for the model of a loop) runs out of
    the fuel it was given. *)
Inductive outcome (A : Type) : Type :=
| Returned (a : A)
| Raised
| OutOfFuel.

Arguments Returned {A} a.
Arguments Raised {A}.
Arguments OutOfFuel {A}.

(** ** [rag/document_processor.py] *)

Module DocumentProcessor.
Import Py.

Definition newline : ascii := "010"%char.
Definition space : ascii := " "%char.

(** The characters listed after [\w\s] in the class of [_clean_text]. *)
Definition kept_punctuation : str := lit ".,!?;:-()[]{}".

(** The class [[^\w\s\.\,\!\?\;\:\-\(\)\[\]\{\}]]. *)
Definition special (c : ascii) : bool :=
  negb (is_word c || isspace c || existsb (Ascii.eqb c) kept_punctuation).

Definition _clean_text (text : str) : str :=
  match text with
  | [] => []
  | _ =>
      (* Remove excessive whitespace *)
      let text := re_sub_runs isspace space text in
      (* Remove special characters that might interfere with processing *)
      let text := re_sub_each special space text in
      (* Normalize line breaks *)
      let text := re_sub_runs (Ascii.eqb newline) newline text in
      (* Remove multiple spaces *)
      let text := re_sub_runs (Ascii.eqb space) space text in
      (* Strip leading/trailing whitespace *)
      strip text
  end.

Definition sentence_endings : list ascii := ["."; "!"; "?"; newline]%char.

(** The [for ending in sentence_endings] loop of [chunk_text], run on the
    window [chunk]: the index of the accepted break ([Some (Some i)]), no
    break ([Some None]), or [OverflowError] from [chunk_size * 0.7]
    ([None]). *)
Fixpoint find_break (chunk : str) (chunk_size : Z) (endings : list ascii)
  : option (option Z) :=
  match endings with
  | [] => Some None
  | ending :: rest =>
      let last_ending := rfind chunk ending in
      match float_of_int chunk_size with
      | None => None
      | Some f =>
          if int_gt_float last_ending (fmul f Settings.f0_7)
          then Some (Some last_ending)
          else find_break chunk chunk_size rest
      end
  end.

(** One iteration of the [while] loop of [chunk_text], from [start]: the
    chunk appended and the next [start]; [None] when it raises. *)
Definition chunk_body (text : str) (chunk_size chunk_overlap start : Z)
  : option (str * Z) :=
  let end_ := start + chunk_size in
  let chunk := slice text start end_ in
  let brk :=
    if end_ <? len text
    then find_break chunk chunk_size sentence_endings
    else Some None in
  match brk with
  | None => None
  | Some (Some last_ending) =>
      let chunk := slice chunk 0 (last_ending + 1) in
      let end_ := start + last_ending + 1 in
      Some (strip chunk, end_ - chunk_overlap)
  | Some None => Some (strip chunk, end_ - chunk_overlap)
  end.

Fixpoint chunk_loop (fuel : nat) (text : str) (chunk_size chunk_overlap : Z)
  (start : Z) (chunks : list str) : outcome (list str) :=
  match fuel with
  | O => OutOfFuel
  | S fuel' =>
      if start <? len text then
        match chunk_body text chunk_size chunk_overlap start with
        | None => Raised
        | Some (chunk, start') =>
            let chunks := chunks ++ [chunk] in
            if start' >=? len text then Returned chunks
            else chunk_loop fuel' text chunk_size chunk_overlap start' chunks
        end
      else Returned chunks
  end.

Definition chunk_text (settings : Settings.t) (fuel : nat) (text : str)
  (chunk_size chunk_overlap : option Z) : outcome (list str) :=
  match text with
  | [] => Returned []
  | _ =>
      (* Use settings defaults if not provided *)
      let chunk_size := int_or chunk_size (Settings.chunk_size settings) in
      let chunk_overlap := int_or chunk_overlap (Settings.chunk_overlap settings) in
      (* Ensure overlap is not larger than chunk size *)
      let chunk_overlap := Z.min chunk_overlap (chunk_size - 1) in
      chunk_loop fuel text chunk_size chunk_overlap 0 []
  end.

End DocumentProcessor.

(** ** Python dictionaries

    Keys are strings. The list is in insertion order and holds a key at most
    once when it is built by [set] from the empty dictionary. *)

Module PyDict.

Section Dict.

Variable V : Type.

Definition t := list (string * V).

Definition empty : t := [].

(** [d.get(k)] *)
Fixpoint get (d : t) (k : string) : option V :=
  match d with
  | [] => None
  | (k', v) :: d' => if String.eqb k' k then Some v else get d' k
  end.

(** [k in d] *)
Definition contains (d : t) (k : string) : bool :=
  match get d k with
  | Some _ => true
  | None => false
  end.

(** [d[k] = v]: an existing key keeps its position. *)
Fixpoint set (d : t) (k : string) (v : V) : t :=
  match d with
  | [] => [(k, v)]
  | (k', v') :: d' =>
      if String.eqb k' k then (k', v) :: d' else (k', v') :: set d' k v
  end.

(** [del d[k]]: [None] is [KeyError]. *)
Fixpoint del (d : t) (k : string) : option t :=
  match d with
  | [] => None
  | (k', v') :: d' =>
      if String.eqb k' k then Some d'
      else option_map (cons (k', v')) (del d' k)
  end.

(** [len(d)] *)
Definition len (d : t) : Z := Z.of_nat (length d).

(** [bool(d)] *)
Definition truthy (d : t) : bool :=
  match d with
  | [] => false
  | _ => true
  end.

End Dict.

Arguments empty {V}.

End PyDict.

(** ** [rag/vector_store.py] *)

Module VectorStore.

(** Metadata values ([Any] in the source): the JSON-like values that the
    pipeline and its callers store. *)
#[warnings="-register-all"]
Inductive pyval : Type :=
| VNone
| VBool (b : bool)
| VInt (z : Z)
| VStr (s : string)
| VList (l : list pyval)
| VTuple (l : list pyval).

(** [a == b]. A [bool] is an [int]; a list never equals a tuple. *)
Fixpoint py_eq (a b : pyval) : bool :=
  let fix seq_eq (l1 l2 : list pyval) : bool :=
    match l1, l2 with
    | [], [] => true
    | x :: l1', y :: l2' => py_eq x y && seq_eq l1' l2'
    | _, _ => false
    end in
  match a, b with
  | VNone, VNone => true
  | VBool x, VBool y => Bool.eqb x y
  | VBool x, VInt y => Z.b2z x =? y
  | VInt x, VBool y => x =? Z.b2z y
  | VInt x, VInt y => x =? y
  | VStr x, VStr y => String.eqb x y
  | VList x, VList y => seq_eq x y
  | VTuple x, VTuple y => seq_eq x y
  | _, _ => false
  end.

(** The f-strings that name chunks and documents. *)
Definition chunk_name (i : Z) : string := String.append "chunk_" (Py.str_of_int i).
Definition doc_name (i : Z) : string := String.append "doc_" (Py.str_of_int i).

(** A value of binary64 rounded to binary32 and read back, as
    [np.array(..., dtype=np.float32)] stores it. *)
Definition signed (s : bool) (m : positive) : Z := if s then Z.neg m else Z.pos m.

Definition to_float32 (x : Py.float) : Py.float :=
  match x with
  | S754_finite s m e =>
      match binary_normalize 24 128 (signed s m) e s with
      | S754_finite s' m' e' => binary_normalize 53 1024 (signed s' m') e' s'
      | y => y
      end
  | _ => x
  end.

Definition vector := list Py.float.

(** [np.array(rows, dtype=np.float32)] for a list of lists: [None]
    ([ValueError]) when the rows differ in length. *)
Definition np_array_float32 (rows : list vector) : option (list vector) :=
  match rows with
  | [] => Some []
  | r :: _ =>
      if forallb (fun r' => Nat.eqb (length r') (length r)) rows
      then Some (map (map to_float32) rows)
      else None
  end.

(** [faiss.IndexFlatIP]: the dimension and the stored vectors, in the order
    they were added. *)
Record IndexFlatIP := {
  d : Z;
  xb : list vector
}.

Definition ntotal (index : IndexFlatIP) : Z := Z.of_nat (length (xb index)).

(** [faiss.IndexFlatIP(1536)] *)
Definition new_index : IndexFlatIP := {| d := 1536; xb := [] |}.

(** [index.add(x)]: [None] ([AssertionError]) unless every row has the
    dimension of the index. *)
Definition index_add (index : IndexFlatIP) (x : list vector) : option IndexFlatIP :=
  if forallb (fun r => Z.of_nat (length r) =? d index) x
  then Some {| d := d index; xb := xb index ++ x |}
  else None.

(** The state of a [VectorStore] object. *)
Record t := {
  index : IndexFlatIP;
  document_store : PyDict.t string;
  metadata_store : PyDict.t (PyDict.t pyval)
}.

(** A document dictionary as [add_documents_with_embeddings] reads it: the
    values under ["content"] and ["metadata"], when present. *)
Record document := {
  content : option string;
  metadata : option (PyDict.t pyval)
}.

(** [document_id or f"doc_{n}"]: [None] and the empty string are falsy. *)
Definition document_id_or (document_id : option string) (n : Z) : string :=
  match document_id with
  | Some s => if String.eqb s "" then doc_name n else s
  | None => doc_name n
  end.

(** The dictionary display [{**doc["metadata"], "chunk_id": ...,
    "document_id": ..., "embedding_index": ...}], with [n = start_index + i]. *)
Definition chunk_metadata (m : PyDict.t pyval) (document_id : option string) (n : Z)
  : PyDict.t pyval :=
  let m := PyDict.set m "chunk_id" (VStr (chunk_name n)) in
  let m := PyDict.set m "document_id" (VStr (document_id_or document_id n)) in
  PyDict.set m "embedding_index" (VInt n).

(** The body of the [for i, (doc, embedding) in enumerate(zip(...))] loop,
    with [n = start_index + i]. The flag is [false] when a [KeyError] left
    the loop; the stores are as they were at that point. *)
Fixpoint store_documents (pairs : list (document * vector))
  (document_id : option string) (n : Z)
  (ds : PyDict.t string) (ms : PyDict.t (PyDict.t pyval))
  : PyDict.t string * PyDict.t (PyDict.t pyval) * bool :=
  match pairs with
  | [] => (ds, ms, true)
  | (doc, _) :: rest =>
      let chunk_id := chunk_name n in
      match content doc with
      | None => (ds, ms, false)
      | Some c =>
          let ds := PyDict.set ds chunk_id c in
          match metadata doc with
          | None => (ds, ms, false)
          | Some m =>
              let ms := PyDict.set ms chunk_id (chunk_metadata m document_id n) in
              store_documents rest document_id (n + 1) ds ms
          end
      end
  end.

Definition add_documents_with_embeddings (self : t)
  (documents : list document) (embeddings : list vector)
  (document_id : option string) : t * bool :=
  match documents, embeddings with
  | [], _ | _, [] => (self, false)
  | _, _ =>
      if negb (Nat.eqb (length documents) (length embeddings)) then (self, false)
      else
        (* Convert embeddings to numpy array *)
        match np_array_float32 embeddings with
        | None => (self, false)
        | Some embeddings_array =>
            (* Add to FAISS index *)
            match index_add (index self) embeddings_array with
            | None => (self, false)
            | Some index' =>
                (* Store documents and metadata *)
                let start_index := PyDict.len (document_store self) in
                let '(ds, ms, ok) :=
                  store_documents (combine documents embeddings) document_id
                    start_index (document_store self) (metadata_store self) in
                ({| index := index'; document_store := ds; metadata_store := ms |}, ok)
            end
        end
  end.

(** [_rebuild_index]: both branches install a new, empty index. *)
Definition _rebuild_index (self : t) : t :=
  match document_store self with
  | [] =>
      {| index := new_index;
         document_store := document_store self;
         metadata_store := metadata_store self |}
  | _ =>
      {| index := new_index;
         document_store := document_store self;
         metadata_store := metadata_store self |}
  end.

(** The chunk ids whose metadata names [document_id]. *)
Definition chunks_to_delete (ms : PyDict.t (PyDict.t pyval)) (document_id : string)
  : list string :=
  map fst
    (filter (fun kv =>
               match PyDict.get (snd kv) "document_id" with
               | Some v => py_eq v (VStr document_id)
               | None => false
               end) ms).

(** The [for chunk_id in chunks_to_delete] loop; the flag is [false] when a
    [del] raised [KeyError]. *)
Fixpoint remove_chunks (ids : list string)
  (ds : PyDict.t string) (ms : PyDict.t (PyDict.t pyval))
  : PyDict.t string * PyDict.t (PyDict.t pyval) * bool :=
  match ids with
  | [] => (ds, ms, true)
  | chunk_id :: rest =>
      match PyDict.del ds chunk_id with
      | None => (ds, ms, false)
      | Some ds' =>
          match PyDict.del ms chunk_id with
          | None => (ds', ms, false)
          | Some ms' => remove_chunks rest ds' ms'
          end
      end
  end.

Definition delete_document (self : t) (document_id : string) : t * bool :=
  (* Find chunks to delete *)
  match chunks_to_delete (metadata_store self) document_id with
  | [] => (self, true)
  | ids =>
      (* Remove from stores *)
      let '(ds, ms, ok) := remove_chunks ids (document_store self) (metadata_store self) in
      let self' := {| index := index self; document_store := ds; metadata_store := ms |} in
      if ok then
        (* Rebuild index (FAISS doesn't support deletion) *)
        (_rebuild_index self', true)
      else (self', false)
  end.

(** [health_check], without the optional remote backup. *)
Definition health_check (self : t) : bool :=
  if ntotal (index self) <? 0 then false
  else if negb (PyDict.len (document_store self) =? PyDict.len (metadata_store self)) then false
  else true.

(** *** Loading the persisted pair *)

(** What a path holds when [_initialize_index] looks at it. *)
Inductive file (A : Type) : Type :=
| Missing
| Unreadable
| Holds (a : A).

Arguments Missing {A}.
Arguments Unreadable {A}.
Arguments Holds {A} a.

(** The unpickled dictionary of [metadata.pkl]: the values under
    ['documents'] and ['metadata'], when present. *)
Record pickled := {
  documents : option (PyDict.t string);
  pickled_metadata : option (PyDict.t (PyDict.t pyval))
}.

(** Which branch of [_initialize_index] ran (the three log lines). *)
Inductive load_path : Type :=
| LoadedExisting
| CreatedNew
| FellBack.

(** [__init__] up to and including [_initialize_index]. The function never
    raises: every exception is caught and answered by a new index. *)
Definition _initialize_index (index_file : file IndexFlatIP)
  (metadata_file : file pickled) : load_path * t :=
  let fresh := {| index := new_index;
                  document_store := PyDict.empty;
                  metadata_store := PyDict.empty |} in
  match index_file, metadata_file with
  | Missing, _ | _, Missing => (CreatedNew, fresh)
  | Unreadable, _ => (FellBack, fresh)
  | Holds _, Unreadable => (FellBack, fresh)
  | Holds idx, Holds data =>
      (LoadedExisting,
       {| index := idx;
          document_store :=
            match documents data with Some ds => ds | None => PyDict.empty end;
          metadata_store :=
            match pickled_metadata data with Some ms => ms | None => PyDict.empty end |})
  end.

(** *** Search *)

Record SearchResult := {
  sr_content : string;
  sr_metadata : PyDict.t pyval;
  relevance_score : Py.float;
  chunk_id : string;
  document_id : pyval
}.

(** [_apply_filters(metadata, filters)], over the items of [filters] in
    order. Equality of the values above raises nothing, so the [except]
    branch is not reached. *)
Fixpoint _apply_filters (metadata : PyDict.t pyval) (filters : PyDict.t pyval) : bool :=
  match filters with
  | [] => true
  | (key, value) :: rest =>
      match PyDict.get metadata key with
      | None => false
      | Some mv =>
          match value with
          | VList l | VTuple l =>
              if negb (existsb (fun x => py_eq x mv) l) then false
              else _apply_filters metadata rest
          | _ =>
              if negb (py_eq mv value) then false
              else _apply_filters metadata rest
          end
      end
  end.

(** [filters and not self._apply_filters(metadata, filters)] *)
Definition filtered_out (metadata : PyDict.t pyval) (filters : option (PyDict.t pyval)) : bool :=
  match filters with
  | None => false
  | Some f => PyDict.truthy f && negb (_apply_filters metadata f)
  end.

(** [list.sort(key=..., reverse=True)]: a stable sort by decreasing key,
    which compares keys with [<] only. *)
Section Sort.

Variable A : Type.
Variable key : A -> Py.float.

Fixpoint insert_desc (x : A) (l : list A) : list A :=
  match l with
  | [] => [x]
  | y :: l' =>
      if SFltb (key y) (key x) then x :: l else y :: insert_desc x l'
  end.

Definition sort_desc (l : list A) : list A :=
  fold_left (fun acc x => insert_desc x acc) l [].

End Sort.

Section Search.

(** [index.search(query_array, k)] for a one-row query: the scores and the
    positions of the hits, position -1 marking an unused slot; [None] when
    the library raises. The library is outside the repository. *)
Variable faiss_search : IndexFlatIP -> vector -> Z -> option (list (Py.float * Z)).

(** The body of the loop over the hits: the result kept for a hit, if any. *)
Definition hit_result (self : t) (similarity_threshold : Py.float)
  (filters : option (PyDict.t pyval)) (hit : Py.float * Z) : option SearchResult :=
  let '(score, idx) := hit in
  if idx =? -1 then None
  else
    let chunk_id := chunk_name idx in
    match PyDict.get (document_store self) chunk_id with
    | None => None
    | Some text =>
        (* Apply similarity threshold *)
        if SFltb score similarity_threshold then None
        else
          (* Apply metadata filters *)
          let metadata :=
            match PyDict.get (metadata_store self) chunk_id with
            | Some m => m
            | None => PyDict.empty
            end in
          if filtered_out metadata filters then None
          else
            Some {| sr_content := text;
                    sr_metadata := metadata;
                    relevance_score := score;
                    chunk_id := chunk_id;
                    document_id :=
                      match PyDict.get metadata "document_id" with
                      | Some v => v
                      | None => VStr "unknown"
                      end |}
    end.

Fixpoint collect_results (self : t) (similarity_threshold : Py.float)
  (filters : option (PyDict.t pyval)) (hits : list (Py.float * Z)) : list SearchResult :=
  match hits with
  | [] => []
  | hit :: rest =>
      match hit_result self similarity_threshold filters hit with
      | Some r => r :: collect_results self similarity_threshold filters rest
      | None => collect_results self similarity_threshold filters rest
      end
  end.

Definition search (self : t) (query_embedding : vector) (top_k : Z)
  (similarity_threshold : Py.float) (filters : option (PyDict.t pyval))
  : list SearchResult :=
  if ntotal (index self) =? 0 then []
  else
    (* Search FAISS index *)
    match faiss_search (index self) (map to_float32 query_embedding)
            (Z.min top_k (ntotal (index self))) with
    | None => []
    | Some hits =>
        let results := collect_results self similarity_threshold filters hits in
        (* Sort by relevance score *)
        let results := sort_desc relevance_score results in
        (* Limit results *)
        Py.slice results 0 top_k
    end.

End Search.

End VectorStore.

(** ** [rag/rag_pipeline.py] *)

Module RAGPipeline.
Import VectorStore.

Record DocumentChunk := {
  dc_content : string;
  dc_metadata : PyDict.t pyval;
  dc_relevance_score : Py.float;
  dc_chunk_id : string;
  dc_document_id : pyval
}.

(** The [metadata] dictionary of a [RAGResult]. *)
Record result_metadata := {
  top_k : Z;
  similarity_threshold : Py.float;
  filters_applied : PyDict.t pyval;
  embedding_model : string
}.

(** [RAGResult], without the wall-clock [processing_time]. *)
Record RAGResult := {
  rr_documents : list DocumentChunk;
  rr_query : string;
  total_results : Z;
  rr_metadata : result_metadata
}.

Record t := {
  vector_store : VectorStore.t;
  settings : Settings.t
}.

Section Query.

Variable faiss_search : IndexFlatIP -> vector -> Z -> option (list (Py.float * Z)).

(** [embedding_client.embed_text]: the embedding provider is outside the
    repository; [None] when the call raises. *)
Variable embed_text : string -> option vector.

(** The loop that processes and filters the search results. *)
Definition process_results (similarity_threshold : Py.float) (include_metadata : bool)
  (search_results : list SearchResult) : list DocumentChunk :=
  map (fun result =>
         {| dc_content := sr_content result;
            dc_metadata := if include_metadata then sr_metadata result else PyDict.empty;
            dc_relevance_score := relevance_score result;
            dc_chunk_id := chunk_id result;
            dc_document_id := document_id result |})
      (filter (fun result => SFleb similarity_threshold (relevance_score result))
              search_results).

(** [query]: [None] when the exception of a callee is re-raised. *)
Definition query (self : t) (query : string) (top_k : option Z)
  (similarity_threshold : option Py.float) (filters : option (PyDict.t pyval))
  (include_metadata : bool) : option RAGResult :=
  (* Use settings defaults if not provided *)
  let top_k := Py.int_or top_k (Settings.top_k_results (settings self)) in
  let similarity_threshold :=
    Py.float_or similarity_threshold (Settings.similarity_threshold (settings self)) in
  (* Generate query embedding *)
  match embed_text query with
  | None => None
  | Some query_embedding =>
      (* Search vector store *)
      let search_results :=
        search faiss_search (vector_store self) query_embedding top_k
               similarity_threshold filters in
      (* Process and filter results *)
      let processed_results :=
        process_results similarity_threshold include_metadata search_results in
      (* Sort by relevance score *)
      let processed_results := sort_desc dc_relevance_score processed_results in
      Some {| rr_documents := processed_results;
              rr_query := query;
              total_results := Z.of_nat (length processed_results);
              rr_metadata :=
                {| top_k := top_k;
                   similarity_threshold := similarity_threshold;
                   filters_applied :=
                     match filters with
                     | Some f => f
                     | None => PyDict.empty
                     end;
                   embedding_model := Settings.embedding_model (settings self) |} |}
  end.

End Query.

End RAGPipeline.

(** ** [safety/healthcare_filter.py] *)

Module HealthcareSafetyFilter.
Import Py.

Inductive RiskLevel : Type :=
| LOW
| MEDIUM
| HIGH
| CRITICAL.

Definition value (r : RiskLevel) : Z :=
  match r with
  | LOW => 1
  | MEDIUM => 2
  | HIGH => 3
  | CRITICAL => 4
  end.

Record SafetyResult := {
  is_safe : bool;
  risk_level : RiskLevel;
  reason : string;
  flagged_content : option (list str);
  suggestions : option (list string)
}.

(** *** The regular expressions

    Every pattern of the tables has the shape [\b(w1|w2|...)\b] with literal
    alternatives; a pattern is the list of its alternatives. *)

Definition pattern := list str.

Definition pat (alternatives : list string) : pattern := map lit alternatives.

Definition is_word_at (c : option ascii) : bool :=
  match c with
  | Some c => is_word c
  | None => false
  end.

(** [\b] between two neighbouring positions ([None] beyond either end). *)
Definition word_boundary (before after : option ascii) : bool :=
  xorb (is_word_at before) (is_word_at after).

(** A literal matched at the head of [s] under [re.IGNORECASE]: the text
    matched and what follows it. *)
Fixpoint match_literal (literal s : str) : option (str * str) :=
  match literal with
  | [] => Some ([], s)
  | p :: literal' =>
      match s with
      | [] => None
      | c :: s' =>
          if Ascii.eqb (lower_char c) (lower_char p) then
            match match_literal literal' s' with
            | Some (m, rest) => Some (c :: m, rest)
            | None => None
            end
          else None
      end
  end.

(** The group and the closing [\b]: the first alternative, in order, that
    matches and ends at a word boundary. *)
Fixpoint match_alternatives (alternatives : pattern) (before : option ascii) (s : str)
  : option str :=
  match alternatives with
  | [] => None
  | a :: rest =>
      match match_literal a s with
      | Some (m, after) =>
          if word_boundary (last (map Some m) before) (hd_error after)
          then Some m
          else match_alternatives rest before s
      | None => match_alternatives rest before s
      end
  end.

(** One match attempt at a position, [before] being the character that
    precedes it. *)
Definition match_at (p : pattern) (before : option ascii) (s : str) : option str :=
  if word_boundary before (hd_error s) then match_alternatives p before s else None.

(** The scan of [re.findall]: a match is tried at every position that no
    earlier match covers; [skip] counts the characters still covered. *)
Fixpoint findall_from (p : pattern) (before : option ascii) (s : str) (skip : nat)
  : list str :=
  match s with
  | [] => []
  | c :: s' =>
      match skip with
      | S k => findall_from p (Some c) s' k
      | O =>
          match match_at p before s with
          | Some m => m :: findall_from p (Some c) s' (length m - 1)
          | None => findall_from p (Some c) s' 0
          end
      end
  end.

(** [re.findall(pattern, s, re.IGNORECASE)] *)
Definition findall (p : pattern) (s : str) : list str := findall_from p None s 0.

(** *** The tables *)

Definition unsafe_patterns : list (string * list pattern) :=
  [ ("critical"%string,
     [ pat ["diagnose"; "diagnosis"; "diagnosed"]%string;
       pat ["treat"; "treatment"; "treating"]%string;
       pat ["prescribe"; "prescription"; "medication"]%string;
       pat ["surgery"; "surgical"; "operation"]%string;
       pat ["prognosis"; "outcome"; "survival"]%string;
       pat ["emergency"; "urgent"; "immediate"]%string;
       pat ["deadly"; "fatal"; "lethal"]%string;
       pat ["cancer"; "cancerous"; "malignant"]%string;
       pat ["heart attack"; "stroke"; "seizure"]%string ]);
    ("high"%string,
     [ pat ["symptom"; "symptoms"]%string;
       pat ["pain"; "hurting"; "ache"]%string;
       pat ["fever"; "temperature"; "hot"]%string;
       pat ["bleeding"; "blood"; "wound"]%string;
       pat ["nausea"; "vomiting"; "dizzy"]%string;
       pat ["breathing"; "breathless"; "choking"]%string;
       pat ["chest pain"; "heart"; "cardiac"]%string;
       pat ["headache"; "migraine"; "pressure"]%string ]);
    ("medium"%string,
     [ pat ["medicine"; "pill"; "drug"]%string;
       pat ["dose"; "dosage"; "amount"]%string;
       pat ["side effect"; "reaction"; "allergy"]%string;
       pat ["test"; "testing"; "exam"]%string;
       pat ["result"; "finding"; "abnormal"]%string;
       pat ["risk"; "dangerous"; "harmful"]%string ]);
    ("low"%string,
     [ pat ["healthy"; "wellness"; "fitness"]%string;
       pat ["nutrition"; "diet"; "vitamin"]%string;
       pat ["exercise"; "workout"; "activity"]%string;
       pat ["sleep"; "rest"; "relaxation"]%string;
       pat ["prevention"; "prevent"; "avoid"]%string ]) ].

Definition medical_advice_patterns : list pattern :=
  [ pat ["you should"; "you need to"; "you must"]%string;
    pat ["I recommend"; "I suggest"; "I advise"]%string;
    pat ["take this"; "use this"; "try this"]%string;
    pat ["apply"; "administer"; "inject"]%string;
    pat ["continue"; "stop"; "start"]%string;
    pat ["change"; "modify"; "adjust"]%string;
    pat ["combine"; "mix"; "add"]%string;
    pat ["avoid"; "prevent"; "stop"]%string ].

(** *** Scoring *)

Record risk_assessment := {
  risk_scores : PyDict.t Z;
  ra_flagged_content : list str;
  total_risk : Z
}.

(** The inner loop over the patterns of one tier: all matches, in order. *)
Definition flagged_items (patterns : list pattern) (content_lower : str) : list str :=
  flat_map (fun p => findall p content_lower) patterns.

Definition weight (risk_level : string) : Z :=
  if String.eqb risk_level "critical" then 10
  else if String.eqb risk_level "high" then 5
  else if String.eqb risk_level "medium" then 2
  else 1.

(** The outer loop of [_assess_content_risk] over the tiers. *)
Fixpoint assess_tiers (tiers : list (string * list pattern)) (content_lower : str)
  (acc : risk_assessment) : risk_assessment :=
  match tiers with
  | [] => acc
  | (risk_level, patterns) :: rest =>
      let items := flagged_items patterns content_lower in
      let risk_score := Z.of_nat (length items) in
      let scores := PyDict.set (risk_scores acc) risk_level risk_score in
      let acc :=
        if 0 <? risk_score then
          {| risk_scores := scores;
             ra_flagged_content := ra_flagged_content acc ++ items;
             total_risk := total_risk acc + risk_score * weight risk_level |}
        else
          {| risk_scores := scores;
             ra_flagged_content := ra_flagged_content acc;
             total_risk := total_risk acc |} in
      assess_tiers rest content_lower acc
  end.

Definition _assess_content_risk (content : str) : risk_assessment :=
  assess_tiers unsafe_patterns (lower content)
    {| risk_scores := PyDict.empty; ra_flagged_content := []; total_risk := 0 |}.

Record advice_detection := {
  patterns_found : list str;
  advice_count : Z;
  severity : string
}.

Definition _detect_medical_advice (content : str) : advice_detection :=
  let found := flagged_items medical_advice_patterns (lower content) in
  let count := Z.of_nat (length found) in
  {| patterns_found := found;
     advice_count := count;
     severity :=
       if 3 <=? count then "high"
       else if 1 <=? count then "medium"
       else "none" |}.

(** [risk_assessment["risk_scores"].get("critical", 0)] *)
Definition critical_score (risk : risk_assessment) : Z :=
  match PyDict.get (risk_scores risk) "critical" with
  | Some n => n
  | None => 0
  end.

Definition _determine_safety (risk : risk_assessment) (medical_advice : advice_detection)
  : bool :=
  (* Check critical risk threshold *)
  if 20 <=? total_risk risk then false
  (* Check medical advice severity *)
  else if String.eqb (severity medical_advice) "high" then false
  (* Check for critical patterns *)
  else if 0 <? critical_score risk then false
  else true.

Definition _determine_risk_level (risk : risk_assessment) (medical_advice : advice_detection)
  : RiskLevel :=
  let total_risk := total_risk risk in
  let advice_severity := severity medical_advice in
  if (30 <=? total_risk) || String.eqb advice_severity "high" then CRITICAL
  else if (20 <=? total_risk) || String.eqb advice_severity "medium" then HIGH
  else if 10 <=? total_risk then MEDIUM
  else LOW.

Definition _generate_safety_reason (risk : risk_assessment) (medical_advice : advice_detection)
  : string :=
  let reasons :=
    (if 0 <? total_risk risk
     then [String.append "Content contains "
             (String.append (Py.str_of_int (total_risk risk)) " risk indicators")]
     else []) ++
    (if 0 <? advice_count medical_advice
     then [String.append "Contains "
             (String.append (Py.str_of_int (advice_count medical_advice))
                " medical advice patterns")]
     else []) in
  match reasons with
  | [] => "Content appears safe and compliant"
  | _ => String.concat "; " reasons
  end.

Definition _generate_safety_suggestions (risk : risk_assessment)
  (medical_advice : advice_detection) : list string :=
  [ "Always consult healthcare professionals for medical concerns";
    "Focus on educational information rather than advice";
    "Include appropriate disclaimers" ]%string ++
  (if 0 <? advice_count medical_advice
   then [ "Avoid direct medical recommendations";
          "Use conditional language (e.g., 'may help' instead of 'will help')" ]%string
   else []) ++
  (if 0 <? critical_score risk
   then [ "Remove or rephrase critical medical terms";
          "Add emergency disclaimers where appropriate" ]%string
   else []).

(** [check_content]. Nothing in the body raises on a string, so the
    fail-closed [except] branch is not reached; [content_type] is unused. *)
Definition check_content (content : str) : SafetyResult :=
  match content, strip content with
  | [], _ | _, [] =>
      {| is_safe := true;
         risk_level := LOW;
         reason := "Empty content";
         flagged_content := None;
         suggestions := None |}
  | _, _ =>
      (* Check for unsafe patterns *)
      let risk := _assess_content_risk content in
      (* Check for medical advice patterns *)
      let medical_advice_detected := _detect_medical_advice content in
      (* Determine overall safety *)
      {| is_safe := _determine_safety risk medical_advice_detected;
         risk_level := _determine_risk_level risk medical_advice_detected;
         reason := _generate_safety_reason risk medical_advice_detected;
         flagged_content := Some (ra_flagged_content risk);
         suggestions := Some (_generate_safety_suggestions risk medical_advice_detected) |}
  end.

(** *** The fallback responses *)

Definition contains_any (keywords : list string) (message : str) : bool :=
  let message_lower := lower message in
  existsb (fun keyword => contains message_lower (lit keyword)) keywords.

Definition _contains_emergency_keywords (message : str) : bool :=
  contains_any
    [ "emergency"; "urgent"; "immediate"; "severe"; "critical";
      "pain"; "bleeding"; "unconscious"; "breathing"; "heart" ]%string message.

Definition _contains_symptom_keywords (message : str) : bool :=
  contains_any
    [ "symptom"; "feeling"; "experiencing"; "noticing"; "having" ]%string message.

Definition _contains_treatment_keywords (message : str) : bool :=
  contains_any
    [ "treat"; "cure"; "fix"; "help"; "solution"; "remedy" ]%string message.

Definition _generate_emergency_response : str :=
  lit "I understand you may be experiencing concerning symptoms. "
  ++ lit "If you're experiencing a medical emergency, please call emergency services immediately. "
  ++ lit "For non-emergency concerns, I recommend consulting with a healthcare professional "
  ++ lit "who can properly assess your situation and provide appropriate guidance.".

Definition _generate_symptom_response : str :=
  lit "I can provide general information about symptoms, but I cannot diagnose or assess "
  ++ lit "your specific situation. If you're concerned about symptoms you're experiencing, "
  ++ lit "please consult with a healthcare professional who can properly evaluate your condition "
  ++ lit "and provide appropriate medical advice.".

Definition _generate_treatment_response : str :=
  lit "I can provide educational information about treatments, but I cannot recommend "
  ++ lit "specific treatments for your situation. Treatment decisions should be made by "
  ++ lit "qualified healthcare professionals based on your individual medical history, "
  ++ lit "current condition, and other relevant factors.".

Definition _generate_general_safe_response : str :=
  lit "I'm here to provide helpful healthcare information and answer your questions. "
  ++ lit "However, for any medical concerns, diagnosis, or treatment recommendations, "
  ++ lit "please consult with qualified healthcare professionals who can provide "
  ++ lit "personalized medical advice based on your specific situation.".

Definition generate_safe_response (user_message : str) : str :=
  (* Analyze user message to determine appropriate response type *)
  if _contains_emergency_keywords user_message then _generate_emergency_response
  else if _contains_symptom_keywords user_message then _generate_symptom_response
  else if _contains_treatment_keywords user_message then _generate_treatment_response
  else _generate_general_safe_response.

End HealthcareSafetyFilter.

(** * Notions used by the statements *)

Module Cleaned.
Import Py DocumentProcessor.

(** A character that the cleaning steps leave alone: the space that they
    write, or a character that is neither whitespace nor special. *)
Definition settled (c : ascii) : Prop :=
  c = space \/ (isspace c = false /\ special c = false).

(** No two neighbouring characters are both of the class [p]. *)
Fixpoint no_adjacent (p : ascii -> bool) (s : str) : Prop :=
  match s with
  | c :: s' =>
      match s' with
      | c' :: _ => (p c && p c')%bool = false /\ no_adjacent p s'
      | [] => True
      end
  | [] => True
  end.

(** The shape of every output of [_clean_text]. *)
Definition clean_form (s : str) : Prop :=
  Forall settled s /\ no_adjacent isspace s /\ lstrip s = s /\ rstrip s = s.

End Cleaned.

(** Concrete inputs and states used as examples. *)
Module Scenario.
Import Py VectorStore.

(** The text on which the break point stalls the window: a full stop at
    index 8 of the first ten characters. *)
Definition stalling_text : str := lit "aaaaaaaa.aaaaaaaaaaa".

Definition zero : Py.float := S754_zero false.

(** An embedding of the dimension of a new index. *)
Definition zero_vector : vector := repeat zero 1536.

(** The store of a process started with no files on disk. *)
Definition fresh : VectorStore.t := snd (_initialize_index Missing Missing).

Definition plain (text : string) : document :=
  {| content := Some text; metadata := Some PyDict.empty |}.

(** A document dictionary with no ["metadata"] key. *)
Definition no_metadata (text : string) : document :=
  {| content := Some text; metadata := None |}.

(** One chunk of document ["A"], then one chunk of document ["B"]. *)
Definition two_documents : VectorStore.t :=
  let s1 := fst (add_documents_with_embeddings fresh [plain "alpha"] [zero_vector] (Some "A"%string)) in
  fst (add_documents_with_embeddings s1 [plain "beta"] [zero_vector] (Some "B"%string)).

(** A persisted pair that disagrees: two vectors, one record. *)
Definition two_vectors : IndexFlatIP := {| d := 2; xb := [[zero; zero]; [zero; zero]] |}.

(** A chunk that carries a ["category"] and a chunk that does not. *)
Definition labelled : document :=
  {| content := Some "alpha"%string;
     metadata := Some [("category"%string, VStr "cardiology")] |}.

Definition labelled_store : VectorStore.t :=
  fst (add_documents_with_embeddings fresh [labelled; plain "beta"]
         [zero_vector; zero_vector] (Some "A"%string)).

(** A search library that reports the first two positions, in order. *)
Definition two_hits (_ : IndexFlatIP) (_ : vector) (_ : Z) : option (list (Py.float * Z)) :=
  Some [(Settings.f0_7, 0); (Settings.f0_7, 1)].

Definition one_record : pickled :=
  {| documents := Some [("chunk_0"%string, "alpha"%string)];
     pickled_metadata := Some [("chunk_0"%string, [("document_id"%string, VStr "A")])] |}.

End Scenario.

(** Notions about a batch given to [add_documents_with_embeddings]. *)
Module Batch.
Import VectorStore.

(** The checks that precede every update: both lists non-empty, of equal
    length, and every embedding of the dimension of the index. *)
Definition batch_accepted (self : VectorStore.t) (documents : list document)
  (embeddings : list vector) : bool :=
  negb (Nat.eqb (length documents) 0) && negb (Nat.eqb (length embeddings) 0)
  && Nat.eqb (length documents) (length embeddings)
  && forallb (fun r => Z.of_nat (length r) =? d (index self)) embeddings.

(** A document dictionary that has both keys the loop reads. *)
Definition well_formed (doc : document) : Prop :=
  content doc <> None /\ metadata doc <> None.

(** [metadata_store.get(chunk_id, {})] *)
Definition stored_metadata (self : VectorStore.t) (chunk_id : string) : PyDict.t pyval :=
  match PyDict.get (metadata_store self) chunk_id with
  | Some m => m
  | None => PyDict.empty
  end.

End Batch.

(** The quantities that the safety verdict is stated in. *)
Module Verdict.
Import Py HealthcareSafetyFilter.

(** The patterns of one tier of the table. *)
Definition tier (name : string) : list pattern :=
  match PyDict.get unsafe_patterns name with
  | Some patterns => patterns
  | None => []
  end.

(** The number of matches of one pattern in a text: what a case-insensitive
    scan of the text itself finds. *)
Definition occurrences (p : pattern) (content : str) : Z :=
  Z.of_nat (length (findall p content)).

(** The matches of a list of patterns, summed across the patterns. *)
Definition matches (patterns : list pattern) (content : str) : Z :=
  fold_right (fun p sum => occurrences p content + sum) 0 patterns.

(** CRITICAL matches x 10 + HIGH x 5 + MEDIUM x 2 + LOW x 1. *)
Definition weighted_total (content : str) : Z :=
  matches (tier "critical") content * 10 + matches (tier "high") content * 5
  + matches (tier "medium") content * 2 + matches (tier "low") content * 1.

(** The weighted sum over an arbitrary table. *)
Definition tiers_total (tiers : list (string * list pattern)) (content_lower : str) : Z :=
  fold_right
    (fun (t : string * list pattern) (sum : Z) =>
       Z.of_nat (length (flagged_items (snd t) content_lower)) * weight (fst t) + sum)
    0 tiers.

(** The scores recorded for an arbitrary table. *)
Definition tiers_scores (tiers : list (string * list pattern)) (content_lower : str)
  (scores : PyDict.t Z) : PyDict.t Z :=
  fold_left
    (fun (sc : PyDict.t Z) (t : string * list pattern) =>
       PyDict.set sc (fst t) (Z.of_nat (length (flagged_items (snd t) content_lower))))
    tiers scores.

(** The four canned responses. *)
Definition canned_responses : list str :=
  [ _generate_emergency_response; _generate_symptom_response;
    _generate_treatment_response; _generate_general_safe_response ].

End Verdict.

(** * Further functions of the same files *)

(** ** [rag/document_processor.py]: sentence chunks and [process_document] *)

Module SentenceChunker.
Import Py DocumentProcessor.

Definition is_sentence_end (c : option ascii) : bool :=
  match c with
  | Some c => existsb (Ascii.eqb c) ["."; "!"; "?"]%char
  | None => false
  end.

(** [re.split(r'(?<=[.!?])\s+', text)]: a separator is a maximal run of
    whitespace that directly follows one of [.], [!], [?]. [before] is the
    character that precedes [s], [in_separator] tells whether it belongs to
    a separator, [piece] is the piece read so far. *)
Fixpoint split_sentences (s : str) (before : option ascii) (in_separator : bool)
  (piece : str) : list str :=
  match s with
  | [] => [piece]
  | c :: s' =>
      if (isspace c && (in_separator || is_sentence_end before))%bool then
        if in_separator then split_sentences s' (Some c) true piece
        else piece :: split_sentences s' (Some c) true []
      else split_sentences s' (Some c) false (piece ++ [c])
  end.

(** The [for sentence in sentences] loop and the final flush. *)
Fixpoint accumulate (sentences : list str) (max_chunk_size : Z)
  (chunks : list str) (current_chunk : str) : list str :=
  match sentences with
  | [] =>
      (* Add the last chunk *)
      match current_chunk with
      | [] => chunks
      | _ => chunks ++ [strip current_chunk]
      end
  | sentence :: rest =>
      let sentence := strip sentence in
      match sentence with
      | [] => accumulate rest max_chunk_size chunks current_chunk
      | _ =>
          (* Check if adding this sentence would exceed chunk size *)
          if ((len current_chunk + len sentence + 1 >? max_chunk_size)
              && match current_chunk with [] => false | _ => true end)%bool
          then accumulate rest max_chunk_size (chunks ++ [strip current_chunk]) sentence
          else
            accumulate rest max_chunk_size chunks
              match current_chunk with
              | [] => sentence
              | _ => current_chunk ++ [space] ++ sentence
              end
      end
  end.

Definition chunk_text_by_sentences (settings : Settings.t) (text : str)
  (max_chunk_size : option Z) : list str :=
  match text with
  | [] => []
  | _ =>
      let max_chunk_size := int_or max_chunk_size (Settings.chunk_size settings) in
      (* Split into sentences *)
      let sentences := split_sentences text None false [] in
      accumulate sentences max_chunk_size [] []
  end.

(** [process_document] from the point where the text of the file has been
    extracted: nothing for blank text, otherwise the chunks of the cleaned
    text under the configured sizes. *)
Definition process_extracted_text (settings : Settings.t) (fuel : nat) (text : str)
  : outcome (list str) :=
  match text, strip text with
  | [], _ | _, [] => Returned []
  | _, _ =>
      (* Clean and preprocess text *)
      let cleaned_text := _clean_text text in
      (* Chunk the text *)
      chunk_text settings fuel cleaned_text
        (Some (Settings.chunk_size settings)) (Some (Settings.chunk_overlap settings))
  end.

End SentenceChunker.

(** ** [rag/embedding_client.py] *)

Module EmbeddingClient.
Import Py VectorStore.

Section Client.

(** [client.embeddings.create(model=..., input=texts)] read as the list of
    the embeddings of [response.data]; [None] when the call raises. The
    provider is outside the repository. *)
Variable create : list str -> option (list vector).

(** [text and text.strip()] *)
Definition nonblank (text : str) : bool :=
  match text, strip text with
  | [], _ | _, [] => false
  | _, _ => true
  end.

(** The truncation to [max_tokens * 4] characters. *)
Definition truncate (text : str) : str :=
  if len text >? 8000 * 4 then slice text 0 (8000 * 4) else text.

(** [embed_text]: [None] when the exception is re-raised. *)
Definition embed_text (text : str) : option vector :=
  if negb (nonblank text) then Some []
  else
    match create [truncate text] with
    | None => None
    | Some [] => None
    | Some (embedding :: _) => Some embedding
    end.

(** The padding loop of [_embed_batch_internal]: [None] is the [IndexError]
    of [embeddings[text_index]]. *)
Fixpoint pad_embeddings (texts : list str) (embeddings : list vector)
  : option (list vector) :=
  match texts with
  | [] => Some []
  | original_text :: rest =>
      if nonblank original_text then
        match embeddings with
        | [] => None
        | e :: embeddings' => option_map (cons e) (pad_embeddings rest embeddings')
        end
      else option_map (cons []) (pad_embeddings rest embeddings)
  end.

Definition empty_embeddings (texts : list str) : list vector := map (fun _ => []) texts.

Definition _embed_batch_internal (texts : list str) : list vector :=
  (* Filter out empty texts *)
  let valid_texts := filter nonblank texts in
  match valid_texts with
  | [] => empty_embeddings texts
  | _ =>
      (* Truncate texts if needed *)
      let truncated_texts := map truncate valid_texts in
      match create truncated_texts with
      | None => empty_embeddings texts
      | Some embeddings =>
          (* Pad with empty embeddings for any texts that were filtered out *)
          match pad_embeddings texts embeddings with
          | Some result => result
          | None => empty_embeddings texts
          end
      end
  end.

(** The loop [for i in range(0, len(texts), batch_size)] for a positive
    [batch_size], on the texts from position [i] on. *)
Fixpoint embed_batches (fuel : nat) (texts : list str) (batch_size : nat) : list vector :=
  match fuel with
  | O => []
  | S fuel' =>
      match texts with
      | [] => []
      | _ =>
          _embed_batch_internal (firstn batch_size texts)
          ++ embed_batches fuel' (skipn batch_size texts) batch_size
      end
  end.

(** [embed_batch]: [None] is the [ValueError] of [range] for a zero step,
    re-raised; a negative step gives no batch at all. *)
Definition embed_batch (texts : list str) (batch_size : Z) : option (list vector) :=
  match texts with
  | [] => Some []
  | _ =>
      if batch_size =? 0 then None
      else if batch_size <? 0 then Some []
      else Some (embed_batches (length texts) texts (Z.to_nat batch_size))
  end.

End Client.

End EmbeddingClient.

(** ** [rag/rag_pipeline.py]: ingestion *)

Module Ingest.
Import Py VectorStore.

Section Pipeline.

Variable create : list str -> option (list vector).

(** The dictionary display of [add_documents] for chunk [j] of document
    [i]: the four positional fields, then the caller's [metadata] merged
    over them ([**(metadata or {})]). *)
Definition chunk_metadata_of (i j total_chunks : Z) (chunk : str)
  (metadata : option (PyDict.t pyval)) : PyDict.t pyval :=
  let positional : PyDict.t pyval :=
    [ ("document_index"%string, VInt i);
      ("chunk_index"%string, VInt j);
      ("total_chunks"%string, VInt total_chunks);
      ("chunk_size"%string, VInt (len chunk)) ] in
  fold_left (fun m kv => PyDict.set m (fst kv) (snd kv))
    (match metadata with Some m => m | None => PyDict.empty end)
    positional.

(** The inner loop [for j, chunk in enumerate(chunks)]. *)
Fixpoint chunk_dictionaries (chunks : list str) (i j total_chunks : Z)
  (metadata : option (PyDict.t pyval)) : list document :=
  match chunks with
  | [] => []
  | chunk :: rest =>
      {| content := Some (string_of_list_ascii chunk);
         metadata := Some (chunk_metadata_of i j total_chunks chunk metadata) |}
      :: chunk_dictionaries rest i (j + 1) total_chunks metadata
  end.

(** The outer loop [for i, doc_content in enumerate(documents)]: the chunk
    texts with their dictionaries. *)
Fixpoint all_chunks (settings : Settings.t) (fuel : nat) (documents : list str) (i : Z)
  (metadata : option (PyDict.t pyval)) (chunk_size chunk_overlap : Z)
  : outcome (list str * list document) :=
  match documents with
  | [] => Returned ([], [])
  | doc_content :: rest =>
      match DocumentProcessor.chunk_text settings fuel doc_content
              (Some chunk_size) (Some chunk_overlap) with
      | Raised => Raised
      | OutOfFuel => OutOfFuel
      | Returned chunks =>
          match all_chunks settings fuel rest (i + 1) metadata chunk_size chunk_overlap with
          | Raised => Raised
          | OutOfFuel => OutOfFuel
          | Returned (texts, dictionaries) =>
              Returned (chunks ++ texts,
                        chunk_dictionaries chunks i 0 (Z.of_nat (length chunks)) metadata
                        ++ dictionaries)
          end
      end
  end.

(** [RAGPipeline.add_documents]: the new vector store and the value
    returned; every exception is answered by [False]. [fuel] bounds each
    call of [chunk_text]. *)
Definition add_documents (self : RAGPipeline.t) (fuel : nat) (documents : list str)
  (metadata : option (PyDict.t pyval)) (chunk_size chunk_overlap : option Z)
  : outcome (VectorStore.t * bool) :=
  let settings := RAGPipeline.settings self in
  (* Use settings defaults if not provided *)
  let chunk_size := int_or chunk_size (Settings.chunk_size settings) in
  let chunk_overlap := int_or chunk_overlap (Settings.chunk_overlap settings) in
  (* Process documents into chunks *)
  match all_chunks settings fuel documents 0 metadata chunk_size chunk_overlap with
  | OutOfFuel => OutOfFuel
  | Raised => Returned (RAGPipeline.vector_store self, false)
  | Returned (chunk_texts, dictionaries) =>
      (* Generate embeddings for all chunks *)
      match EmbeddingClient.embed_batch create chunk_texts 100 with
      | None => Returned (RAGPipeline.vector_store self, false)
      | Some embeddings =>
          (* Add to vector store *)
          Returned (add_documents_with_embeddings (RAGPipeline.vector_store self)
                      dictionaries embeddings None)
      end
  end.

(** [RAGPipeline.update_document]: delete, then add. *)
Definition update_document (self : RAGPipeline.t) (fuel : nat) (document_id : string)
  (new_content : str) (metadata : option (PyDict.t pyval))
  : outcome (VectorStore.t * bool) :=
  (* Remove old document *)
  let store := fst (delete_document (RAGPipeline.vector_store self) document_id) in
  (* Add updated document *)
  add_documents
    {| RAGPipeline.vector_store := store; RAGPipeline.settings := RAGPipeline.settings self |}
    fuel [new_content]
    (Some match metadata with
          | Some (_ :: _ as m) => m
          | _ => [("document_id"%string, VStr document_id)]
          end)
    None None.

End Pipeline.

End Ingest.

(** ** [safety/healthcare_filter.py]: the filter's health check *)

Module FilterHealth.
Import Py HealthcareSafetyFilter.

Definition health_check : bool :=
  (* Test with safe content *)
  if negb (is_safe (check_content (lit "Hello, how are you?"))) then false
  (* Test with unsafe content *)
  else if is_safe (check_content (lit "You should take this medicine for your symptoms"))
  then false
  else true.

End FilterHealth.

(** ** Notions used by the further statements *)

Module Shapes.
Import Py VectorStore.

(** No element is followed by one with a strictly greater key. *)
Fixpoint descending {A : Type} (key : A -> Py.float) (l : list A) : Prop :=
  match l with
  | x :: l' =>
      match l' with
      | y :: _ => SFltb (key x) (key y) = false /\ descending key l'
      | [] => True
      end
  | [] => True
  end.

(** The store of the example after document ["A"] was deleted. *)
Definition after_delete : VectorStore.t :=
  fst (delete_document Scenario.two_documents "A").

(** The names of the first [n] positions. *)
Definition names (n : nat) : list string :=
  map (fun i => chunk_name (Z.of_nat i)) (seq 0 n).

(** The lock-step state: the [n] vectors of the index correspond, in order,
    to the keys [chunk_0 .. chunk_(n-1)] of both maps. *)
Definition in_step (self : VectorStore.t) : Prop :=
  map fst (document_store self) = names (length (xb (index self))) /\
  map fst (metadata_store self) = names (length (xb (index self))).

(** The metadata record names [document_id]. *)
Definition references (document_id : string) (kv : string * PyDict.t pyval) : bool :=
  match PyDict.get (snd kv) "document_id" with
  | Some v => py_eq v (VStr document_id)
  | None => false
  end.

(** The chunk sizes for which the acceptance test of a break point has been
    evaluated. *)
Definition checked_sizes : Z := 100000.

(** [f] holds at [i], [i + 1], ..., [i + fuel - 1]. *)
Fixpoint all_from (fuel : nat) (i : Z) (f : Z -> bool) : bool :=
  match fuel with
  | O => true
  | S fuel' => f i && all_from fuel' (i + 1) f
  end.

(** For [chunk_size], the float test [last_ending > chunk_size * 0.7]
    rejects the largest integer below seven tenths of [chunk_size]. *)
Definition threshold_exact (chunk_size : Z) : bool :=
  match float_of_int chunk_size with
  | Some f => negb (int_gt_float ((7 * chunk_size + 9) / 10 - 1) (fmul f Settings.f0_7))
  | None => false
  end.

(** What holds of every chunk of [chunk_text_by_sentences]: it is
    non-empty and stripped, and it fits the size or is one whole sentence. *)
Definition sound_chunk (sentences_all : list str) (max_chunk_size : Z) (c : str) : Prop :=
  c <> [] /\ strip c = c /\
  (len c <= max_chunk_size \/ exists s, In s sentences_all /\ c = strip s).

(** In the answer of the embedding client, a blank text has the empty
    vector. *)
Definition padded (text : str) (embedding : vector) : Prop :=
  EmbeddingClient.nonblank text = false -> embedding = [].

(** [bool(s)] for a string. *)
Definition nonempty (s : str) : bool :=
  match s with
  | [] => false
  | _ => true
  end.

(** Every string with a space in front, concatenated. *)
Definition spaced (l : list str) : str :=
  flat_map (fun x => DocumentProcessor.space :: x) l.

(** [" ".join(l)] *)
Fixpoint join_space (l : list str) : str :=
  match l with
  | [] => []
  | [x] => x
  | x :: l' => x ++ [DocumentProcessor.space] ++ join_space l'
  end.

End Shapes.

Unset Implicit Arguments.

Ltac each_char c :=
  destruct c as [[] [] [] [] [] [] [] []]; vm_compute; try reflexivity; try discriminate.

(** * Properties of the Python string operations *)

Module PyFacts.
Import Py.

Lemma isspace_not_word : forall c, isspace c = true -> is_word c = false.
Proof. intros c; each_char c. Qed.

Lemma isspace_lower_char : forall c, isspace c = true -> lower_char c = c.
Proof. intros c; each_char c. Qed.

Lemma lower_char_idempotent : forall c, lower_char (lower_char c) = lower_char c.
Proof. intros c; each_char c. Qed.

Lemma isspace_lower_char_same : forall c, isspace (lower_char c) = isspace c.
Proof. intros c; each_char c. Qed.

Lemma is_word_lower_char : forall c, is_word (lower_char c) = is_word c.
Proof. intros c; each_char c. Qed.

Lemma lstrip_head : forall s,
  lstrip s = [] \/ exists c t, lstrip s = c :: t /\ isspace c = false.
Proof.
  induction s as [|c s IH]; simpl; auto.
  destruct (isspace c) eqn:E; auto.
  right; exists c, s; auto.
Qed.

Lemma lstrip_fixed : forall c t, isspace c = false -> lstrip (c :: t) = c :: t.
Proof. intros c t H; simpl; rewrite H; reflexivity. Qed.

Lemma lstrip_suffix : forall s, exists pre, s = pre ++ lstrip s.
Proof.
  induction s as [|c s [pre IH]]; simpl.
  - exists []; reflexivity.
  - destruct (isspace c).
    + exists (c :: pre); simpl; congruence.
    + exists []; reflexivity.
Qed.

Lemma rstrip_prefix : forall s, exists suf, s = rstrip s ++ suf.
Proof.
  induction s as [|c s [suf IH]]; simpl.
  - exists []; reflexivity.
  - destruct (rstrip s) as [|x t] eqn:E.
    + destruct (isspace c).
      * exists (c :: s); reflexivity.
      * exists s; reflexivity.
    + exists suf; simpl; rewrite IH at 1; reflexivity.
Qed.

Lemma rstrip_idempotent : forall s, rstrip (rstrip s) = rstrip s.
Proof.
  induction s as [|c s IH]; simpl; auto.
  destruct (rstrip s) as [|x t] eqn:E.
  - destruct (isspace c) eqn:Hc; simpl; auto. rewrite Hc; reflexivity.
  - change (rstrip (c :: x :: t)) with
      (match rstrip (x :: t) with [] => if isspace c then [] else [c] | u => c :: u end).
    rewrite IH; reflexivity.
Qed.

Lemma rstrip_keeps_head : forall c t,
  isspace c = false -> exists u, rstrip (c :: t) = c :: u.
Proof.
  intros c t H; simpl. destruct (rstrip t).
  - rewrite H; exists []; reflexivity.
  - eexists; reflexivity.
Qed.

Lemma lstrip_strip : forall s, lstrip (strip s) = strip s.
Proof.
  intros s; unfold strip.
  destruct (lstrip_head s) as [E | (c & t & E & Hc)]; rewrite E.
  - reflexivity.
  - destruct (rstrip_keeps_head c t Hc) as [u Hu]; rewrite Hu.
    apply lstrip_fixed; assumption.
Qed.

Lemma rstrip_strip : forall s, rstrip (strip s) = strip s.
Proof. intros s; unfold strip; apply rstrip_idempotent. Qed.

Lemma strip_idempotent : forall s, strip (strip s) = strip s.
Proof.
  intros s; unfold strip at 1. rewrite lstrip_strip. apply rstrip_strip.
Qed.

Lemma lstrip_nil_all_space : forall s, lstrip s = [] -> Forall (fun c => isspace c = true) s.
Proof.
  induction s as [|c s IH]; simpl; intros H; auto.
  destruct (isspace c) eqn:E; [auto | discriminate].
Qed.

Lemma rstrip_nil_all_space : forall s, rstrip s = [] -> Forall (fun c => isspace c = true) s.
Proof.
  induction s as [|c s IH]; simpl; intros H; auto.
  destruct (rstrip s) eqn:E; [|discriminate].
  destruct (isspace c) eqn:Hc; [auto | discriminate].
Qed.

Lemma strip_nil_all_space : forall s, strip s = [] -> Forall (fun c => isspace c = true) s.
Proof.
  intros s H; unfold strip in H.
  apply rstrip_nil_all_space in H.
  induction s as [|c s IH]; auto.
  simpl in H. destruct (isspace c) eqn:Hc.
  - constructor; auto.
  - exact H.
Qed.

(** The output of [re_sub_runs] holds the replacement and characters
    outside the class, and never two neighbours of the class. *)
Section Runs.

Variable p : ascii -> bool.
Variable r : ascii.

Lemma re_sub_runs_chars : forall s,
  Forall (fun c => c = r \/ (p c = false /\ In c s)) (re_sub_runs p r s).
Proof.
  induction s as [|c s IH]; simpl; auto.
  assert (IH' : Forall (fun x => x = r \/ (p x = false /\ (c = x \/ In x s)))
                  (re_sub_runs p r s)).
  { eapply Forall_impl; [|exact IH]. simpl; intros x [H | [H1 H2]]; auto. }
  destruct (p c) eqn:Hc.
  - destruct s as [|c' s']; [repeat constructor; auto|].
    destruct (p c'); auto.
  - constructor; auto.
Qed.

Lemma re_sub_runs_Forall : forall (Q : ascii -> Prop) s,
  Q r -> Forall Q s -> Forall Q (re_sub_runs p r s).
Proof.
  intros Q s Hr Hs.
  eapply Forall_impl; [|apply re_sub_runs_chars].
  simpl; intros x [-> | [_ Hin]]; auto.
  rewrite Forall_forall in Hs; auto.
Qed.

Lemma re_sub_runs_head : forall c s,
  p c = false -> re_sub_runs p r (c :: s) = c :: re_sub_runs p r s.
Proof. intros c s H; simpl; rewrite H; reflexivity. Qed.

Lemma re_sub_runs_no_adjacent : forall s, Cleaned.no_adjacent p (re_sub_runs p r s).
Proof.
  induction s as [|c s IH]; [exact I|].
  destruct (p c) eqn:Hc.
  - destruct s as [|c' s']; [simpl; rewrite Hc; exact I|].
    destruct (p c') eqn:Hc'.
    + simpl; rewrite Hc, Hc'. simpl in IH; rewrite Hc' in IH. exact IH.
    + change (re_sub_runs p r (c :: c' :: s')) with
        (if p c then (if p c' then re_sub_runs p r (c' :: s')
                      else r :: re_sub_runs p r (c' :: s'))
         else c :: re_sub_runs p r (c' :: s')).
      rewrite Hc, Hc'. rewrite re_sub_runs_head in * by assumption.
      simpl; split; [rewrite Hc'; apply andb_false_r | exact IH].
  - rewrite re_sub_runs_head by assumption.
    destruct (re_sub_runs p r s) eqn:E; simpl; [exact I|].
    rewrite Hc; split; [reflexivity | exact IH].
Qed.

Lemma re_sub_runs_fixed : forall s,
  (forall c, In c s -> p c = true -> c = r) ->
  Cleaned.no_adjacent p s ->
  re_sub_runs p r s = s.
Proof.
  induction s as [|c s IH]; intros Hr Hadj; [reflexivity|].
  assert (IHs : re_sub_runs p r s = s).
  { apply IH; [intros x Hx; apply Hr; right; exact Hx|].
    destruct s; [exact I | apply Hadj]. }
  destruct (p c) eqn:Hc.
  - assert (c = r) by (apply Hr; [left; reflexivity | exact Hc]); subst c.
    destruct s as [|c' s']; [simpl; rewrite Hc; reflexivity|].
    destruct Hadj as [Hcc _]. rewrite Hc in Hcc; simpl in Hcc.
    change (re_sub_runs p r (r :: c' :: s')) with
        (if p r then (if p c' then re_sub_runs p r (c' :: s')
                      else r :: re_sub_runs p r (c' :: s'))
         else r :: re_sub_runs p r (c' :: s')).
    rewrite Hc, Hcc, IHs; reflexivity.
  - rewrite re_sub_runs_head by assumption. rewrite IHs; reflexivity.
Qed.

End Runs.

Lemma no_adjacent_weaken : forall (p q : ascii -> bool) s,
  (forall c, In c s -> q c = true -> p c = true) ->
  Cleaned.no_adjacent p s -> Cleaned.no_adjacent q s.
Proof.
  induction s as [|c s IH]; intros Hpq H; [exact I|].
  destruct s as [|c' s']; [exact I|].
  destruct H as [Hcc H]. split.
  - destruct (q c) eqn:Hc, (q c') eqn:Hc'; try reflexivity.
    exfalso. rewrite (Hpq c), (Hpq c') in Hcc by (simpl; auto). discriminate.
  - apply IH; [intros x Hx; apply Hpq; right; exact Hx | exact H].
Qed.

Lemma no_adjacent_app_r : forall p a b,
  Cleaned.no_adjacent p (a ++ b) -> Cleaned.no_adjacent p b.
Proof.
  induction a as [|c a IH]; intros b H; [exact H|].
  apply IH. simpl in H. destruct (a ++ b); [exact I | apply H].
Qed.

Lemma no_adjacent_app_l : forall p a b,
  Cleaned.no_adjacent p (a ++ b) -> Cleaned.no_adjacent p a.
Proof.
  induction a as [|c a IH]; intros b H; [exact I|].
  destruct a as [|c' a']; [exact I|].
  destruct H as [Hcc H]. split; [exact Hcc | apply (IH b); exact H].
Qed.

End PyFacts.

(** * [rag/document_processor.py]: cleaning *)

Module CleanText.
Import Py DocumentProcessor Cleaned PyFacts.

Lemma settled_space : settled space.
Proof. left; reflexivity. Qed.

Lemma settled_not_special : forall c, settled c -> special c = false.
Proof. intros c [-> | [_ H]]; [reflexivity | exact H]. Qed.

Lemma settled_isspace : forall c, settled c -> isspace c = true -> c = space.
Proof. intros c [-> | [H _]] Hs; [reflexivity | congruence]. Qed.

Lemma settled_not_newline : forall c, settled c -> Ascii.eqb newline c = false.
Proof.
  intros c [-> | [H _]]; [reflexivity|].
  destruct (Ascii.eqb newline c) eqn:E; [|reflexivity].
  apply Ascii.eqb_eq in E; subst c. discriminate H.
Qed.

Lemma no_adjacent_none : forall p s,
  (forall c, In c s -> p c = false) -> no_adjacent p s.
Proof.
  induction s as [|c s IH]; intros H; [exact I|].
  destruct s as [|c' s']; [exact I|]. split.
  - rewrite (H c) by (left; reflexivity); reflexivity.
  - apply IH; intros x Hx; apply H; right; exact Hx.
Qed.

(** The first two substitutions leave settled characters only. *)
Lemma settled_after_special : forall x,
  Forall settled (re_sub_each special space (re_sub_runs isspace space x)).
Proof.
  intros x. unfold re_sub_each. apply Forall_map.
  eapply Forall_impl; [|apply re_sub_runs_chars].
  simpl; intros c H. destruct (special c) eqn:Hs; [apply settled_space|].
  destruct H as [-> | [Hc _]]; [apply settled_space | right; auto].
Qed.

Lemma newline_runs_fixed : forall s,
  Forall settled s -> re_sub_runs (Ascii.eqb newline) newline s = s.
Proof.
  intros s H. rewrite Forall_forall in H. apply re_sub_runs_fixed.
  - intros c _ E. apply Ascii.eqb_eq in E; auto.
  - apply no_adjacent_none. intros c Hc. apply settled_not_newline; auto.
Qed.

Lemma strip_clean_form : forall s,
  Forall settled s -> no_adjacent isspace s -> clean_form (strip s).
Proof.
  intros s Hs Hadj. unfold clean_form.
  destruct (lstrip_suffix s) as [pre Hpre].
  destruct (rstrip_prefix (lstrip s)) as [suf Hsuf].
  rewrite Hpre in Hs, Hadj. apply Forall_app in Hs as [_ Hs].
  apply no_adjacent_app_r in Hadj.
  rewrite Hsuf in Hs, Hadj. apply Forall_app in Hs as [Hs _].
  apply no_adjacent_app_l in Hadj.
  repeat split; auto using lstrip_strip, rstrip_strip.
Qed.

(** Every output of [_clean_text] has the clean form. *)
Lemma _clean_text_form : forall x, clean_form (_clean_text x).
Proof.
  intros [|c0 x]; [repeat split; constructor|].
  unfold _clean_text. set (s := c0 :: x).
  pose proof (settled_after_special s) as H2.
  rewrite (newline_runs_fixed _ H2).
  apply strip_clean_form.
  - apply re_sub_runs_Forall; [apply settled_space | exact H2].
  - eapply no_adjacent_weaken; [|apply re_sub_runs_no_adjacent].
    assert (H4 : Forall settled
                   (re_sub_runs (Ascii.eqb space) space
                      (re_sub_each special space (re_sub_runs isspace space s))))
      by (apply re_sub_runs_Forall; [apply settled_space | exact H2]).
    rewrite Forall_forall in H4. intros c Hc Hsp.
    rewrite (settled_isspace c (H4 c Hc) Hsp). reflexivity.
Qed.

(** A string of the clean form is a fixed point of [_clean_text]. *)
Lemma clean_form_fixed : forall r, clean_form r -> _clean_text r = r.
Proof.
  intros r (Hs & Hadj & Hl & Hr).
  destruct r as [|c0 r]; [reflexivity|].
  unfold _clean_text. set (s := c0 :: r) in *.
  assert (Hin : forall c, In c s -> settled c) by (apply Forall_forall; exact Hs).
  assert (E1 : re_sub_runs isspace space s = s).
  { apply re_sub_runs_fixed; [|exact Hadj].
    intros c Hc Hsp. apply settled_isspace; auto. }
  rewrite E1.
  assert (E2 : re_sub_each special space s = s).
  { unfold re_sub_each. rewrite <- (map_id s) at 2. apply map_ext_in.
    intros c Hc. rewrite (settled_not_special c (Hin c Hc)). reflexivity. }
  rewrite E2, (newline_runs_fixed _ Hs).
  assert (E4 : re_sub_runs (Ascii.eqb space) space s = s).
  { apply re_sub_runs_fixed.
    - intros c _ E. apply Ascii.eqb_eq in E; auto.
    - eapply no_adjacent_weaken; [|exact Hadj].
      intros c _ E. apply Ascii.eqb_eq in E; subst c; reflexivity. }
  rewrite E4. unfold strip. rewrite Hl. exact Hr.
Qed.

(** C8. Text cleaning is idempotent: for every input string [x],
    [_clean_text (_clean_text x)] equals [_clean_text x]. *)
Theorem _clean_text_idempotent : forall x : str,
  _clean_text (_clean_text x) = _clean_text x.
Proof. intros x. apply clean_form_fixed, _clean_text_form. Qed.

End CleanText.

(** * [rag/document_processor.py]: chunking *)

Module Chunking.
Import Py DocumentProcessor PyFacts Scenario.

(** Every chunk that [chunk_body] hands to the loop is stripped. *)
Lemma chunk_body_stripped : forall text chunk_size chunk_overlap start chunk start',
  chunk_body text chunk_size chunk_overlap start = Some (chunk, start') ->
  strip chunk = chunk.
Proof.
  intros text cs ov start chunk start' H. unfold chunk_body in H.
  destruct (if start + cs <? len text then _ else _) as [[i|]|];
    inversion H; subst; apply strip_idempotent.
Qed.

Lemma chunk_loop_stripped : forall fuel text chunk_size chunk_overlap start chunks result,
  Forall (fun c => strip c = c) chunks ->
  chunk_loop fuel text chunk_size chunk_overlap start chunks = Returned result ->
  Forall (fun c => strip c = c) result.
Proof.
  induction fuel as [|fuel IH]; intros text cs ov start chunks result Hc H;
    [discriminate|].
  cbn [chunk_loop] in H.
  destruct (start <? len text); [|inversion H; subst; exact Hc].
  destruct (chunk_body text cs ov start) as [[chunk start']|] eqn:E; [|discriminate].
  assert (Hc' : Forall (fun c => strip c = c) (chunks ++ [chunk])).
  { apply Forall_app; split; [exact Hc|].
    constructor; [eapply chunk_body_stripped; exact E | constructor]. }
  destruct (start' >=? len text); [inversion H; subst; exact Hc'|].
  eapply IH; [exact Hc' | exact H].
Qed.

(** Whatever [chunk_text] returns, each chunk is free of leading and
    trailing whitespace. *)
Lemma chunk_text_stripped : forall settings fuel text chunk_size chunk_overlap chunks,
  chunk_text settings fuel text chunk_size chunk_overlap = Returned chunks ->
  Forall (fun c => strip c = c) chunks.
Proof.
  intros settings fuel text cs ov chunks H. unfold chunk_text in H.
  destruct text as [|c0 text]; [inversion H; constructor|].
  eapply chunk_loop_stripped; [constructor | exact H].
Qed.

Lemma stalling_step :
  chunk_body stalling_text 10 9 0 = Some (lit "aaaaaaaa.", 0).
Proof. vm_compute. reflexivity. Qed.

Lemma stalling_loop : forall fuel chunks,
  chunk_loop fuel stalling_text 10 9 0 chunks = OutOfFuel.
Proof.
  induction fuel as [|fuel IH]; intros chunks; [reflexivity|].
  cbn [chunk_loop]. rewrite stalling_step.
  change (0 <? len stalling_text) with true.
  change (0 >=? len stalling_text) with false.
  cbv iota. apply IH.
Qed.

(** C3 (fails in the code). With [chunk_size = 10] and [chunk_overlap = 9]
    on a 20-character text whose ninth character is a full stop, the
    iteration that pulls the chunk end back to the break point leaves the
    window start at 0, and [chunk_text] returns for no amount of fuel: the
    loop does not terminate. *)
Theorem chunk_text_break_point_stalls : forall settings fuel,
  chunk_body stalling_text 10 9 0 = Some (lit "aaaaaaaa.", 0) /\
  chunk_text settings fuel stalling_text (Some 10) (Some 9) = OutOfFuel.
Proof.
  intros settings fuel. split; [apply stalling_step|].
  unfold chunk_text.
  change stalling_text with ("a"%char :: tl stalling_text) at 1.
  cbv iota. apply stalling_loop.
Qed.

(** C7 (fails in the code). On the text ["a     b"] with [chunk_size = 3]
    and [chunk_overlap = 1] the second window holds whitespace only; its
    chunk is stripped to the empty string and appended all the same, so the
    returned sequence contains an empty chunk. *)
Theorem chunk_text_keeps_empty_chunk : forall settings,
  chunk_text settings 4 (lit "a     b") (Some 3) (Some 1)
  = Returned [lit "a"; []; lit "b"; lit "b"].
Proof. intros settings. vm_compute. reflexivity. Qed.

End Chunking.

(** * Dictionaries and names *)

Module DictFacts.

Section Dict.

Variable V : Type.

Lemma get_set_same : forall (d : PyDict.t V) k v, PyDict.get (PyDict.set d k v) k = Some v.
Proof.
  induction d as [|[k' v'] d IH]; intros k v; simpl.
  - rewrite String.eqb_refl; reflexivity.
  - destruct (String.eqb k' k) eqn:E; simpl; rewrite E; auto.
Qed.

Lemma get_set_other : forall (d : PyDict.t V) k k' v,
  k <> k' -> PyDict.get (PyDict.set d k v) k' = PyDict.get d k'.
Proof.
  induction d as [|[k0 v0] d IH]; intros k k' v Hne; simpl.
  - destruct (String.eqb k k') eqn:E; [apply String.eqb_eq in E; contradiction | reflexivity].
  - destruct (String.eqb k0 k) eqn:E; simpl.
    + apply String.eqb_eq in E; subst k0.
      destruct (String.eqb k k') eqn:E'; [apply String.eqb_eq in E'; contradiction | reflexivity].
    + destruct (String.eqb k0 k'); auto.
Qed.

Lemma get_none_not_in : forall (d : PyDict.t V) k,
  PyDict.get d k = None -> ~ In k (map fst d).
Proof.
  induction d as [|[k' v'] d IH]; intros k H; simpl; [tauto|].
  simpl in H. destruct (String.eqb k' k) eqn:E; [discriminate|].
  apply String.eqb_neq in E. intros [?|?]; [contradiction | eapply IH; eauto].
Qed.

End Dict.

Lemma str_of_nat_inj : forall n m, Py.str_of_nat n = Py.str_of_nat m -> n = m.
Proof.
  intros n m H. unfold Py.str_of_nat in H.
  assert (Hn : forall k, Nat.to_uint k <> Decimal.Nil).
  { intros k. rewrite <- (DecimalNat.Unsigned.of_to k) at 1.
    rewrite DecimalNat.Unsigned.to_of. apply DecimalFacts.unorm_nonnil. }
  apply DecimalNat.Unsigned.to_uint_inj.
  pose proof (NilZero.usu _ (Hn n)) as E1.
  pose proof (NilZero.usu _ (Hn m)) as E2.
  rewrite H in E1. congruence.
Qed.

Lemma chunk_name_inj : forall i j,
  0 <= i -> 0 <= j -> VectorStore.chunk_name i = VectorStore.chunk_name j -> i = j.
Proof.
  intros i j Hi Hj H. unfold VectorStore.chunk_name, Py.str_of_int in H.
  destruct (i <? 0) eqn:Ei; [apply Z.ltb_lt in Ei; lia|].
  destruct (j <? 0) eqn:Ej; [apply Z.ltb_lt in Ej; lia|].
  simpl in H. injection H as H. apply str_of_nat_inj in H.
  apply Z2Nat.inj; assumption.
Qed.

End DictFacts.

(** * [rag/vector_store.py]: adding a batch *)

Module AddDocuments.
Import VectorStore Batch Scenario DictFacts.

Lemma np_array_float32_rows : forall (rows : list vector) n,
  forallb (fun r => Z.of_nat (length r) =? n) rows = true ->
  np_array_float32 rows = Some (map (map to_float32) rows).
Proof.
  intros rows n H. destruct rows as [|r rows]; [reflexivity|].
  unfold np_array_float32.
  replace (forallb (fun r' => Nat.eqb (length r') (length r)) (r :: rows)) with true;
    [reflexivity|].
  symmetry. rewrite forallb_forall in *. intros x Hx. apply Nat.eqb_eq.
  pose proof (H x Hx) as H1. pose proof (H r (or_introl eq_refl)) as H2.
  apply Z.eqb_eq in H1, H2. lia.
Qed.

Lemma dimension_after_rounding : forall (rows : list vector) n,
  forallb (fun r => Z.of_nat (length r) =? n) (map (map to_float32) rows)
  = forallb (fun r => Z.of_nat (length r) =? n) rows.
Proof.
  induction rows as [|r rows IH]; intros n; simpl; [reflexivity|].
  rewrite length_map, IH; reflexivity.
Qed.

(** A batch that fails a check leaves the store as it was. *)
Lemma rejected_batch_unchanged : forall self documents embeddings document_id,
  batch_accepted self documents embeddings = false ->
  add_documents_with_embeddings self documents embeddings document_id = (self, false).
Proof.
  intros self documents embeddings document_id H.
  unfold add_documents_with_embeddings, batch_accepted in *.
  destruct documents as [|doc documents]; [reflexivity|].
  destruct embeddings as [|e embeddings]; [reflexivity|].
  cbn [length Nat.eqb negb andb] in H.
  destruct (Nat.eqb (length (doc :: documents)) (length (e :: embeddings))) eqn:El;
    [|reflexivity].
  cbn [negb]. cbv iota. simpl in El. rewrite El in H. cbn [andb] in H.
  destruct (np_array_float32 (e :: embeddings)) as [rows|] eqn:En; [|reflexivity].
  assert (rows = map (map to_float32) (e :: embeddings)).
  { unfold np_array_float32 in En.
    match type of En with (if ?b then _ else _) = _ => destruct b end; congruence. }
  subst rows. unfold index_add.
  rewrite dimension_after_rounding, H. reflexivity.
Qed.

Section Loop.

Variable document_id : option string.

Lemma store_documents_flag : forall pairs n ds ms,
  snd (store_documents pairs document_id n ds ms) = true <->
  Forall (fun p : document * vector => well_formed (fst p)) pairs.
Proof.
  induction pairs as [|[doc e] pairs IH]; intros n ds ms; simpl.
  - split; auto.
  - unfold well_formed at 1.
    destruct (content doc) as [c|] eqn:Ec; simpl.
    + destruct (metadata doc) as [m|] eqn:Em; simpl.
      * rewrite IH. split; intros H.
        -- constructor; [simpl; rewrite Ec, Em; split; discriminate | exact H].
        -- inversion H; assumption.
      * split; [discriminate|]. intros H; inversion H as [|? ? [_ Hm] _].
        simpl in Hm; rewrite Em in Hm; contradiction.
    + split; [discriminate|]. intros H; inversion H as [|? ? [Hc _] _].
      simpl in Hc; rewrite Ec in Hc; contradiction.
Qed.

(** The loop writes under the names of the positions it visits only. *)
Lemma store_documents_frame : forall pairs n ds ms k,
  (forall j, n <= j -> k <> chunk_name j) ->
  let r := store_documents pairs document_id n ds ms in
  PyDict.get (fst (fst r)) k = PyDict.get ds k /\
  PyDict.get (snd (fst r)) k = PyDict.get ms k.
Proof.
  induction pairs as [|[doc e] pairs IH]; intros n ds ms k Hk; simpl; [auto|].
  assert (Hn : chunk_name n <> k) by (intros E; apply (Hk n); [lia | auto]).
  destruct (content doc) as [c|]; simpl; [|auto].
  destruct (metadata doc) as [m|]; simpl.
  - destruct (IH (n + 1) (PyDict.set ds (chunk_name n) c)
                (PyDict.set ms (chunk_name n) (chunk_metadata m document_id n)) k)
      as [H1 H2]; [intros j Hj; apply Hk; lia|].
    rewrite H1, H2, !get_set_other by assumption. auto.
  - rewrite get_set_other by assumption. auto.
Qed.

(** When the loop completes, position [i] of the batch is stored under the
    name of [n + i], with the three fields stamped on its metadata. *)
Lemma store_documents_stored : forall pairs n ds ms i p,
  0 <= n ->
  snd (store_documents pairs document_id n ds ms) = true ->
  nth_error pairs i = Some p ->
  let r := store_documents pairs document_id n ds ms in
  PyDict.get (fst (fst r)) (chunk_name (n + Z.of_nat i)) = content (fst p) /\
  PyDict.get (snd (fst r)) (chunk_name (n + Z.of_nat i))
  = option_map (fun m => chunk_metadata m document_id (n + Z.of_nat i)) (metadata (fst p)).
Proof.
  induction pairs as [|[doc e] pairs IH]; intros n ds ms i p Hn Hok Hi;
    [destruct i; discriminate|].
  simpl in Hok |- *.
  destruct (content doc) as [c|] eqn:Ec; [|discriminate].
  destruct (metadata doc) as [m|] eqn:Em; [|discriminate].
  destruct i as [|i].
  - injection Hi as <-. simpl fst. rewrite Z.add_0_r, Ec, Em. simpl.
    destruct (store_documents_frame pairs (n + 1)
                (PyDict.set ds (chunk_name n) c)
                (PyDict.set ms (chunk_name n) (chunk_metadata m document_id n))
                (chunk_name n)) as [H1 H2].
    { intros j Hj E. apply chunk_name_inj in E; lia. }
    rewrite H1, H2, !get_set_same. auto.
  - replace (n + Z.of_nat (S i)) with ((n + 1) + Z.of_nat i) by lia.
    apply IH; [lia | exact Hok | exact Hi].
Qed.

End Loop.

Lemma combine_well_formed : forall (documents : list document) (embeddings : list vector),
  length documents = length embeddings ->
  (Forall (fun p : document * vector => well_formed (fst p)) (combine documents embeddings)
   <-> Forall well_formed documents).
Proof.
  intros documents.
  induction documents as [|doc documents IH]; intros [|e embeddings] Hl;
    try discriminate; simpl.
  - split; constructor.
  - injection Hl as Hl. specialize (IH embeddings Hl).
    split; intros H; inversion H; subst; constructor; auto; apply IH; auto.
Qed.

Lemma combine_nth_error : forall (documents : list document) (embeddings : list vector) i doc,
  length documents = length embeddings ->
  nth_error documents i = Some doc ->
  exists e, nth_error (combine documents embeddings) i = Some (doc, e).
Proof.
  intros documents.
  induction documents as [|d0 documents IH]; intros [|e0 embeddings] i doc Hl Hi;
    try discriminate; try (destruct i; discriminate).
  destruct i as [|i]; simpl in *.
  - injection Hi as <-. exists e0; reflexivity.
  - injection Hl as Hl. eapply IH; eauto.
Qed.

(** The shape of an accepted call: the index is extended first, then the
    loop runs on the old maps. *)
Lemma accepted_batch_unfolds : forall self documents embeddings document_id,
  batch_accepted self documents embeddings = true ->
  length documents = length embeddings /\
  add_documents_with_embeddings self documents embeddings document_id
  = let r := store_documents (combine documents embeddings) document_id
               (PyDict.len (document_store self)) (document_store self)
               (metadata_store self) in
    ({| index := {| d := d (index self);
                    xb := xb (index self) ++ map (map to_float32) embeddings |};
        document_store := fst (fst r);
        metadata_store := snd (fst r) |}, snd r).
Proof.
  intros self documents embeddings document_id H.
  unfold batch_accepted in H.
  apply andb_prop in H as [H Hd]. apply andb_prop in H as [H Hl].
  apply Nat.eqb_eq in Hl. split; [exact Hl|].
  unfold add_documents_with_embeddings.
  destruct documents as [|doc documents]; [discriminate|].
  destruct embeddings as [|e embeddings]; [discriminate|].
  rewrite Hl, Nat.eqb_refl. cbn [negb]. cbv iota.
  rewrite (np_array_float32_rows _ _ Hd).
  unfold index_add. rewrite dimension_after_rounding, Hd.
  destruct (store_documents _ _ _ _ _) as [[ds ms] ok]. reflexivity.
Qed.

(** C4 (amended). [add_documents_with_embeddings] is not atomic: it checks
    the batch first (both lists non-empty, equal lengths, every embedding of
    the dimension of the index) and returns [False] with nothing changed
    when a check fails; otherwise it appends the batch to the numeric store
    and only then fills the two maps, with no rollback. The numeric store
    holds the batch whether or not the call succeeds; the call succeeds
    exactly when every document has its content and metadata, and then each
    document is stored under the chunk id of its position. *)
Theorem add_documents_no_rollback : forall self documents embeddings document_id,
  let r := add_documents_with_embeddings self documents embeddings document_id in
  let start_index := PyDict.len (document_store self) in
  (batch_accepted self documents embeddings = false -> r = (self, false)) /\
  (batch_accepted self documents embeddings = true ->
   xb (index (fst r)) = xb (index self) ++ map (map to_float32) embeddings /\
   (snd r = true <-> Forall well_formed documents) /\
   (snd r = true ->
    forall i doc, nth_error documents i = Some doc ->
      PyDict.get (document_store (fst r)) (chunk_name (start_index + Z.of_nat i))
      = content doc /\
      PyDict.get (metadata_store (fst r)) (chunk_name (start_index + Z.of_nat i))
      = option_map (fun m => chunk_metadata m document_id (start_index + Z.of_nat i))
          (metadata doc))).
Proof.
  intros self documents embeddings document_id r start_index. split.
  - apply rejected_batch_unchanged.
  - intros Hacc.
    destruct (accepted_batch_unfolds self documents embeddings document_id Hacc)
      as [Hl Hr].
    subst r. rewrite Hr. cbv zeta. cbn [fst snd index xb document_store metadata_store].
    split; [reflexivity|]. split.
    + rewrite store_documents_flag. apply combine_well_formed; exact Hl.
    + intros Hok i doc Hi.
      destruct (combine_nth_error documents embeddings i doc Hl Hi) as [e He].
      assert (H0 : 0 <= start_index) by (unfold start_index, PyDict.len; lia).
      exact (store_documents_stored document_id _ _ _ _ _ _ H0 Hok He).
Qed.

(** C4 (as stated) fails: a batch whose only document has no ["metadata"]
    key makes the call return [False] after the vector was appended and the
    content stored, so the store differs from its state before the call. *)
Lemma add_documents_not_atomic :
  let r := add_documents_with_embeddings fresh [no_metadata "alpha"] [zero_vector] None in
  snd r = false /\
  ntotal (index fresh) = 0 /\ ntotal (index (fst r)) = 1 /\
  document_store fresh = [] /\ document_store (fst r) = [("chunk_0"%string, "alpha"%string)] /\
  metadata_store (fst r) = [].
Proof. vm_compute. repeat split; reflexivity. Qed.

(** An accepted, well-formed batch, for which the theorem gives the stored
    content. *)
Lemma add_documents_no_rollback_witness :
  batch_accepted fresh [plain "alpha"] [zero_vector] = true /\
  xb (index (fst (add_documents_with_embeddings fresh [plain "alpha"] [zero_vector]
                    (Some "A"%string))))
  = xb (index fresh) ++ map (map to_float32) [zero_vector].
Proof.
  assert (H : batch_accepted fresh [plain "alpha"] [zero_vector] = true)
    by (vm_compute; reflexivity).
  split; [exact H|].
  exact (proj1 (proj2 (add_documents_no_rollback fresh [plain "alpha"] [zero_vector]
                         (Some "A"%string)) H)).
Defined.

End AddDocuments.

(** * [rag/vector_store.py]: deleting, loading, searching *)

Module StoreFacts.
Import VectorStore Batch Scenario DictFacts.

(** Every deletion that removes something installs a new, empty index. *)
Lemma delete_document_index : forall self document_id,
  chunks_to_delete (metadata_store self) document_id <> [] ->
  snd (delete_document self document_id) = true ->
  index (fst (delete_document self document_id)) = new_index.
Proof.
  intros self document_id Hne Hok. unfold delete_document in *.
  destruct (chunks_to_delete (metadata_store self) document_id) as [|c ids];
    [contradiction|].
  destruct (remove_chunks (c :: ids) (document_store self) (metadata_store self))
    as [[ds ms] ok].
  destruct ok; [|discriminate].
  unfold _rebuild_index. simpl. destruct ds; reflexivity.
Qed.

(** C2 (fails in the code). After one chunk of document ["A"] and one chunk
    of document ["B"] were added, [delete_document "A"] succeeds and leaves
    the chunk of ["B"] in both maps, but the index it installs is empty: the
    embedding of the surviving chunk is gone and the vector count (0)
    differs from the size of the maps (1). *)
Theorem delete_document_empties_index :
  let r := delete_document two_documents "A" in
  health_check two_documents = true /\
  ntotal (index two_documents) = 2 /\
  snd r = true /\
  document_store (fst r) = [("chunk_1"%string, "beta"%string)] /\
  PyDict.len (metadata_store (fst r)) = 1 /\
  xb (index (fst r)) = [] /\
  ntotal (index (fst r)) = 0.
Proof. vm_compute. repeat split; reflexivity. Qed.

(** C5 (amended). Loading validates nothing: whenever both files exist and
    can be read, the pair is taken as it is, whatever the vector count and
    the sizes of the maps, and the branch taken is the one that reports an
    existing index as loaded; in every other case the store is new and
    empty. No error is raised in any case. *)
Theorem load_accepts_every_readable_pair :
  (forall idx data,
     _initialize_index (Holds idx) (Holds data)
     = (LoadedExisting,
        {| index := idx;
           document_store :=
             match documents data with Some ds => ds | None => PyDict.empty end;
           metadata_store :=
             match pickled_metadata data with Some ms => ms | None => PyDict.empty end |})) /\
  (forall index_file metadata_file,
     fst (_initialize_index index_file metadata_file) = LoadedExisting \/
     snd (_initialize_index index_file metadata_file) = fresh).
Proof.
  split; [reflexivity|].
  intros [| |idx] [| |data]; simpl; auto.
Qed.

(** C5 (as stated) fails: a persisted pair of two vectors and one metadata
    record is loaded as it is. *)
Lemma load_accepts_mismatched_pair :
  let r := _initialize_index (Holds two_vectors) (Holds one_record) in
  fst r = LoadedExisting /\
  ntotal (index (snd r)) = 2 /\
  PyDict.len (metadata_store (snd r)) = 1.
Proof. vm_compute. repeat split; reflexivity. Qed.

(** *** Filters *)

Lemma _apply_filters_missing_key : forall metadata filters key,
  In key (map fst filters) ->
  PyDict.get metadata key = None ->
  _apply_filters metadata filters = false.
Proof.
  intros metadata filters key. induction filters as [|[k v] filters IH]; intros Hin Hget.
  - contradiction.
  - simpl. destruct (PyDict.get metadata k) as [mv|] eqn:Ek; [|reflexivity].
    assert (Hrest : _apply_filters metadata filters = false).
    { apply IH; [|exact Hget]. destruct Hin as [E|Hin]; [|exact Hin].
      simpl in E; subst k. congruence. }
    rewrite Hrest. destruct v; destruct (negb _); reflexivity.
Qed.

Lemma insert_desc_In : forall (A : Type) (key : A -> Py.float) (x y : A) l,
  In y (insert_desc key x l) -> y = x \/ In y l.
Proof.
  intros A key x y l. induction l as [|z l IH]; simpl.
  - intros [H|[]]; auto.
  - destruct (SFltb (key z) (key x)); simpl.
    + intros [H|[H|H]]; auto.
    + intros [H|H]; auto. destruct (IH H); auto.
Qed.

Lemma sort_desc_In : forall (A : Type) (key : A -> Py.float) (y : A) l,
  In y (sort_desc key l) -> In y l.
Proof.
  intros A key y l. unfold sort_desc.
  assert (H : forall acc, In y (fold_left (fun acc x => insert_desc key x acc) l acc) ->
                          In y acc \/ In y l).
  { induction l as [|x l IH]; intros acc Hy; simpl in *; [auto|].
    destruct (IH _ Hy) as [H|H]; [|auto].
    apply insert_desc_In in H as [->|H]; auto. }
  intros Hy. destruct (H [] Hy) as [[]|]; assumption.
Qed.

Lemma slice_In : forall (A : Type) (y : A) l lo hi, In y (Py.slice l lo hi) -> In y l.
Proof.
  intros A y l lo hi. unfold Py.slice.
  set (n := Z.to_nat _). set (m := Z.to_nat _). intros H.
  rewrite <- (firstn_skipn m l). apply in_or_app; right.
  rewrite <- (firstn_skipn n (skipn m l)). apply in_or_app; left. exact H.
Qed.

Section Search.

Variable faiss_search : IndexFlatIP -> vector -> Z -> option (list (Py.float * Z)).

(** A result that the loop keeps carries the stored metadata of its chunk
    and has passed the filters. *)
Lemma hit_result_kept : forall self threshold filters hit r,
  hit_result self threshold filters hit = Some r ->
  sr_metadata r = stored_metadata self (chunk_id r) /\
  filtered_out (sr_metadata r) filters = false.
Proof.
  intros self threshold filters [score idx] r H. unfold hit_result in H.
  destruct (idx =? -1); [discriminate|].
  destruct (PyDict.get (document_store self) (chunk_name idx)); [|discriminate].
  destruct (SFltb score threshold); [discriminate|].
  fold (stored_metadata self (chunk_name idx)) in H.
  destruct (filtered_out (stored_metadata self (chunk_name idx)) filters) eqn:E;
    [discriminate|].
  injection H as <-. simpl. auto.
Qed.

Lemma collect_results_In : forall self threshold filters hits r,
  In r (collect_results self threshold filters hits) ->
  exists hit, hit_result self threshold filters hit = Some r.
Proof.
  intros self threshold filters hits r. induction hits as [|hit hits IH]; simpl;
    [contradiction|].
  destruct (hit_result self threshold filters hit) as [r'|] eqn:E; [|exact IH].
  intros [<-|H]; [exists hit; exact E | auto].
Qed.

Lemma search_result_kept : forall self query_embedding top_k threshold filters r,
  In r (search faiss_search self query_embedding top_k threshold filters) ->
  sr_metadata r = stored_metadata self (chunk_id r) /\
  filtered_out (sr_metadata r) filters = false.
Proof.
  intros self q top_k threshold filters r H. unfold search in H.
  destruct (ntotal (index self) =? 0); [contradiction|].
  destruct (faiss_search _ _ _) as [hits|]; [|contradiction].
  apply slice_In, sort_desc_In, collect_results_In in H as [hit H].
  eapply hit_result_kept; exact H.
Qed.

(** C10. For every search with a non-empty [filters] mapping, a stored
    chunk whose metadata lacks one of the filter keys is not among the
    results: the missing key makes [_apply_filters] answer [False], and the
    search (a total function here) raises nothing. *)
Theorem search_excludes_chunk_missing_filter_key :
  forall self query_embedding top_k similarity_threshold filters key cid,
    filters <> [] ->
    In key (map fst filters) ->
    PyDict.get (stored_metadata self cid) key = None ->
    _apply_filters (stored_metadata self cid) filters = false /\
    ~ In cid (map chunk_id
                (search faiss_search self query_embedding top_k similarity_threshold
                   (Some filters))).
Proof.
  intros self q top_k threshold filters key cid Hne Hkey Hmiss.
  pose proof (_apply_filters_missing_key _ _ _ Hkey Hmiss) as Hf.
  split; [exact Hf|].
  intros Hin. apply in_map_iff in Hin as (r & Hid & Hr).
  apply search_result_kept in Hr as [Hm Hpass].
  rewrite Hm, Hid in Hpass. unfold filtered_out in Hpass.
  rewrite Hf in Hpass. destruct filters; [contradiction | discriminate].
Qed.

End Search.

(** A search in which the chunk without ["category"] is dropped by a filter
    on that key while the labelled chunk is returned. *)
Lemma search_excludes_chunk_missing_filter_key_witness :
  map chunk_id
    (search two_hits labelled_store zero_vector 5 Settings.f0_7
       (Some [("category"%string, VStr "cardiology")]))
  = ["chunk_0"%string] /\
  ~ In "chunk_1"%string
      (map chunk_id
         (search two_hits labelled_store zero_vector 5 Settings.f0_7
            (Some [("category"%string, VStr "cardiology")]))).
Proof.
  split; [vm_compute; reflexivity|].
  refine (proj2 (search_excludes_chunk_missing_filter_key two_hits labelled_store
                   zero_vector 5 Settings.f0_7
                   [("category"%string, VStr "cardiology")] "category"%string
                   "chunk_1"%string _ _ _)).
  - discriminate.
  - simpl; auto.
  - vm_compute; reflexivity.
Defined.

End StoreFacts.

(** * [rag/rag_pipeline.py]: defaulting in [query] *)

Module QueryFacts.
Import VectorStore RAGPipeline.

(** C9. In [query], a [top_k] of 0 and a [similarity_threshold] of 0.0 (of
    either sign) are treated as absent: the call equals the call without
    them, and it is the settings' values that reach the search and that the
    returned metadata reports. *)
Theorem query_zero_is_absent :
  forall faiss_search embed_text self text filters include_metadata,
    (forall threshold,
       query faiss_search embed_text self text (Some 0) threshold filters include_metadata
       = query faiss_search embed_text self text None threshold filters include_metadata) /\
    (forall top_k sign,
       query faiss_search embed_text self text top_k (Some (S754_zero sign)) filters
         include_metadata
       = query faiss_search embed_text self text top_k None filters include_metadata) /\
    query faiss_search embed_text self text (Some 0) (Some (S754_zero false)) filters
      include_metadata
    = match embed_text text with
      | None => None
      | Some query_embedding =>
          let k := Settings.top_k_results (settings self) in
          let t := Settings.similarity_threshold (settings self) in
          let found := search faiss_search (vector_store self) query_embedding k t filters in
          let chunks := sort_desc dc_relevance_score (process_results t include_metadata found) in
          Some {| rr_documents := chunks;
                  rr_query := text;
                  total_results := Z.of_nat (length chunks);
                  rr_metadata :=
                    {| top_k := k;
                       similarity_threshold := t;
                       filters_applied :=
                         match filters with Some f => f | None => PyDict.empty end;
                       embedding_model := Settings.embedding_model (settings self) |} |}
      end.
Proof. intros. repeat split. Qed.

End QueryFacts.

(** * [safety/healthcare_filter.py] *)

Module SafetyFacts.
Import Py HealthcareSafetyFilter Verdict PyFacts.

(** *** Text without a word character has no match *)

Lemma findall_from_blank : forall p s before skip,
  Forall (fun c => isspace c = true) s ->
  is_word_at before = false ->
  findall_from p before s skip = [].
Proof.
  intros p s. induction s as [|c s IH]; intros before skip Hs Hb; [reflexivity|].
  inversion Hs as [|? ? Hc Hs']; subst.
  assert (Hw : is_word_at (Some c) = false) by (apply isspace_not_word; exact Hc).
  simpl. destruct skip as [|k]; [|apply IH; assumption].
  unfold match_at, word_boundary. simpl hd_error. rewrite Hb, Hw. simpl.
  apply IH; assumption.
Qed.

Lemma lower_blank : forall s, Forall (fun c => isspace c = true) s -> lower s = s.
Proof.
  intros s H. unfold lower. rewrite <- (map_id s) at 2. apply map_ext_in.
  rewrite Forall_forall in H. intros c Hc. apply isspace_lower_char; auto.
Qed.

Lemma flagged_items_blank : forall patterns content,
  strip content = [] -> flagged_items patterns (lower content) = [].
Proof.
  intros patterns content H. apply strip_nil_all_space in H.
  rewrite (lower_blank _ H). unfold flagged_items.
  induction patterns as [|p patterns IH]; [reflexivity|].
  simpl. rewrite IH. unfold findall.
  rewrite (findall_from_blank p content None 0 H eq_refl). reflexivity.
Qed.

(** *** The scan does not depend on letter case *)

Lemma is_word_at_hd_lower : forall s,
  is_word_at (hd_error (lower s)) = is_word_at (hd_error s).
Proof. intros [|c s]; [reflexivity|]. simpl. apply is_word_lower_char. Qed.

Lemma is_word_at_last_lower : forall m b1 b2,
  is_word_at b1 = is_word_at b2 ->
  is_word_at (last (map Some (lower m)) b1) = is_word_at (last (map Some m) b2).
Proof.
  induction m as [|c m IH]; intros b1 b2 H; [exact H|].
  destruct m as [|c' m]; [simpl; apply is_word_lower_char|].
  specialize (IH b1 b2 H). exact IH.
Qed.

Lemma match_literal_lower : forall literal s,
  match_literal literal (lower s)
  = option_map (fun mr => (lower (fst mr), lower (snd mr))) (match_literal literal s).
Proof.
  induction literal as [|p literal IH]; intros s; [reflexivity|].
  destruct s as [|c s]; [reflexivity|].
  simpl. rewrite lower_char_idempotent.
  destruct (Ascii.eqb (lower_char c) (lower_char p)); [|reflexivity].
  fold (lower s). rewrite IH.
  destruct (match_literal literal s) as [[m rest]|]; reflexivity.
Qed.

Lemma match_alternatives_lower : forall alternatives b1 b2 s,
  is_word_at b1 = is_word_at b2 ->
  match_alternatives alternatives b1 (lower s)
  = option_map lower (match_alternatives alternatives b2 s).
Proof.
  induction alternatives as [|a rest IH]; intros b1 b2 s H; [reflexivity|].
  simpl. rewrite match_literal_lower.
  destruct (match_literal a s) as [[m after]|]; simpl; [|apply IH; exact H].
  unfold word_boundary.
  rewrite (is_word_at_last_lower m b1 b2 H), is_word_at_hd_lower.
  destruct (xorb _ _); [reflexivity | apply IH; exact H].
Qed.

Lemma match_at_lower : forall p b1 b2 s,
  is_word_at b1 = is_word_at b2 ->
  match_at p b1 (lower s) = option_map lower (match_at p b2 s).
Proof.
  intros p b1 b2 s H. unfold match_at, word_boundary.
  rewrite is_word_at_hd_lower, H.
  destruct (xorb _ _); [apply match_alternatives_lower; exact H | reflexivity].
Qed.

Lemma findall_from_lower : forall p s b1 b2 skip,
  is_word_at b1 = is_word_at b2 ->
  length (findall_from p b1 (lower s) skip) = length (findall_from p b2 s skip).
Proof.
  intros p s. induction s as [|c s IH]; intros b1 b2 skip H; [reflexivity|].
  assert (Hc : is_word_at (Some (lower_char c)) = is_word_at (Some c))
    by apply is_word_lower_char.
  change (lower (c :: s)) with (lower_char c :: lower s).
  cbn [findall_from]. destruct skip as [|k]; [|apply IH; exact Hc].
  change (lower_char c :: lower s) with (lower (c :: s)).
  rewrite (match_at_lower p b1 b2 (c :: s) H).
  destruct (match_at p b2 (c :: s)) as [m|]; simpl.
  - f_equal. unfold lower at 2. rewrite length_map. apply IH; exact Hc.
  - apply IH; exact Hc.
Qed.

Lemma findall_lower : forall p s, length (findall p (lower s)) = length (findall p s).
Proof. intros p s. unfold findall. apply findall_from_lower. reflexivity. Qed.

(** The inner loop of the filter, run on the lowercased text, counts what
    the scan of the text itself finds. *)
Lemma flagged_count : forall patterns content,
  Z.of_nat (length (flagged_items patterns (lower content))) = matches patterns content.
Proof.
  intros patterns content. unfold flagged_items.
  induction patterns as [|p patterns IH]; [reflexivity|].
  cbn [flat_map matches fold_right]. rewrite length_app, Nat2Z.inj_add.
  fold (matches patterns content). rewrite IH. unfold occurrences.
  rewrite findall_lower. reflexivity.
Qed.

Lemma matches_blank : forall patterns content, strip content = [] -> matches patterns content = 0.
Proof.
  intros. rewrite <- flagged_count, flagged_items_blank by assumption. reflexivity.
Qed.

(** *** The scoring loop *)

Lemma assess_tiers_total : forall tiers content_lower acc,
  total_risk (assess_tiers tiers content_lower acc)
  = total_risk acc + tiers_total tiers content_lower.
Proof.
  induction tiers as [|[name patterns] tiers IH]; intros cl acc.
  - unfold tiers_total; simpl; lia.
  - cbn [assess_tiers]. rewrite IH.
    change (tiers_total ((name, patterns) :: tiers) cl)
      with (Z.of_nat (length (flagged_items patterns cl)) * weight name
            + tiers_total tiers cl).
    destruct (0 <? Z.of_nat (length (flagged_items patterns cl))) eqn:E;
      cbn [total_risk].
    + symmetry; apply Z.add_assoc.
    + apply Z.ltb_ge in E.
      assert (E0 : Z.of_nat (length (flagged_items patterns cl)) = 0)
        by (apply Z.le_antisymm; [exact E | apply Nat2Z.is_nonneg]).
      rewrite E0. reflexivity.
Qed.

Lemma assess_tiers_scores : forall tiers content_lower acc,
  risk_scores (assess_tiers tiers content_lower acc)
  = tiers_scores tiers content_lower (risk_scores acc).
Proof.
  induction tiers as [|[name patterns] tiers IH]; intros cl acc; [reflexivity|].
  cbn [assess_tiers]. rewrite IH.
  destruct (0 <? Z.of_nat (length (flagged_items patterns cl))); reflexivity.
Qed.

Lemma total_risk_weighted : forall content,
  total_risk (_assess_content_risk content) = weighted_total content.
Proof.
  intros content. unfold _assess_content_risk. rewrite assess_tiers_total.
  unfold weighted_total. rewrite <- !flagged_count. cbn [total_risk].
  generalize (lower content) as cl. intros cl.
  unfold tiers_total, unsafe_patterns. cbn [fold_right fst snd].
  change (tier "critical") with (snd (nth 0 unsafe_patterns (EmptyString, []))).
  change (tier "high") with (snd (nth 1 unsafe_patterns (EmptyString, []))).
  change (tier "medium") with (snd (nth 2 unsafe_patterns (EmptyString, []))).
  change (tier "low") with (snd (nth 3 unsafe_patterns (EmptyString, []))).
  unfold unsafe_patterns. cbn [nth snd].
  change (weight "critical") with 10. change (weight "high") with 5.
  change (weight "medium") with 2. change (weight "low") with 1.
  lia.
Qed.

Lemma critical_score_matches : forall content,
  critical_score (_assess_content_risk content) = matches (tier "critical") content.
Proof.
  intros content. unfold critical_score, _assess_content_risk.
  rewrite assess_tiers_scores. rewrite <- flagged_count. cbn [risk_scores].
  generalize (lower content) as cl. intros cl.
  change (tier "critical") with (snd (nth 0 unsafe_patterns (EmptyString, []))).
  unfold tiers_scores, unsafe_patterns. cbn [fold_left fst snd nth].
  generalize (Z.of_nat (length (flagged_items
    [pat ["diagnose"; "diagnosis"; "diagnosed"]%string;
     pat ["treat"; "treatment"; "treating"]%string;
     pat ["prescribe"; "prescription"; "medication"]%string;
     pat ["surgery"; "surgical"; "operation"]%string;
     pat ["prognosis"; "outcome"; "survival"]%string;
     pat ["emergency"; "urgent"; "immediate"]%string;
     pat ["deadly"; "fatal"; "lethal"]%string;
     pat ["cancer"; "cancerous"; "malignant"]%string;
     pat ["heart attack"; "stroke"; "seizure"]%string] cl))) as c.
  intros c.
  match goal with
  | |- context [PyDict.set (PyDict.set (PyDict.set _ _ ?h) _ ?m) _ ?l] =>
      generalize h, m, l
  end.
  intros h m l. reflexivity.
Qed.

Lemma severity_high : forall content,
  String.eqb (severity (_detect_medical_advice content)) "high"
  = (3 <=? matches medical_advice_patterns content).
Proof.
  intros content. rewrite <- flagged_count. unfold _detect_medical_advice.
  cbn [severity].
  destruct (3 <=? _); [reflexivity|]. destruct (1 <=? _); reflexivity.
Qed.

(** C6. For every non-empty text, [check_content] reports the text unsafe
    exactly when the weighted risk total (CRITICAL matches x 10 + HIGH x 5 +
    MEDIUM x 2 + LOW x 1) is at least 20, or at least 3 medical-advice
    patterns matched (advice severity high), or at least one CRITICAL-tier
    pattern matched; otherwise it reports it safe. *)
Theorem check_content_unsafe_iff : forall content : str,
  content <> [] ->
  (is_safe (check_content content) = false <->
   20 <= weighted_total content \/
   3 <= matches medical_advice_patterns content \/
   1 <= matches (tier "critical") content).
Proof.
  intros content Hne. destruct content as [|c0 content]; [contradiction|].
  unfold check_content. destruct (strip (c0 :: content)) as [|s0 stripped] eqn:Es.
  - cbn [is_safe]. unfold weighted_total. rewrite !matches_blank by exact Es.
    split; [discriminate | lia].
  - cbn [is_safe]. unfold _determine_safety.
    rewrite total_risk_weighted, critical_score_matches, severity_high.
    destruct (20 <=? weighted_total (c0 :: content)) eqn:E1;
      [apply Z.leb_le in E1; split; auto | apply Z.leb_gt in E1].
    destruct (3 <=? matches medical_advice_patterns (c0 :: content)) eqn:E2;
      [apply Z.leb_le in E2; split; auto | apply Z.leb_gt in E2].
    destruct (0 <? matches (tier "critical") (c0 :: content)) eqn:E3;
      [apply Z.ltb_lt in E3; split; intros; auto; right; right; lia
      | apply Z.ltb_ge in E3].
    split; [discriminate | lia].
Qed.

(** The health-check sentence of the source: two advice patterns and one
    HIGH and one MEDIUM term, with no CRITICAL term, are reported safe. *)
Lemma check_content_unsafe_iff_witness :
  lit "You should take this medicine for your symptoms" <> [] /\
  (is_safe (check_content (lit "You should take this medicine for your symptoms")) = false <->
   20 <= weighted_total (lit "You should take this medicine for your symptoms") \/
   3 <= matches medical_advice_patterns (lit "You should take this medicine for your symptoms") \/
   1 <= matches (tier "critical") (lit "You should take this medicine for your symptoms")).
Proof.
  assert (H : lit "You should take this medicine for your symptoms" <> [])
    by (vm_compute; discriminate).
  split; [exact H|].
  exact (check_content_unsafe_iff _ H).
Defined.

(** *** The fallback responses *)

(** C1 (amended). For every user message [m], [generate_safe_response m] is
    one of the four canned responses, and [check_content] classifies it
    unsafe: each canned text contains a CRITICAL-tier term ("emergency",
    "diagnose", "treatment", "diagnosis"). *)
Theorem generate_safe_response_canned : forall m : str,
  In (generate_safe_response m) canned_responses /\
  is_safe (check_content (generate_safe_response m)) = false.
Proof.
  intros m. unfold generate_safe_response, canned_responses.
  destruct (_contains_emergency_keywords m);
    [split; [simpl; auto | vm_compute; reflexivity]|].
  destruct (_contains_symptom_keywords m);
    [split; [simpl; auto | vm_compute; reflexivity]|].
  destruct (_contains_treatment_keywords m);
    split; simpl; auto; vm_compute; reflexivity.
Qed.

(** C1 (as stated) fails: the response to ["hello"] is not classified
    safe. *)
Lemma fallback_response_is_flagged :
  generate_safe_response (lit "hello") = _generate_general_safe_response /\
  is_safe (check_content (generate_safe_response (lit "hello"))) = false.
Proof. vm_compute. split; reflexivity. Qed.

End SafetyFacts.

(** * [rag/document_processor.py]: further properties of [chunk_text] *)

Module ChunkingMore.
Import Py DocumentProcessor PyFacts Shapes.

Lemma length_lstrip : forall s, (length (lstrip s) <= length s)%nat.
Proof.
  intros s. destruct (lstrip_suffix s) as [pre H].
  rewrite H at 2. rewrite length_app. lia.
Qed.

Lemma length_rstrip : forall s, (length (rstrip s) <= length s)%nat.
Proof.
  intros s. destruct (rstrip_prefix s) as [suf H].
  rewrite H at 2. rewrite length_app. lia.
Qed.

Lemma length_strip : forall s, (length (strip s) <= length s)%nat.
Proof.
  intros s. unfold strip.
  pose proof (length_rstrip (lstrip s)). pose proof (length_lstrip s). lia.
Qed.

Lemma length_slice : forall (s : str) lo hi,
  lo <= hi -> Z.of_nat (length (slice s lo hi)) <= hi - lo.
Proof.
  intros s lo hi H. unfold slice. rewrite length_firstn.
  set (n := Z.of_nat (length s)).
  assert (Hn : 0 <= n) by (unfold n; lia).
  assert (Hb : slice_bound n hi - slice_bound n lo <= hi - lo).
  { unfold slice_bound.
    destruct (hi <? 0) eqn:E1; destruct (lo <? 0) eqn:E2;
      try apply Z.ltb_lt in E1; try apply Z.ltb_lt in E2;
      try apply Z.ltb_ge in E1; try apply Z.ltb_ge in E2; lia. }
  lia.
Qed.

Lemma length_slice_prefix : forall (s : str) hi, (length (slice s 0 hi) <= length s)%nat.
Proof.
  intros s hi. unfold slice. rewrite length_firstn, length_skipn. lia.
Qed.

Lemma slice_all : forall (s : str) hi, len s <= hi -> slice s 0 hi = s.
Proof.
  intros s hi H. unfold slice, len in *.
  assert (E0 : slice_bound (Z.of_nat (length s)) 0 = 0)
    by (unfold slice_bound; simpl; lia).
  assert (E1 : slice_bound (Z.of_nat (length s)) hi = Z.of_nat (length s)).
  { unfold slice_bound. destruct (hi <? 0) eqn:E; [apply Z.ltb_lt in E |]; lia. }
  rewrite E0, E1. simpl skipn. rewrite Z.sub_0_r, Nat2Z.id. apply firstn_all.
Qed.

(** *** No chunk is longer than the window *)

Lemma chunk_body_length : forall text chunk_size chunk_overlap start chunk start',
  0 <= chunk_size ->
  chunk_body text chunk_size chunk_overlap start = Some (chunk, start') ->
  len chunk <= chunk_size.
Proof.
  intros text cs ov start chunk start' Hcs H. unfold chunk_body in H.
  pose proof (length_slice text start (start + cs) ltac:(lia)) as Hw.
  destruct (if start + cs <? len text then _ else _) as [[i|]|];
    inversion H; subst; unfold len.
  - pose proof (length_strip (slice (slice text start (start + cs)) 0 (i + 1))).
    pose proof (length_slice_prefix (slice text start (start + cs)) (i + 1)). lia.
  - pose proof (length_strip (slice text start (start + cs))). lia.
Qed.

Lemma chunk_loop_length : forall fuel text chunk_size chunk_overlap start chunks result,
  0 <= chunk_size ->
  Forall (fun c => len c <= chunk_size) chunks ->
  chunk_loop fuel text chunk_size chunk_overlap start chunks = Returned result ->
  Forall (fun c => len c <= chunk_size) result.
Proof.
  induction fuel as [|fuel IH]; intros text cs ov start chunks result Hcs Hc H;
    [discriminate|].
  cbn [chunk_loop] in H.
  destruct (start <? len text); [|inversion H; subst; exact Hc].
  destruct (chunk_body text cs ov start) as [[chunk start']|] eqn:E; [|discriminate].
  assert (Hc' : Forall (fun c => len c <= cs) (chunks ++ [chunk])).
  { apply Forall_app; split; [exact Hc|].
    constructor; [eapply chunk_body_length; eauto | constructor]. }
  destruct (start' >=? len text); [inversion H; subst; exact Hc'|].
  eapply IH; eauto.
Qed.

(** For a non-negative chunk size, no chunk that [chunk_text] returns is
    longer than the chunk size. *)
Theorem chunk_text_chunk_length :
  forall settings fuel text chunk_size chunk_overlap chunks,
    0 <= int_or chunk_size (Settings.chunk_size settings) ->
    chunk_text settings fuel text chunk_size chunk_overlap = Returned chunks ->
    Forall (fun c => len c <= int_or chunk_size (Settings.chunk_size settings)) chunks.
Proof.
  intros settings fuel text cs ov chunks Hcs H. unfold chunk_text in H.
  destruct text as [|c0 text]; [inversion H; constructor|].
  eapply chunk_loop_length; [exact Hcs | constructor | exact H].
Qed.

Lemma chunk_text_chunk_length_witness :
  Forall (fun c => len c <= 30)
    [lit "Diabetes is managed through di"; lit "gh diet, insulin, and monitori";
     lit "itoring."].
Proof.
  apply (chunk_text_chunk_length Settings.defaults 3
           (lit "Diabetes is managed through diet, insulin, and monitoring.")
           (Some 30) (Some 5)).
  - vm_compute; discriminate.
  - vm_compute; reflexivity.
Defined.

Lemma chunk_text_stripped_witness :
  Forall (fun c => strip c = c)
    [lit "Diabetes is managed through di"; lit "gh diet, insulin, and monitori";
     lit "itoring."].
Proof.
  apply (Chunking.chunk_text_stripped Settings.defaults 3
           (lit "Diabetes is managed through diet, insulin, and monitoring.")
           (Some 30) (Some 5)).
  vm_compute; reflexivity.
Defined.

(** *** A text that fits one window *)

(** A non-empty text no longer than the chunk size, with the overlap small
    enough for the next start to pass the end of the text
    ([len(text) <= chunk_size - chunk_overlap]), gives exactly one chunk,
    the stripped text. *)
Theorem chunk_text_single_chunk :
  forall settings fuel text chunk_size chunk_overlap,
    let cs := int_or chunk_size (Settings.chunk_size settings) in
    let ov := Z.min (int_or chunk_overlap (Settings.chunk_overlap settings)) (cs - 1) in
    text <> [] ->
    len text <= cs ->
    len text <= cs - ov ->
    chunk_text settings (S fuel) text chunk_size chunk_overlap = Returned [strip text].
Proof.
  intros settings fuel text chunk_size chunk_overlap cs ov Hne Hcs Hov.
  unfold chunk_text. destruct text as [|c0 text]; [contradiction|].
  fold cs. fold ov. set (t := c0 :: text) in *.
  cbn [chunk_loop].
  assert (Hlen : 0 < len t) by (unfold len, t; simpl; lia).
  replace (0 <? len t) with true by (symmetry; apply Z.ltb_lt; lia).
  unfold chunk_body.
  replace (0 + cs <? len t) with false by (symmetry; apply Z.ltb_ge; lia).
  rewrite Z.add_0_l, (slice_all t cs Hcs). cbv iota beta.
  replace (cs - ov >=? len t) with true by (symmetry; apply Z.geb_le; lia).
  reflexivity.
Qed.

Lemma chunk_text_single_chunk_witness :
  chunk_text Settings.defaults 1 (lit "  Take rest. ") None None
  = Returned [strip (lit "  Take rest. ")].
Proof.
  apply (chunk_text_single_chunk Settings.defaults 0 (lit "  Take rest. ") None None).
  - discriminate.
  - vm_compute; discriminate.
  - vm_compute; discriminate.
Defined.

End ChunkingMore.

(** * [rag/document_processor.py]: when [chunk_text] terminates *)

Module ChunkingTermination.
Import Py DocumentProcessor PyFacts Shapes.

Lemma int_gt_float_mono : forall z z' f,
  z <= z' -> int_gt_float z f = true -> int_gt_float z' f = true.
Proof.
  intros z z' f Hz H. destruct f as [s|s| |s m e]; simpl in *; auto.
  - apply Z.ltb_lt in H. apply Z.ltb_lt. lia.
  - destruct (0 <=? e).
    + apply Z.ltb_lt in H. apply Z.ltb_lt. lia.
    + apply Z.ltb_lt in H. apply Z.ltb_lt.
      assert (0 <= 2 ^ (- e)) by (apply Z.pow_nonneg; lia). nia.
Qed.

Lemma all_from_spec : forall fuel i f,
  all_from fuel i f = true ->
  forall j, i <= j < i + Z.of_nat fuel -> f j = true.
Proof.
  induction fuel as [|fuel IH]; intros i f H j Hj; [lia|].
  cbn [all_from] in H. apply andb_prop in H as [H0 H1].
  destruct (Z.eq_dec j i) as [->|Hne]; [exact H0|].
  apply (IH (i + 1) f H1). lia.
Qed.

Lemma sizes_checked : all_from (Z.to_nat checked_sizes) 1 threshold_exact = true.
Proof. vm_compute. reflexivity. Qed.

Lemma threshold_exact_checked : forall chunk_size,
  1 <= chunk_size <= checked_sizes -> threshold_exact chunk_size = true.
Proof.
  intros cs H. apply (all_from_spec _ _ _ sizes_checked).
  rewrite Z2Nat.id by (unfold checked_sizes; lia). lia.
Qed.

(** An accepted break point lies at or beyond seven tenths of the window. *)
Lemma find_break_position : forall chunk chunk_size endings,
  threshold_exact chunk_size = true ->
  exists brk, find_break chunk chunk_size endings = Some brk /\
              forall i, brk = Some i -> 7 * chunk_size <= 10 * i.
Proof.
  intros chunk cs endings Hok. unfold threshold_exact in Hok.
  destruct (float_of_int cs) as [f|] eqn:Ef; [|discriminate].
  apply negb_true_iff in Hok.
  induction endings as [|ending rest IH]; cbn [find_break].
  - exists None; split; [reflexivity | discriminate].
  - rewrite Ef.
    destruct (int_gt_float (rfind chunk ending) (fmul f Settings.f0_7)) eqn:Eg; [|exact IH].
    exists (Some (rfind chunk ending)); split; [reflexivity|].
    intros i Hi; injection Hi as <-.
    destruct (Z_le_gt_dec (rfind chunk ending) ((7 * cs + 9) / 10 - 1)) as [Hle|Hgt].
    + rewrite (int_gt_float_mono _ _ _ Hle Eg) in Hok. discriminate.
    + pose proof (Z.div_mod (7 * cs + 9) 10 ltac:(lia)).
      pose proof (Z.mod_pos_bound (7 * cs + 9) 10 ltac:(lia)). lia.
Qed.

(** Under the condition the window start advances in every iteration. *)
Lemma chunk_body_advances : forall text chunk_size chunk_overlap start,
  threshold_exact chunk_size = true ->
  1 <= chunk_size ->
  10 * chunk_overlap <= 7 * chunk_size ->
  exists chunk start',
    chunk_body text chunk_size chunk_overlap start = Some (chunk, start') /\
    start + 1 <= start'.
Proof.
  intros text cs ov start Hok Hcs Hov. unfold chunk_body.
  destruct (start + cs <? len text).
  - destruct (find_break_position (slice text start (start + cs)) cs sentence_endings Hok)
      as (brk & -> & Hbrk).
    destruct brk as [i|].
    + specialize (Hbrk i eq_refl). eexists _, _; split; [reflexivity | lia].
    + eexists _, _; split; [reflexivity | lia].
  - eexists _, _; split; [reflexivity | lia].
Qed.

Lemma chunk_loop_returns : forall fuel text chunk_size chunk_overlap start chunks,
  threshold_exact chunk_size = true ->
  1 <= chunk_size ->
  10 * chunk_overlap <= 7 * chunk_size ->
  len text - start <= Z.of_nat fuel ->
  (start < len text \/ (0 < fuel)%nat) ->
  exists result,
    chunk_loop fuel text chunk_size chunk_overlap start chunks = Returned result /\
    Z.of_nat (length result) <= Z.of_nat (length chunks) + Z.max 0 (len text - start).
Proof.
  induction fuel as [|fuel IH]; intros text cs ov start chunks Hok Hcs Hov Hfuel Hpos.
  - exfalso. simpl in Hfuel. lia.
  - cbn [chunk_loop]. destruct (start <? len text) eqn:Es.
    + apply Z.ltb_lt in Es.
      destruct (chunk_body_advances text cs ov start Hok Hcs Hov)
        as (chunk & start' & -> & Hadv).
      destruct (start' >=? len text) eqn:Ee.
      * eexists; split; [reflexivity|]. rewrite length_app. simpl. lia.
      * rewrite Z.geb_leb in Ee. apply Z.leb_gt in Ee.
        destruct (IH text cs ov start' (chunks ++ [chunk]) Hok Hcs Hov)
          as (result & Hr & Hl); [lia | left; exact Ee |].
        exists result; split; [exact Hr|]. rewrite length_app in Hl. simpl in Hl. lia.
    + eexists; split; [reflexivity | lia].
Qed.

(** For a chunk size between 1 and 100000 and an overlap (after the clamp)
    of at most seven tenths of it, [chunk_text] returns within [len(text)]
    iterations, with at most [len(text)] chunks. The settings' sizes 1000
    and 200 are such a pair. *)
Theorem chunk_text_returns :
  forall settings text chunk_size chunk_overlap,
    let cs := int_or chunk_size (Settings.chunk_size settings) in
    let ov := Z.min (int_or chunk_overlap (Settings.chunk_overlap settings)) (cs - 1) in
    1 <= cs <= checked_sizes ->
    10 * ov <= 7 * cs ->
    exists chunks,
      chunk_text settings (length text) text chunk_size chunk_overlap = Returned chunks /\
      (length chunks <= length text)%nat.
Proof.
  intros settings text chunk_size chunk_overlap cs ov Hcs Hov.
  unfold chunk_text. destruct text as [|c0 text].
  - exists []; split; [reflexivity | simpl; lia].
  - fold cs. fold ov. set (t := c0 :: text) in *.
    destruct (chunk_loop_returns (length t) t cs ov 0 []
                (threshold_exact_checked cs Hcs) ltac:(lia) Hov)
      as (result & Hr & Hl).
    + unfold len. lia.
    + right. unfold t; simpl; lia.
    + exists result; split; [exact Hr|].
      unfold len in Hl. simpl length in Hl at 2. lia.
Qed.

Lemma chunk_text_returns_witness :
  exists chunks,
    chunk_text Settings.defaults (length (lit "Rest and fluids. Call a doctor."))
      (lit "Rest and fluids. Call a doctor.") None None = Returned chunks /\
    (length chunks <= length (lit "Rest and fluids. Call a doctor."))%nat.
Proof.
  apply (chunk_text_returns Settings.defaults (lit "Rest and fluids. Call a doctor.")
           None None).
  - vm_compute; split; discriminate.
  - vm_compute; discriminate.
Defined.

End ChunkingTermination.

(** * [rag/document_processor.py]: what cleaned text looks like *)

Module CleanTextMore.
Import Py DocumentProcessor Cleaned PyFacts.

(** Cleaned text consists of word characters, the kept punctuation and
    spaces; it has no two spaces in a row and no whitespace at either end. *)
Theorem _clean_text_shape : forall x : str,
  (forall c, In c (_clean_text x) ->
     c = space \/ is_word c = true \/ In c kept_punctuation) /\
  no_adjacent (Ascii.eqb space) (_clean_text x) /\
  strip (_clean_text x) = _clean_text x.
Proof.
  intros x. destruct (CleanText._clean_text_form x) as (Hs & Hadj & Hl & Hr).
  split; [|split].
  - intros c Hc. rewrite Forall_forall in Hs.
    destruct (Hs c Hc) as [-> | [Hsp Hspec]]; [left; reflexivity | right].
    unfold special in Hspec. apply negb_false_iff in Hspec.
    rewrite Hsp, orb_false_r in Hspec.
    apply orb_prop in Hspec as [H|H]; [left; exact H | right].
    apply existsb_exists in H as (p & Hp & E).
    apply Ascii.eqb_eq in E; subst p. exact Hp.
  - eapply no_adjacent_weaken; [|exact Hadj].
    intros c _ E. apply Ascii.eqb_eq in E; subst c; reflexivity.
  - unfold strip. rewrite Hl. exact Hr.
Qed.

(** *** When nothing is left *)

Lemma re_sub_runs_keeps : forall p r c s,
  p c = false -> In c s -> In c (re_sub_runs p r s).
Proof.
  intros p r c s Hc. induction s as [|x s IH]; intros Hin; [contradiction|].
  destruct Hin as [->|Hin].
  - rewrite re_sub_runs_head by exact Hc. left; reflexivity.
  - specialize (IH Hin). simpl. destruct (p x).
    + destruct s as [|y s']; [contradiction|]. destruct (p y); [exact IH | right; exact IH].
    + right; exact IH.
Qed.

Lemma lstrip_keeps : forall c s, isspace c = false -> In c s -> In c (lstrip s).
Proof.
  intros c s Hc. induction s as [|x s IH]; intros Hin; [contradiction|].
  simpl. destruct (isspace x) eqn:Ex; [|exact Hin].
  destruct Hin as [->|Hin]; [congruence | auto].
Qed.

Lemma rstrip_keeps : forall c s, isspace c = false -> In c s -> In c (rstrip s).
Proof.
  intros c s Hc. induction s as [|x s IH]; intros Hin; [contradiction|].
  simpl. destruct Hin as [->|Hin].
  - destruct (rstrip s); [rewrite Hc|]; left; reflexivity.
  - specialize (IH Hin). destruct (rstrip s); [contradiction | right; exact IH].
Qed.

Lemma strip_blank : forall s, Forall (fun c => isspace c = true) s -> strip s = [].
Proof.
  intros s H. unfold strip.
  assert (E : lstrip s = []).
  { induction H as [|c s Hc _ IH]; [reflexivity|]. simpl. rewrite Hc. exact IH. }
  rewrite E. reflexivity.
Qed.

(** [_clean_text] returns the empty string exactly when the text has
    neither a word character nor a kept punctuation character: every
    character is whitespace or special. *)
Theorem _clean_text_empty_iff : forall x : str,
  _clean_text x = [] <-> Forall (fun c => (isspace c || special c)%bool = true) x.
Proof.
  intros x. split.
  - intros H. apply Forall_forall. intros c Hc.
    destruct (isspace c) eqn:Esp; [reflexivity|].
    destruct (special c) eqn:Espc; [reflexivity|]. exfalso.
    destruct x as [|c0 x]; [contradiction|].
    unfold _clean_text in H. set (s := c0 :: x) in *.
    assert (H1 : In c (re_sub_runs isspace space s))
      by (apply re_sub_runs_keeps; assumption).
    assert (H2 : In c (re_sub_each special space (re_sub_runs isspace space s))).
    { unfold re_sub_each. apply in_map_iff. exists c. rewrite Espc. auto. }
    rewrite (CleanText.newline_runs_fixed _ (CleanText.settled_after_special s)) in H.
    assert (Hsp : Ascii.eqb space c = false).
    { destruct (Ascii.eqb space c) eqn:E; [|reflexivity].
      apply Ascii.eqb_eq in E; subst c; discriminate. }
    pose proof (re_sub_runs_keeps (Ascii.eqb space) space c _ Hsp H2) as H4.
    apply (lstrip_keeps c _ Esp) in H4. apply (rstrip_keeps c _ Esp) in H4.
    unfold strip in H. rewrite H in H4. contradiction.
  - intros H. destruct x as [|c0 x]; [reflexivity|].
    unfold _clean_text. set (s := c0 :: x) in *.
    rewrite (CleanText.newline_runs_fixed _ (CleanText.settled_after_special s)).
    apply strip_blank. eapply Forall_impl;
      [|apply (re_sub_runs_Forall (Ascii.eqb space) space (fun c => c = space))].
    + intros c ->; reflexivity.
    + reflexivity.
    + unfold re_sub_each. apply Forall_map.
      eapply Forall_impl; [|apply re_sub_runs_chars].
      simpl. intros c Hc. destruct (special c) eqn:Espc; [reflexivity|].
      destruct Hc as [-> | [Hsp Hin]]; [reflexivity|].
      rewrite Forall_forall in H. specialize (H c Hin).
      rewrite Hsp, Espc in H. discriminate.
Qed.

End CleanTextMore.

(** * [rag/document_processor.py]: [chunk_text_by_sentences] *)

Module SentenceChunks.
Import Py DocumentProcessor SentenceChunker PyFacts Shapes.

Lemma rstrip_app : forall a b, b <> [] -> rstrip b = b -> rstrip (a ++ b) = a ++ b.
Proof.
  intros a b Hne Hb. induction a as [|x a IH]; [exact Hb|].
  simpl. rewrite IH. destruct (a ++ b) eqn:E; [|reflexivity].
  apply app_eq_nil in E as [_ E]. contradiction.
Qed.

Lemma stripped_parts : forall s,
  s <> [] -> strip s = s ->
  (exists c t, s = c :: t /\ isspace c = false) /\ rstrip s = s.
Proof.
  intros s Hne Hs. split.
  - pose proof (lstrip_strip s) as Hl. rewrite Hs in Hl.
    destruct (lstrip_head s) as [E | (c & t & E & Hc)]; rewrite Hl in E;
      [contradiction | exists c, t; auto].
  - pose proof (rstrip_strip s) as Hr. rewrite Hs in Hr. exact Hr.
Qed.

(** Two non-empty stripped strings joined by a space are stripped. *)
Lemma stripped_join : forall a b,
  a <> [] -> strip a = a -> b <> [] -> strip b = b ->
  strip (a ++ [space] ++ b) = a ++ [space] ++ b.
Proof.
  intros a b Ha Hsa Hb Hsb.
  destruct (stripped_parts a Ha Hsa) as [(c & t & -> & Hc) _].
  destruct (stripped_parts b Hb Hsb) as [_ Hrb].
  unfold strip. simpl app. rewrite (lstrip_fixed c _ Hc).
  replace (c :: t ++ space :: b) with ((c :: t ++ [space]) ++ b)
    by (simpl; rewrite <- app_assoc; reflexivity).
  apply rstrip_app; assumption.
Qed.

Section Loop.

Variable sentences_all : list str.
Variable max_chunk_size : Z.

Lemma accumulate_sound : forall sentences chunks current_chunk,
  (forall s, In s sentences -> In s sentences_all) ->
  Forall (sound_chunk sentences_all max_chunk_size) chunks ->
  (current_chunk = [] \/ sound_chunk sentences_all max_chunk_size current_chunk) ->
  Forall (sound_chunk sentences_all max_chunk_size) (accumulate sentences max_chunk_size chunks current_chunk).
Proof.
  induction sentences as [|sentence rest IH]; intros chunks cur Hin Hc Hcur.
  - simpl. destruct cur as [|c0 cur]; [exact Hc|].
    destruct Hcur as [|Hs]; [discriminate|].
    apply Forall_app; split; [exact Hc|].
    destruct Hs as (Hne & Hst & Hb). rewrite Hst.
        constructor; [split; [|split]; assumption | constructor].
  - cbn [accumulate].
    assert (Hrest : forall s, In s rest -> In s sentences_all)
      by (intros s Hs; apply Hin; right; exact Hs).
    destruct (strip sentence) as [|s0 st] eqn:Es; [apply IH; auto|].
    assert (Hsent : sound_chunk sentences_all max_chunk_size (s0 :: st)).
    { split; [discriminate|]. split; [rewrite <- Es; apply strip_idempotent|].
      right. exists sentence; split; [apply Hin; left; reflexivity | auto]. }
    destruct cur as [|c0 cur].
    + rewrite andb_false_r. apply IH; auto.
    + destruct Hcur as [|Hs]; [discriminate|]. rewrite andb_true_r.
      destruct (len (c0 :: cur) + len (s0 :: st) + 1 >? max_chunk_size) eqn:E.
      * apply IH; auto. apply Forall_app; split; [exact Hc|].
        destruct Hs as (Hne & Hst & Hb). rewrite Hst.
        constructor; [split; [|split]; assumption | constructor].
      * apply IH; auto. right.
        destruct Hs as (Hne & Hst & _). destruct Hsent as (Hne' & Hst' & _).
        split; [discriminate|]. split; [apply stripped_join; assumption|].
        left. rewrite Z.gtb_ltb in E. apply Z.ltb_ge in E.
        unfold len in *. rewrite !length_app. simpl length in *. lia.
Qed.

End Loop.

(** Every chunk of [chunk_text_by_sentences] is non-empty and has no
    leading or trailing whitespace; it is at most [max_chunk_size] long
    unless it is one whole (stripped) sentence. *)
Theorem chunk_text_by_sentences_chunks : forall settings text max_chunk_size,
  Forall
    (fun c =>
       c <> [] /\ strip c = c /\
       (len c <= int_or max_chunk_size (Settings.chunk_size settings) \/
        exists s, In s (split_sentences text None false []) /\ c = strip s))
    (chunk_text_by_sentences settings text max_chunk_size).
Proof.
  intros settings text max_chunk_size. unfold chunk_text_by_sentences.
  destruct text as [|c0 text]; [constructor|].
  apply (accumulate_sound (split_sentences (c0 :: text) None false [])
           (int_or max_chunk_size (Settings.chunk_size settings))); auto.
Qed.

(** *** Nothing is lost *)

Lemma join_space_spaced : forall l, join_space l = tl (spaced l).
Proof.
  induction l as [|x l IH]; [reflexivity|].
  destruct l as [|y l]; [simpl; rewrite app_nil_r; reflexivity|].
  change (join_space (x :: y :: l)) with (x ++ [space] ++ join_space (y :: l)).
  rewrite IH. reflexivity.
Qed.

Lemma spaced_app : forall a b, spaced (a ++ b) = spaced a ++ spaced b.
Proof. intros; unfold spaced; apply flat_map_app. Qed.

Lemma accumulate_spaced : forall max_chunk_size sentences chunks current_chunk,
  (current_chunk = [] \/ strip current_chunk = current_chunk) ->
  spaced (accumulate sentences max_chunk_size chunks current_chunk)
  = spaced chunks
    ++ spaced (if nonempty current_chunk then [current_chunk] else [])
    ++ spaced (filter nonempty (map strip sentences)).
Proof.
  intros max_chunk_size.
  induction sentences as [|sentence rest IH]; intros chunks cur Hcur.
  - simpl. destruct cur as [|c0 cur]; [rewrite app_nil_r; reflexivity|].
    destruct Hcur as [|Hs]; [discriminate|].
    rewrite Hs, spaced_app. simpl. rewrite !app_nil_r. reflexivity.
  - cbn [accumulate map filter].
    destruct (strip sentence) as [|s0 st] eqn:Es; [apply IH; exact Hcur|].
    assert (Hst : strip (s0 :: st) = s0 :: st)
      by (rewrite <- Es; apply strip_idempotent).
    cbn [nonempty].
    destruct cur as [|c0 cur].
    + rewrite andb_false_r, IH by (right; exact Hst).
      simpl. rewrite !app_nil_r. reflexivity.
    + destruct Hcur as [|Hs]; [discriminate|]. rewrite andb_true_r.
      destruct (len (c0 :: cur) + len (s0 :: st) + 1 >? max_chunk_size).
      * rewrite IH by (right; exact Hst). rewrite Hs, spaced_app.
        simpl. rewrite !app_nil_r, <- !app_assoc. reflexivity.
      * rewrite IH by (right; apply stripped_join; [discriminate | exact Hs
                                                   | discriminate | exact Hst]).
        simpl. rewrite !app_nil_r, <- !app_assoc. reflexivity.
Qed.

(** Joining the chunks with single spaces gives the non-blank stripped
    sentences joined with single spaces: no sentence is lost, cut or
    reordered. *)
Theorem chunk_text_by_sentences_keeps_text : forall settings text max_chunk_size,
  join_space (chunk_text_by_sentences settings text max_chunk_size)
  = join_space (filter nonempty (map strip (split_sentences text None false []))).
Proof.
  intros settings text max_chunk_size. rewrite !join_space_spaced.
  unfold chunk_text_by_sentences. destruct text as [|c0 text]; [reflexivity|].
  rewrite accumulate_spaced by (left; reflexivity). reflexivity.
Qed.

End SentenceChunks.

(** * [rag/vector_store.py]: what [search] returns *)

Module SearchMore.
Import Py VectorStore Batch Scenario Shapes.

Lemma SFcompare_antisym : forall a b,
  SFcompare b a = option_map CompOpp (SFcompare a b).
Proof.
  intros [sa|sa| |sa ma ea] [sb|sb| |sb mb eb]; simpl; try reflexivity;
    try (destruct sa; reflexivity); try (destruct sb; reflexivity);
    try (destruct sa, sb; reflexivity).
  destruct sa, sb; simpl; try reflexivity;
    rewrite (Z.compare_antisym ea eb); destruct (ea ?= eb); simpl; try reflexivity;
    change (Pos.compare_cont Eq mb ma) with (Pos.compare mb ma);
    change (Pos.compare_cont Eq ma mb) with (Pos.compare ma mb);
    rewrite (Pos.compare_antisym ma mb); destruct (ma ?= mb)%positive; reflexivity.
Qed.

Lemma SFltb_asym : forall a b, SFltb a b = true -> SFltb b a = false.
Proof.
  intros a b H. unfold SFltb in *. rewrite SFcompare_antisym.
  destruct (SFcompare a b) as [[]|]; simpl; try discriminate; reflexivity.
Qed.

Section Sorting.

Variable A : Type.
Variable key : A -> Py.float.

Lemma insert_desc_descending : forall x l,
  descending key l -> descending key (insert_desc key x l).
Proof.
  intros x l. induction l as [|y l IH]; intros H; [exact I|].
  cbn [insert_desc]. destruct (SFltb (key y) (key x)) eqn:E.
  - split; [apply SFltb_asym; exact E | exact H].
  - destruct l as [|z l].
    + simpl. split; [exact E | exact I].
    + destruct H as [Hyz H]. specialize (IH H).
      cbn [insert_desc] in IH |- *.
      destruct (SFltb (key z) (key x)); split; auto.
Qed.

Lemma sort_desc_descending : forall l, descending key (sort_desc key l).
Proof.
  intros l. unfold sort_desc.
  assert (H : forall acc, descending key acc ->
                descending key (fold_left (fun acc x => insert_desc key x acc) l acc)).
  { induction l as [|x l IH]; intros acc Hacc; [exact Hacc|].
    simpl. apply IH, insert_desc_descending, Hacc. }
  apply H. exact I.
Qed.

Lemma insert_desc_length : forall x l, length (insert_desc key x l) = S (length l).
Proof.
  intros x l. induction l as [|y l IH]; [reflexivity|].
  simpl. destruct (SFltb (key y) (key x)); simpl; auto.
Qed.

Lemma sort_desc_length : forall l, length (sort_desc key l) = length l.
Proof.
  intros l. unfold sort_desc.
  assert (H : forall acc,
            length (fold_left (fun acc x => insert_desc key x acc) l acc)
            = (length acc + length l)%nat).
  { induction l as [|x l IH]; intros acc; simpl; [lia|].
    rewrite IH, insert_desc_length. lia. }
  rewrite H. reflexivity.
Qed.

Lemma descending_app_r : forall a b, descending key (a ++ b) -> descending key b.
Proof.
  induction a as [|x a IH]; intros b H; [exact H|].
  apply IH. simpl in H. destruct (a ++ b); [exact I | apply H].
Qed.

Lemma descending_app_l : forall a b, descending key (a ++ b) -> descending key a.
Proof.
  induction a as [|x a IH]; intros b H; [exact I|].
  destruct a as [|y a]; [exact I|].
  destruct H as [Hxy H]. split; [exact Hxy | apply (IH b); exact H].
Qed.

Lemma slice_descending : forall l lo hi,
  descending key l -> descending key (slice l lo hi).
Proof.
  intros l lo hi H. unfold slice.
  set (n := Z.to_nat _). set (m := Z.to_nat _).
  rewrite <- (firstn_skipn m l) in H. apply descending_app_r in H.
  rewrite <- (firstn_skipn n (skipn m l)) in H. apply descending_app_l in H.
  exact H.
Qed.

Lemma slice_length_bound : forall (l : list A) hi,
  0 <= hi -> Z.of_nat (length (slice l 0 hi)) <= hi.
Proof.
  intros l hi H. unfold slice. rewrite length_firstn.
  assert (E0 : slice_bound (Z.of_nat (length l)) 0 = 0)
    by (unfold slice_bound; simpl; lia).
  assert (E1 : slice_bound (Z.of_nat (length l)) hi <= hi).
  { unfold slice_bound. destruct (hi <? 0) eqn:E; [apply Z.ltb_lt in E|]; lia. }
  rewrite E0. lia.
Qed.

End Sorting.

Section Search.

Variable faiss_search : IndexFlatIP -> vector -> Z -> option (list (Py.float * Z)).

Lemma hit_result_stored : forall self threshold filters hit r,
  hit_result self threshold filters hit = Some r ->
  SFltb (relevance_score r) threshold = false /\
  PyDict.get (document_store self) (chunk_id r) = Some (sr_content r).
Proof.
  intros self threshold filters [score idx] r H. unfold hit_result in H.
  destruct (idx =? -1); [discriminate|].
  destruct (PyDict.get (document_store self) (chunk_name idx)) as [text|] eqn:Et;
    [|discriminate].
  destruct (SFltb score threshold) eqn:Es; [discriminate|].
  destruct (filtered_out _ filters); [discriminate|].
  injection H as <-. simpl. auto.
Qed.

(** Every result of [search] is a chunk of the content map, returned with
    its stored content and metadata, a score that is not below the
    threshold, and metadata that pass the filters. *)
Theorem search_results_stored :
  forall self query_embedding top_k similarity_threshold filters,
    Forall
      (fun r =>
         PyDict.get (document_store self) (chunk_id r) = Some (sr_content r) /\
         sr_metadata r = stored_metadata self (chunk_id r) /\
         SFltb (relevance_score r) similarity_threshold = false /\
         filtered_out (sr_metadata r) filters = false)
      (search faiss_search self query_embedding top_k similarity_threshold filters).
Proof.
  intros self q top_k threshold filters. apply Forall_forall. intros r Hr.
  destruct (StoreFacts.search_result_kept faiss_search self q top_k threshold filters r Hr)
    as [Hm Hf].
  unfold search in Hr.
  destruct (ntotal (index self) =? 0); [contradiction|].
  destruct (faiss_search _ _ _) as [hits|]; [|contradiction].
  apply StoreFacts.slice_In, StoreFacts.sort_desc_In, StoreFacts.collect_results_In
    in Hr as [hit Hr].
  destruct (hit_result_stored _ _ _ _ _ Hr) as [Hs Hc]. auto.
Qed.

(** The results of [search] are ranked: no result is followed by one with a
    strictly greater score. *)
Theorem search_results_ranked :
  forall self query_embedding top_k similarity_threshold filters,
    descending relevance_score
      (search faiss_search self query_embedding top_k similarity_threshold filters).
Proof.
  intros self q top_k threshold filters. unfold search.
  destruct (ntotal (index self) =? 0); [exact I|].
  destruct (faiss_search _ _ _) as [hits|]; [|exact I].
  apply slice_descending, sort_desc_descending.
Qed.

(** For a non-negative [top_k], [search] returns at most [top_k] results,
    whatever the search library hands back. *)
Theorem search_at_most_top_k :
  forall self query_embedding top_k similarity_threshold filters,
    0 <= top_k ->
    Z.of_nat (length (search faiss_search self query_embedding top_k
                        similarity_threshold filters)) <= top_k.
Proof.
  intros self q top_k threshold filters Hk. unfold search.
  destruct (ntotal (index self) =? 0); [simpl; lia|].
  destruct (faiss_search _ _ _) as [hits|]; [|simpl; lia].
  apply slice_length_bound. exact Hk.
Qed.

End Search.

Lemma search_at_most_top_k_witness :
  Z.of_nat (length (search two_hits labelled_store zero_vector 1 Settings.f0_7 None)) <= 1.
Proof.
  apply (search_at_most_top_k two_hits labelled_store zero_vector 1 Settings.f0_7 None).
  discriminate.
Defined.

End SearchMore.

(** * [rag/vector_store.py]: adding and deleting, further *)

Module StoreMore.
Import Py VectorStore Batch Scenario Shapes DictFacts.

(** *** Dictionary facts *)

Section Dict.

Variable V : Type.

Lemma get_not_in : forall (d : PyDict.t V) k, ~ In k (map fst d) -> PyDict.get d k = None.
Proof.
  intros d. induction d as [|[k' v'] d IH]; intros k H; simpl; [reflexivity|].
  destruct (String.eqb k' k) eqn:E.
  - apply String.eqb_eq in E. exfalso; apply H; left; exact E.
  - apply IH. intros Hin; apply H; right; exact Hin.
Qed.

Lemma set_absent : forall (d : PyDict.t V) k v,
  PyDict.get d k = None -> PyDict.set d k v = d ++ [(k, v)].
Proof.
  intros d. induction d as [|[k' v'] d IH]; intros k v H; simpl in *; [reflexivity|].
  destruct (String.eqb k' k); [discriminate|]. rewrite IH by exact H. reflexivity.
Qed.

Lemma set_present_length : forall (d : PyDict.t V) k v,
  PyDict.contains d k = true -> length (PyDict.set d k v) = length d.
Proof.
  unfold PyDict.contains. intros d.
  induction d as [|[k' v'] d IH]; intros k v H; simpl in *; [discriminate|].
  destruct (String.eqb k' k); simpl; [reflexivity|]. rewrite IH by exact H. reflexivity.
Qed.

Lemma del_length : forall (d d' : PyDict.t V) k,
  PyDict.del d k = Some d' -> length d = S (length d').
Proof.
  intros d. induction d as [|[k' v'] d IH]; intros d' k H; simpl in *; [discriminate|].
  destruct (String.eqb k' k); [injection H as <-; reflexivity|].
  destruct (PyDict.del d k) as [d0|] eqn:E; [|discriminate].
  injection H as <-. simpl. rewrite (IH d0 k E). reflexivity.
Qed.

Lemma filter_all : forall (f : string * V -> bool) (d : PyDict.t V),
  (forall kv, In kv d -> f kv = true) -> filter f d = d.
Proof.
  intros f d. induction d as [|kv d IH]; intros H; [reflexivity|].
  simpl. rewrite (H kv) by (left; reflexivity).
  rewrite IH by (intros x Hx; apply H; right; exact Hx). reflexivity.
Qed.

Lemma del_filter : forall (d d' : PyDict.t V) k,
  NoDup (map fst d) ->
  PyDict.del d k = Some d' ->
  d' = filter (fun kv => negb (String.eqb (fst kv) k)) d.
Proof.
  intros d. induction d as [|[k' v'] d IH]; intros d' k Hnd H; simpl in *; [discriminate|].
  inversion Hnd as [|? ? Hnot Hnd']; subst.
  destruct (String.eqb k' k) eqn:E; simpl.
  - injection H as <-. apply String.eqb_eq in E; subst k'.
    symmetry. apply filter_all. intros [k0 v0] Hin. simpl.
    apply negb_true_iff, String.eqb_neq. intros ->.
    apply Hnot. apply in_map_iff. exists (k, v0); auto.
  - destruct (PyDict.del d k) as [d0|] eqn:Ed; [|discriminate].
    injection H as <-. rewrite (IH d0 k Hnd' Ed). reflexivity.
Qed.

Lemma NoDup_keys_filter : forall (f : string * V -> bool) (d : PyDict.t V),
  NoDup (map fst d) -> NoDup (map fst (filter f d)).
Proof.
  intros f d. induction d as [|kv d IH]; intros H; [constructor|].
  inversion H as [|? ? Hnot Hnd]; subst. simpl.
  destruct (f kv); [|auto]. simpl. constructor; [|auto].
  intros Hin. apply Hnot. apply in_map_iff in Hin as (x & Hx & Hin).
  apply filter_In in Hin as [Hin _]. apply in_map_iff. exists x; auto.
Qed.

Lemma NoDup_keys_value : forall (d : PyDict.t V) k v v',
  NoDup (map fst d) -> In (k, v) d -> In (k, v') d -> v = v'.
Proof.
  intros d. induction d as [|[k0 v0] d IH]; intros k v v' Hnd H1 H2; [contradiction|].
  inversion Hnd as [|? ? Hnot Hnd']; subst. simpl in Hnot.
  destruct H1 as [E1|H1], H2 as [E2|H2].
  - congruence.
  - injection E1 as -> ->. exfalso; apply Hnot, in_map_iff. exists (k, v'); auto.
  - injection E2 as -> ->. exfalso; apply Hnot, in_map_iff. exists (k, v); auto.
  - eapply IH; eauto.
Qed.

End Dict.

(** *** The lock-step state under [add_documents_with_embeddings] *)

Lemma names_length : forall n, length (names n) = n.
Proof. intros n. unfold names. rewrite length_map, length_seq. reflexivity. Qed.

Lemma names_succ : forall n, names (S n) = names n ++ [chunk_name (Z.of_nat n)].
Proof.
  intros n. unfold names. rewrite seq_S, map_app. reflexivity.
Qed.

Lemma name_not_in_names : forall n, ~ In (chunk_name (Z.of_nat n)) (names n).
Proof.
  intros n H. unfold names in H. apply in_map_iff in H as (i & E & Hi).
  apply in_seq in Hi. apply chunk_name_inj in E; lia.
Qed.

Lemma store_documents_in_step : forall document_id pairs n ds ms,
  Forall (fun p : document * vector => well_formed (fst p)) pairs ->
  map fst ds = names n ->
  map fst ms = names n ->
  let r := store_documents pairs document_id (Z.of_nat n) ds ms in
  snd r = true /\
  map fst (fst (fst r)) = names (n + length pairs) /\
  map fst (snd (fst r)) = names (n + length pairs).
Proof.
  intros document_id pairs. induction pairs as [|[doc e] pairs IH];
    intros n ds ms Hwf Hds Hms.
  - simpl. rewrite Nat.add_0_r. auto.
  - inversion Hwf as [|? ? [Hc Hm] Hwf']; subst. simpl in Hc, Hm.
    cbn [store_documents].
    destruct (content doc) as [c|]; [|contradiction].
    destruct (metadata doc) as [m|]; [|contradiction].
    assert (Hd : PyDict.get ds (chunk_name (Z.of_nat n)) = None)
      by (apply get_not_in; rewrite Hds; apply name_not_in_names).
    assert (Hmn : PyDict.get ms (chunk_name (Z.of_nat n)) = None)
      by (apply get_not_in; rewrite Hms; apply name_not_in_names).
    rewrite (set_absent _ _ _ c Hd), (set_absent _ _ _ (chunk_metadata m document_id (Z.of_nat n)) Hmn).
    replace (Z.of_nat n + 1) with (Z.of_nat (S n)) by lia.
    replace (n + length ((doc, e) :: pairs))%nat with (S n + length pairs)%nat
      by (simpl; lia).
    apply IH; [exact Hwf' | |]; rewrite map_app, names_succ; simpl; congruence.
Qed.

(** The store of a new process is in lock-step, and a successful
    [add_documents_with_embeddings] keeps it so: an accepted batch of
    well-formed documents added to a store whose [n] vectors correspond to
    the keys [chunk_0 .. chunk_(n-1)] of both maps returns [True] and leaves
    such a store, with equal counts in the index and in both maps. *)
Theorem add_documents_keeps_lock_step :
  in_step fresh /\
  forall self documents embeddings document_id,
    in_step self ->
    batch_accepted self documents embeddings = true ->
    Forall well_formed documents ->
    let r := add_documents_with_embeddings self documents embeddings document_id in
    snd r = true /\ in_step (fst r) /\
    PyDict.len (document_store (fst r)) = ntotal (index (fst r)) /\
    PyDict.len (metadata_store (fst r)) = ntotal (index (fst r)).
Proof.
  split; [split; reflexivity|].
  intros self documents embeddings document_id [Hds Hms] Hacc Hwf r.
  destruct (AddDocuments.accepted_batch_unfolds self documents embeddings document_id Hacc)
    as [Hl Hr].
  subst r. rewrite Hr. cbv zeta.
  set (n := length (xb (index self))) in *.
  assert (Hstart : PyDict.len (document_store self) = Z.of_nat n).
  { unfold PyDict.len. rewrite <- (length_map fst), Hds, names_length. reflexivity. }
  rewrite Hstart.
  pose proof (store_documents_in_step document_id (combine documents embeddings) n
                (document_store self) (metadata_store self)
                (proj2 (AddDocuments.combine_well_formed documents embeddings Hl) Hwf)
                Hds Hms) as Hloop.
  cbv zeta in Hloop.
  set (res := store_documents (combine documents embeddings) document_id (Z.of_nat n)
                (document_store self) (metadata_store self)) in *.
  destruct Hloop as (Hok & Hd' & Hm').
  cbn [fst snd].
  assert (Hn : length (xb (index self) ++ map (map to_float32) embeddings)
               = (n + length (combine documents embeddings))%nat).
  { rewrite length_app, length_map, length_combine, Hl, Nat.min_id. reflexivity. }
  split; [exact Hok|].
  split; [split; cbn [index xb document_store metadata_store]; rewrite Hn; assumption|].
  unfold PyDict.len, ntotal. cbn [index xb document_store metadata_store].
  rewrite <- (length_map fst (fst (fst res))), Hd'.
  rewrite <- (length_map fst (snd (fst res))), Hm'.
  rewrite names_length, Hn. auto.
Qed.

Lemma add_documents_keeps_lock_step_witness :
  in_step two_documents.
Proof.
  unfold two_documents.
  destruct add_documents_keeps_lock_step as [H0 Hstep].
  assert (H1 : in_step (fst (add_documents_with_embeddings fresh [plain "alpha"]
                               [zero_vector] (Some "A"%string)))).
  { apply (Hstep fresh [plain "alpha"] [zero_vector] (Some "A"%string) H0).
    - vm_compute; reflexivity.
    - repeat constructor; discriminate. }
  apply (Hstep _ [plain "beta"] [zero_vector] (Some "B"%string) H1).
  - vm_compute; reflexivity.
  - repeat constructor; discriminate.
Defined.

(** *** The fields that the store stamps *)

(** In the metadata stored for a chunk, [chunk_id], [document_id] and
    [embedding_index] are the store's values, whatever the document's own
    metadata held under these keys; every other key keeps the document's
    value. Without a [document_id] argument (as the pipeline calls it) the
    document id is the generated [doc_<n>] of the chunk's position. *)
Theorem chunk_metadata_fields : forall m document_id n,
  PyDict.get (chunk_metadata m document_id n) "chunk_id" = Some (VStr (chunk_name n)) /\
  PyDict.get (chunk_metadata m document_id n) "document_id"
  = Some (VStr (document_id_or document_id n)) /\
  PyDict.get (chunk_metadata m document_id n) "embedding_index" = Some (VInt n) /\
  document_id_or None n = doc_name n /\
  forall k, k <> "chunk_id"%string -> k <> "document_id"%string ->
            k <> "embedding_index"%string ->
            PyDict.get (chunk_metadata m document_id n) k = PyDict.get m k.
Proof.
  intros m document_id n. unfold chunk_metadata.
  repeat split.
  - rewrite !get_set_other by discriminate. apply get_set_same.
  - rewrite get_set_other by discriminate. apply get_set_same.
  - apply get_set_same.
  - intros k H1 H2 H3. rewrite !get_set_other by congruence. reflexivity.
Qed.

Lemma chunk_metadata_fields_witness :
  PyDict.get (chunk_metadata [("document_id"%string, VStr "report-7")] None 3) "document_id"
  = Some (VStr "doc_3") /\
  PyDict.get (chunk_metadata [("title"%string, VStr "Flu")] None 3) "title"
  = Some (VStr "Flu").
Proof.
  split.
  - exact (proj1 (proj2 (chunk_metadata_fields [("document_id"%string, VStr "report-7")]
                           None 3))).
  - exact (proj2 (proj2 (proj2 (proj2 (chunk_metadata_fields [("title"%string, VStr "Flu")]
                                         None 3))))
             "title"%string ltac:(discriminate) ltac:(discriminate) ltac:(discriminate)).
Defined.

End StoreMore.

(** * [rag/vector_store.py]: what [delete_document] leaves *)

Module DeleteMore.
Import Py VectorStore Batch Scenario Shapes DictFacts StoreMore.

Lemma remove_chunks_lengths : forall ids ds ms ds' ms',
  remove_chunks ids ds ms = (ds', ms', true) ->
  length ds = (length ds' + length ids)%nat /\
  length ms = (length ms' + length ids)%nat.
Proof.
  induction ids as [|k ids IH]; intros ds ms ds' ms' H; simpl in H.
  - injection H as <- <-. simpl. lia.
  - destruct (PyDict.del ds k) as [ds0|] eqn:Ed; [|discriminate].
    destruct (PyDict.del ms k) as [ms0|] eqn:Em; [|discriminate].
    apply IH in H as [H1 H2].
    apply del_length in Ed, Em. simpl. lia.
Qed.

(** A successful [delete_document] removes as many entries from the
    content map as from the metadata map: maps of equal size stay of equal
    size. *)
Theorem delete_document_keeps_map_sizes : forall self document_id,
  snd (delete_document self document_id) = true ->
  PyDict.len (document_store self) = PyDict.len (metadata_store self) ->
  PyDict.len (document_store (fst (delete_document self document_id)))
  = PyDict.len (metadata_store (fst (delete_document self document_id))).
Proof.
  intros self document_id Hok Heq. unfold delete_document in *.
  destruct (chunks_to_delete (metadata_store self) document_id) as [|c ids];
    [exact Heq|].
  destruct (remove_chunks (c :: ids) (document_store self) (metadata_store self))
    as [[ds ms] ok] eqn:Er.
  destruct ok; [|discriminate].
  apply remove_chunks_lengths in Er as [H1 H2].
  unfold _rebuild_index. unfold PyDict.len in *.
  destruct ds; cbn [fst document_store metadata_store] in *; lia.
Qed.

Lemma delete_document_keeps_map_sizes_witness :
  PyDict.len (document_store (fst (delete_document two_documents "A")))
  = PyDict.len (metadata_store (fst (delete_document two_documents "A"))).
Proof.
  apply (delete_document_keeps_map_sizes two_documents "A"); vm_compute; reflexivity.
Defined.

Lemma remove_chunks_filter : forall ids ds ms ds' ms',
  NoDup (map fst ms) ->
  remove_chunks ids ds ms = (ds', ms', true) ->
  ms' = filter (fun kv => negb (existsb (String.eqb (fst kv)) ids)) ms.
Proof.
  induction ids as [|k ids IH]; intros ds ms ds' ms' Hnd H; simpl in H.
  - injection H as _ <-. symmetry. apply filter_all. reflexivity.
  - destruct (PyDict.del ds k) as [ds0|] eqn:Ed; [|discriminate].
    destruct (PyDict.del ms k) as [ms0|] eqn:Em; [|discriminate].
    pose proof (del_filter _ ms ms0 k Hnd Em) as E0. subst ms0.
    apply IH in H; [|apply NoDup_keys_filter; exact Hnd].
    rewrite H. clear. induction ms as [|kv ms IHm]; [reflexivity|].
    simpl. rewrite (String.eqb_sym (fst kv) k).
    destruct (String.eqb k (fst kv)); simpl; rewrite IHm; reflexivity.
Qed.

Lemma filter_complement : forall (A : Type) (f : A -> bool) (l : list A),
  filter f (filter (fun x => negb (f x)) l) = [].
Proof.
  intros A f l. induction l as [|x l IH]; [reflexivity|].
  simpl. destruct (f x) eqn:E; simpl; [exact IH|]. rewrite E. exact IH.
Qed.

(** When the keys of the metadata map are distinct, a successful
    [delete_document] leaves exactly the records that do not name the
    document, in their order; nothing that names it remains. *)
Theorem delete_document_removes_all : forall self document_id,
  NoDup (map fst (metadata_store self)) ->
  snd (delete_document self document_id) = true ->
  metadata_store (fst (delete_document self document_id))
  = filter (fun kv => negb (references document_id kv)) (metadata_store self) /\
  chunks_to_delete (metadata_store (fst (delete_document self document_id))) document_id
  = [].
Proof.
  intros self document_id Hnd Hok.
  assert (E : metadata_store (fst (delete_document self document_id))
              = filter (fun kv => negb (references document_id kv)) (metadata_store self)).
  { unfold delete_document in *.
    destruct (chunks_to_delete (metadata_store self) document_id) as [|c ids] eqn:Ec.
    - simpl. symmetry. apply filter_all. intros kv Hkv.
      destruct (references document_id kv) eqn:Er; [|reflexivity]. exfalso.
      assert (Hin : In (fst kv) (chunks_to_delete (metadata_store self) document_id)).
      { unfold chunks_to_delete. apply in_map, filter_In. split; [exact Hkv | exact Er]. }
      rewrite Ec in Hin. contradiction.
    - destruct (remove_chunks (c :: ids) (document_store self) (metadata_store self))
        as [[ds ms] ok] eqn:Er.
      destruct ok; [|discriminate].
      apply remove_chunks_filter in Er; [|exact Hnd].
      rewrite <- Ec in Er.
      replace (metadata_store (fst (_rebuild_index _, true))) with ms
        by (unfold _rebuild_index; destruct ds; reflexivity).
      rewrite Er. apply filter_ext_in. intros [k m] Hkv. f_equal. simpl fst.
      destruct (references document_id (k, m)) eqn:Eref.
      + apply existsb_exists. exists k. split; [|apply String.eqb_refl].
        unfold chunks_to_delete.
        change k with (fst (k, m)). apply in_map, filter_In. auto.
      + destruct (existsb (String.eqb k) (chunks_to_delete (metadata_store self) document_id))
          eqn:Eex; [|reflexivity].
        apply existsb_exists in Eex as (k' & Hin & Ek).
        apply String.eqb_eq in Ek; subst k'.
        unfold chunks_to_delete in Hin. apply in_map_iff in Hin as ([k1 m1] & Ek & Hin).
        simpl in Ek; subst k1. apply filter_In in Hin as [Hin Href].
        rewrite (NoDup_keys_value _ _ k m m1 Hnd Hkv Hin) in Eref.
        unfold references in Eref, Href. simpl in *. congruence. }
  split; [exact E|].
  rewrite E. unfold chunks_to_delete.
  change (fun kv : string * PyDict.t pyval =>
            match PyDict.get (snd kv) "document_id" with
            | Some v => py_eq v (VStr document_id)
            | None => false
            end) with (references document_id).
  rewrite filter_complement. reflexivity.
Qed.

Lemma delete_document_removes_all_witness :
  metadata_store (fst (delete_document two_documents "A"))
  = filter (fun kv => negb (references "A" kv)) (metadata_store two_documents) /\
  chunks_to_delete (metadata_store (fst (delete_document two_documents "A"))) "A" = [].
Proof.
  apply (delete_document_removes_all two_documents "A").
  - vm_compute. repeat constructor; simpl; intuition discriminate.
  - vm_compute; reflexivity.
Defined.

Section Search.

Variable faiss_search : IndexFlatIP -> vector -> Z -> option (list (Py.float * Z)).

(** After a [delete_document] that removed at least one chunk and returned
    [True], every search of the store returns no result, whatever else the
    maps still hold: the index that the deletion installs is empty. *)
Theorem search_after_delete_is_empty :
  forall self document_id query_embedding top_k similarity_threshold filters,
    chunks_to_delete (metadata_store self) document_id <> [] ->
    snd (delete_document self document_id) = true ->
    search faiss_search (fst (delete_document self document_id)) query_embedding top_k
      similarity_threshold filters = [].
Proof.
  intros self document_id q top_k threshold filters Hne Hok.
  unfold search. rewrite (StoreFacts.delete_document_index self document_id Hne Hok).
  reflexivity.
Qed.

End Search.

Lemma search_after_delete_is_empty_witness :
  search two_hits (fst (delete_document two_documents "A")) zero_vector 5 Settings.f0_7 None
  = [].
Proof.
  apply (search_after_delete_is_empty two_hits two_documents "A").
  - vm_compute; discriminate.
  - vm_compute; reflexivity.
Defined.

(** *** Chunk ids are taken from the size of the content map *)

(** When the content map already holds the key [chunk_<len>] (as it does
    after a deletion that left a later chunk), adding one well-formed
    document overwrites that entry: the index grows by one vector while the
    content map keeps its size. *)
Theorem add_documents_reuses_chunk_id : forall self doc embedding document_id,
  batch_accepted self [doc] [embedding] = true ->
  well_formed doc ->
  PyDict.contains (document_store self)
    (chunk_name (PyDict.len (document_store self))) = true ->
  let r := add_documents_with_embeddings self [doc] [embedding] document_id in
  snd r = true /\
  ntotal (index (fst r)) = ntotal (index self) + 1 /\
  PyDict.len (document_store (fst r)) = PyDict.len (document_store self) /\
  PyDict.get (document_store (fst r)) (chunk_name (PyDict.len (document_store self)))
  = content doc.
Proof.
  intros self doc embedding document_id Hacc [Hc Hm] Hin r.
  destruct (AddDocuments.accepted_batch_unfolds self [doc] [embedding] document_id Hacc)
    as [_ Hr].
  subst r. rewrite Hr. cbv zeta. cbn [combine store_documents].
  destruct (content doc) as [c|]; [|contradiction].
  destruct (metadata doc) as [m|]; [|contradiction].
  cbn [fst snd index xb document_store metadata_store].
  split; [reflexivity|]. split; [|split].
  - unfold ntotal. cbn [index xb]. rewrite length_app. simpl. lia.
  - unfold PyDict.len at 1. rewrite (set_present_length _ _ _ c Hin). reflexivity.
  - apply get_set_same.
Qed.

Lemma add_documents_reuses_chunk_id_witness :
  snd (add_documents_with_embeddings after_delete [plain "gamma"] [zero_vector] None)
  = true /\
  ntotal (index (fst (add_documents_with_embeddings after_delete [plain "gamma"]
                        [zero_vector] None)))
  = ntotal (index after_delete) + 1 /\
  PyDict.len (document_store (fst (add_documents_with_embeddings after_delete
                                     [plain "gamma"] [zero_vector] None)))
  = PyDict.len (document_store after_delete) /\
  PyDict.get (document_store (fst (add_documents_with_embeddings after_delete
                                     [plain "gamma"] [zero_vector] None)))
    (chunk_name (PyDict.len (document_store after_delete)))
  = content (plain "gamma").
Proof.
  apply (add_documents_reuses_chunk_id after_delete (plain "gamma") zero_vector None).
  - vm_compute; reflexivity.
  - split; discriminate.
  - vm_compute; reflexivity.
Defined.

End DeleteMore.

(** * [rag/rag_pipeline.py]: what [query] returns *)

Module QueryMore.
Import Py VectorStore RAGPipeline Scenario Shapes.

(** Whenever [query] returns, every document has a score at or above the
    threshold in force, the documents are ranked by decreasing score,
    [total_results] is their number, and for a non-negative [top_k] in force
    there are at most [top_k] of them. *)
Theorem query_results :
  forall faiss_search embed_text self text top_k threshold filters include_metadata result,
    let k := int_or top_k (Settings.top_k_results (settings self)) in
    let t := float_or threshold (Settings.similarity_threshold (settings self)) in
    query faiss_search embed_text self text top_k threshold filters include_metadata
    = Some result ->
    Forall (fun c => SFleb t (dc_relevance_score c) = true) (rr_documents result) /\
    descending dc_relevance_score (rr_documents result) /\
    total_results result = Z.of_nat (length (rr_documents result)) /\
    (0 <= k -> total_results result <= k).
Proof.
  intros faiss_search embed_text self text top_k threshold filters include_metadata
         result k t H.
  unfold query in H. fold k in H. fold t in H.
  destruct (embed_text text) as [e|]; [|discriminate].
  injection H as <-. cbn [rr_documents total_results].
  set (found := search faiss_search (vector_store self) e k t filters).
  split; [|split; [|split]].
  - apply Forall_forall. intros c Hc.
    apply StoreFacts.sort_desc_In in Hc. unfold process_results in Hc.
    apply in_map_iff in Hc as (r & <- & Hr). apply filter_In in Hr as [_ Hr].
    exact Hr.
  - apply SearchMore.sort_desc_descending.
  - reflexivity.
  - intros Hk. rewrite SearchMore.sort_desc_length. unfold process_results.
    rewrite length_map.
    pose proof (filter_length_le
                  (fun r => SFleb t (relevance_score r)) found) as Hf.
    assert (Hs : Z.of_nat (length found) <= k).
    { unfold found, search.
      destruct (ntotal (index (vector_store self)) =? 0); [simpl; lia|].
      destruct (faiss_search _ _ _) as [hits|]; [|simpl; lia].
      apply SearchMore.slice_length_bound. exact Hk. }
    lia.
Qed.

Lemma query_results_witness :
  match query two_hits (fun _ => Some zero_vector)
          {| vector_store := labelled_store; settings := Settings.defaults |}
          "fever"%string None None None true with
  | Some result => total_results result = 2 /\ total_results result <= 5
  | None => False
  end.
Proof.
  destruct (query two_hits (fun _ => Some zero_vector)
              {| vector_store := labelled_store; settings := Settings.defaults |}
              "fever"%string None None None true) as [result|] eqn:E.
  - split.
    + vm_compute in E. injection E as <-. reflexivity.
    + apply (proj2 (proj2 (proj2 (query_results _ _ _ _ _ _ _ _ _ E)))).
      vm_compute; discriminate.
  - vm_compute in E. discriminate.
Defined.

End QueryMore.

(** * [rag/embedding_client.py] *)

Module EmbeddingFacts.
Import Py VectorStore EmbeddingClient Shapes.

Section Client.

Variable create : list str -> option (list vector).

Lemma empty_embeddings_padded : forall texts, Forall2 padded texts (empty_embeddings texts).
Proof.
  induction texts as [|t texts IH]; constructor; [intros _; reflexivity | exact IH].
Qed.

Lemma pad_embeddings_padded : forall texts embeddings result,
  pad_embeddings texts embeddings = Some result -> Forall2 padded texts result.
Proof.
  induction texts as [|t texts IH]; intros embeddings result H; simpl in H.
  - injection H as <-. constructor.
  - destruct (nonblank t) eqn:Et.
    + destruct embeddings as [|e embeddings]; [discriminate|].
      destruct (pad_embeddings texts embeddings) as [r|] eqn:Er; [|discriminate].
      injection H as <-. constructor; [intros Hb; congruence | eapply IH; eauto].
    + destruct (pad_embeddings texts embeddings) as [r|] eqn:Er; [|discriminate].
      injection H as <-. constructor; [intros _; reflexivity | eapply IH; eauto].
Qed.

(** The two ways [_embed_batch_internal] answers: with empty vectors only
    (nothing to embed, or the [except] branch), or with the provider's vectors
    padded. *)
Lemma _embed_batch_internal_answer : forall texts,
  _embed_batch_internal create texts = empty_embeddings texts \/
  exists embeddings,
    pad_embeddings texts embeddings = Some (_embed_batch_internal create texts).
Proof.
  intros texts. unfold _embed_batch_internal.
  destruct (filter nonblank texts); [left; reflexivity|].
  destruct (create _) as [embeddings|]; [|left; reflexivity].
  destruct (pad_embeddings texts embeddings) as [r|] eqn:E;
    [right; exists embeddings; exact E | left; reflexivity].
Qed.

(** [_embed_batch_internal] answers with one vector per text, in order, and
    the vector of a blank text is empty, whatever the provider does
    (including when it fails or answers with too few vectors). *)
Theorem _embed_batch_internal_padded : forall texts,
  Forall2 padded texts (_embed_batch_internal create texts).
Proof.
  intros texts.
  destruct (_embed_batch_internal_answer texts) as [-> | [embeddings E]].
  - apply empty_embeddings_padded.
  - eapply pad_embeddings_padded; eauto.
Qed.

Lemma pad_embeddings_order : forall texts embeddings,
  length embeddings = length (filter nonblank texts) ->
  exists result,
    pad_embeddings texts embeddings = Some result /\
    map snd (filter (fun p => nonblank (fst p)) (combine texts result)) = embeddings.
Proof.
  induction texts as [|t texts IH]; intros embeddings Hl; simpl in *.
  - destruct embeddings; [|discriminate]. exists []; auto.
  - destruct (nonblank t) eqn:Et.
    + destruct embeddings as [|e embeddings]; [discriminate|].
      injection Hl as Hl. destruct (IH embeddings Hl) as (r & -> & Hr).
      exists (e :: r). simpl. rewrite Et. simpl. rewrite Hr. auto.
    + destruct (IH embeddings Hl) as (r & -> & Hr).
      exists ([] :: r). simpl. rewrite Et. auto.
Qed.

(** When the provider answers with one vector per non-blank text, the
    non-blank texts receive exactly those vectors, in order. *)
Theorem _embed_batch_internal_order : forall texts embeddings,
  create (map truncate (filter nonblank texts)) = Some embeddings ->
  length embeddings = length (filter nonblank texts) ->
  map snd (filter (fun p => nonblank (fst p))
             (combine texts (_embed_batch_internal create texts)))
  = embeddings.
Proof.
  intros texts embeddings Hc Hl. unfold _embed_batch_internal.
  destruct (filter nonblank texts) as [|v valid] eqn:Ev.
  - destruct embeddings; [|discriminate].
    clear Hc. induction texts as [|t texts IH]; [reflexivity|].
    simpl in Ev |- *. destruct (nonblank t); [discriminate | apply IH; exact Ev].
  - rewrite Hc. rewrite <- Ev in Hl.
    destruct (pad_embeddings_order texts embeddings Hl) as (r & -> & Hr). exact Hr.
Qed.

Lemma embed_batches_padded : forall fuel texts batch_size,
  (0 < batch_size)%nat ->
  (length texts <= fuel)%nat ->
  Forall2 padded texts (embed_batches create fuel texts batch_size).
Proof.
  induction fuel as [|fuel IH]; intros texts b Hb Hl.
  - destruct texts; [constructor | simpl in Hl; lia].
  - destruct texts as [|t texts]; [constructor|].
    cbn [embed_batches].
    rewrite <- (firstn_skipn b (t :: texts)) at 1.
    apply Forall2_app.
    { destruct (_embed_batch_internal_answer (firstn b (t :: texts)))
        as [-> | [embeddings E]];
        [apply empty_embeddings_padded | eapply pad_embeddings_padded; eauto]. }
    apply IH; [exact Hb|].
    rewrite length_skipn. cbn [length] in *. lia.
Qed.

(** For a positive batch size, [embed_batch] returns (it does not raise)
    one vector per text, in order, the vector of a blank text being empty:
    the answer has the length of the input. *)
Theorem embed_batch_padded : forall texts batch_size,
  0 < batch_size ->
  exists result,
    embed_batch create texts batch_size = Some result /\
    Forall2 padded texts result /\
    length result = length texts.
Proof.
  intros texts b Hb.
  assert (H : exists result, embed_batch create texts b = Some result /\
                             Forall2 padded texts result).
  { unfold embed_batch. destruct texts as [|t texts].
    - exists []; split; [reflexivity | constructor].
    - replace (b =? 0) with false by (symmetry; apply Z.eqb_neq; lia).
      replace (b <? 0) with false by (symmetry; apply Z.ltb_ge; lia).
      eexists; split; [reflexivity|].
      apply embed_batches_padded; lia. }
  destruct H as (r & Hr & Hp). exists r. repeat split; auto.
  symmetry. eapply Forall2_length; eauto.
Qed.

End Client.

Lemma embed_batch_padded_witness :
  exists result,
    embed_batch (fun texts => Some (map (fun _ => Scenario.zero_vector) texts))
      [lit "rest"; lit "  "; lit "fluids"] 2 = Some result /\
    Forall2 padded [lit "rest"; lit "  "; lit "fluids"] result /\
    length result = 3%nat.
Proof.
  apply (embed_batch_padded (fun texts => Some (map (fun _ => Scenario.zero_vector) texts))
           [lit "rest"; lit "  "; lit "fluids"] 2).
  reflexivity.
Defined.

Lemma _embed_batch_internal_order_witness :
  map snd (filter (fun p => nonblank (fst p))
             (combine [lit "rest"; lit "  "; lit "fluids"]
                (_embed_batch_internal
                   (fun texts => Some (map (fun _ => Scenario.zero_vector) texts))
                   [lit "rest"; lit "  "; lit "fluids"])))
  = [Scenario.zero_vector; Scenario.zero_vector].
Proof.
  apply (_embed_batch_internal_order
           (fun texts => Some (map (fun _ => Scenario.zero_vector) texts))
           [lit "rest"; lit "  "; lit "fluids"]); reflexivity.
Defined.

End EmbeddingFacts.

(** * [rag/rag_pipeline.py]: ingestion *)

Module IngestFacts.
Import Py VectorStore Batch Ingest.

Section Pipeline.

Variable create : list str -> option (list vector).

Lemma chunk_dictionaries_well_formed : forall chunks i j total metadata,
  Forall well_formed (chunk_dictionaries chunks i j total metadata).
Proof.
  induction chunks as [|c chunks IH]; intros i j total metadata; simpl; constructor.
  - split; discriminate.
  - apply IH.
Qed.

Lemma all_chunks_well_formed :
  forall settings fuel documents i metadata chunk_size chunk_overlap texts dictionaries,
    all_chunks settings fuel documents i metadata chunk_size chunk_overlap
    = Returned (texts, dictionaries) ->
    Forall well_formed dictionaries.
Proof.
  intros settings fuel documents.
  induction documents as [|doc documents IH];
    intros i metadata cs ov texts dictionaries H; simpl in H.
  - injection H as <- <-. constructor.
  - destruct (DocumentProcessor.chunk_text settings fuel doc (Some cs) (Some ov))
      as [chunks| |]; try discriminate.
    destruct (all_chunks settings fuel documents (i + 1) metadata cs ov)
      as [[texts' dictionaries']| |] eqn:E; try discriminate.
    injection H as <- <-. apply Forall_app; split.
    + apply chunk_dictionaries_well_formed.
    + eapply IH; eauto.
Qed.

(** The store's batch write, given well-formed dictionaries, changes
    nothing when it returns [False]. *)
Lemma well_formed_batch_all_or_nothing : forall self dictionaries embeddings document_id,
  Forall well_formed dictionaries ->
  snd (add_documents_with_embeddings self dictionaries embeddings document_id) = false ->
  add_documents_with_embeddings self dictionaries embeddings document_id = (self, false).
Proof.
  intros self dictionaries embeddings document_id Hwf Hok.
  destruct (batch_accepted self dictionaries embeddings) eqn:Hacc;
    [|apply AddDocuments.rejected_batch_unchanged; exact Hacc].
  destruct (AddDocuments.accepted_batch_unfolds self dictionaries embeddings document_id Hacc)
    as [Hl Hr].
  rewrite Hr in Hok. cbv zeta in Hok. cbn [snd] in Hok.
  assert (Ht : snd (store_documents (combine dictionaries embeddings) document_id
                      (PyDict.len (document_store self)) (document_store self)
                      (metadata_store self)) = true).
  { apply AddDocuments.store_documents_flag, AddDocuments.combine_well_formed; assumption. }
  congruence.
Qed.

(** What [add_documents] hands back: the store untouched with [False], or
    the answer of the store's batch write on well-formed dictionaries. *)
Lemma add_documents_returned :
  forall self fuel documents metadata chunk_size chunk_overlap answer,
    add_documents create self fuel documents metadata chunk_size chunk_overlap
    = Returned answer ->
    answer = (RAGPipeline.vector_store self, false) \/
    exists dictionaries embeddings,
      Forall well_formed dictionaries /\
      answer = add_documents_with_embeddings (RAGPipeline.vector_store self)
                 dictionaries embeddings None.
Proof.
  intros self fuel documents metadata cs ov answer H.
  unfold add_documents in H.
  destruct (all_chunks _ _ _ _ _ _ _) as [[texts dictionaries]| |] eqn:Ec;
    try discriminate; [|left; congruence].
  destruct (EmbeddingClient.embed_batch create texts 100) as [embeddings|];
    [|left; congruence].
  right. exists dictionaries, embeddings. split.
  - eapply all_chunks_well_formed; eauto.
  - congruence.
Qed.

(** [RAGPipeline.add_documents] is all or nothing: the chunk dictionaries it
    builds always carry their content and metadata, so whenever it returns
    [False] (no chunk, chunking or embedding raised, or the store rejected
    the batch) the vector store is as it was before the call. *)
Theorem add_documents_all_or_nothing :
  forall self fuel documents metadata chunk_size chunk_overlap store ok,
    add_documents create self fuel documents metadata chunk_size chunk_overlap
    = Returned (store, ok) ->
    ok = false ->
    store = RAGPipeline.vector_store self.
Proof.
  intros self fuel documents metadata cs ov store ok H Hok. subst ok.
  destruct (add_documents_returned _ _ _ _ _ _ _ H)
    as [E | (dictionaries & embeddings & Hwf & E)]; [congruence|].
  rewrite (well_formed_batch_all_or_nothing (RAGPipeline.vector_store self)
             dictionaries embeddings None) in E.
  - congruence.
  - exact Hwf.
  - rewrite <- E. reflexivity.
Qed.

Lemma all_chunks_of_empty_texts :
  forall settings fuel documents i metadata chunk_size chunk_overlap,
    Forall (fun doc => doc = []) documents ->
    all_chunks settings fuel documents i metadata chunk_size chunk_overlap
    = Returned ([], []).
Proof.
  intros settings fuel documents.
  induction documents as [|doc documents IH]; intros i metadata cs ov H;
    [reflexivity|].
  inversion H as [|? ? Hd Hrest]; subst. simpl.
  rewrite (IH (i + 1) metadata cs ov Hrest). reflexivity.
Qed.

(** With no document, or only empty documents, [add_documents] returns
    [False] and leaves the vector store unchanged. *)
Theorem add_documents_nothing_to_add :
  forall self fuel documents metadata chunk_size chunk_overlap,
    Forall (fun doc => doc = []) documents ->
    add_documents create self fuel documents metadata chunk_size chunk_overlap
    = Returned (RAGPipeline.vector_store self, false).
Proof.
  intros self fuel documents metadata cs ov H. unfold add_documents.
  rewrite all_chunks_of_empty_texts by exact H. reflexivity.
Qed.

(** [update_document] deletes before it adds, and does not restore: when
    the re-insertion returns [False], the store returned is the store after
    the deletion. *)
Theorem update_document_not_restored :
  forall self fuel document_id new_content metadata store,
    update_document create self fuel document_id new_content metadata
    = Returned (store, false) ->
    store = fst (delete_document (RAGPipeline.vector_store self) document_id).
Proof.
  intros self fuel document_id new_content metadata store H.
  unfold update_document in H.
  destruct (add_documents_returned _ _ _ _ _ _ _ H)
    as [E | (dictionaries & embeddings & Hwf & E)]; [simpl in E; congruence|].
  cbn [RAGPipeline.vector_store] in E.
  rewrite (well_formed_batch_all_or_nothing _ dictionaries embeddings None) in E.
  - congruence.
  - exact Hwf.
  - rewrite <- E. reflexivity.
Qed.

End Pipeline.

Lemma add_documents_all_or_nothing_witness :
  fst (Scenario.labelled_store, false)
  = RAGPipeline.vector_store
      {| RAGPipeline.vector_store := Scenario.labelled_store;
         RAGPipeline.settings := Settings.defaults |}.
Proof.
  apply (add_documents_all_or_nothing (fun _ => None)
           {| RAGPipeline.vector_store := Scenario.labelled_store;
              RAGPipeline.settings := Settings.defaults |}
           1 [lit "Rest."] None None None Scenario.labelled_store false).
  - vm_compute; reflexivity.
  - reflexivity.
Defined.

Lemma add_documents_nothing_to_add_witness :
  add_documents (fun _ => None)
    {| RAGPipeline.vector_store := Scenario.labelled_store;
       RAGPipeline.settings := Settings.defaults |}
    0 [[]; []] None None None
  = Returned (Scenario.labelled_store, false).
Proof.
  apply (add_documents_nothing_to_add (fun _ => None)
           {| RAGPipeline.vector_store := Scenario.labelled_store;
              RAGPipeline.settings := Settings.defaults |} 0 [[]; []] None None None).
  repeat constructor.
Defined.

Lemma update_document_not_restored_witness :
  fst (delete_document Scenario.two_documents "A")
  = fst (delete_document
           (RAGPipeline.vector_store
              {| RAGPipeline.vector_store := Scenario.two_documents;
                 RAGPipeline.settings := Settings.defaults |}) "A").
Proof.
  apply (update_document_not_restored (fun _ => None)
           {| RAGPipeline.vector_store := Scenario.two_documents;
              RAGPipeline.settings := Settings.defaults |}
           0 "A" [] None (fst (delete_document Scenario.two_documents "A"))).
  vm_compute; reflexivity.
Defined.

End IngestFacts.

(** * [safety/healthcare_filter.py]: further properties *)

Module SafetyMore.
Import Py HealthcareSafetyFilter Verdict PyFacts.

Lemma lower_idempotent : forall s, lower (lower s) = lower s.
Proof.
  intros s. unfold lower. rewrite map_map. apply map_ext.
  intros c. apply lower_char_idempotent.
Qed.

Lemma strip_nil_iff : forall s, strip s = [] <-> Forall (fun c => isspace c = true) s.
Proof.
  intros s. split; [apply strip_nil_all_space | apply CleanTextMore.strip_blank].
Qed.

Lemma strip_lower_nil : forall s, strip (lower s) = [] <-> strip s = [].
Proof.
  intros s. rewrite !strip_nil_iff. unfold lower. rewrite Forall_map.
  split; apply Forall_impl; intros c H;
    [rewrite <- isspace_lower_char_same | rewrite isspace_lower_char_same]; exact H.
Qed.

(** The whole result of [check_content] depends on the text only through
    its lowercased form: letter case never changes the verdict, the risk
    level, the reason or the flagged terms. *)
Theorem check_content_ignores_case : forall content : str,
  check_content (lower content) = check_content content.
Proof.
  intros content. unfold check_content.
  destruct content as [|c0 content]; [reflexivity|].
  change (lower (c0 :: content)) with (lower_char c0 :: lower content).
  cbv iota.
  change (lower_char c0 :: lower content) with (lower (c0 :: content)).
  destruct (strip (c0 :: content)) as [|s0 st] eqn:Es.
  - apply (proj2 (strip_lower_nil (c0 :: content))) in Es. rewrite Es. reflexivity.
  - destruct (strip (lower (c0 :: content))) as [|l0 lt] eqn:El.
    + apply (proj1 (strip_lower_nil (c0 :: content))) in El. congruence.
    + unfold _assess_content_risk, _detect_medical_advice.
      rewrite lower_idempotent. reflexivity.
Qed.

(** *** Verdict and risk level *)

Lemma matches_nonneg : forall patterns content, 0 <= matches patterns content.
Proof. intros. rewrite <- SafetyFacts.flagged_count. lia. Qed.

(** The risk level and the verdict are tied: a text rated CRITICAL is never
    safe, and an unsafe text is rated MEDIUM at least; in particular a text
    rated LOW is safe. *)
Theorem risk_level_and_verdict : forall content : str,
  (risk_level (check_content content) = CRITICAL -> is_safe (check_content content) = false) /\
  (is_safe (check_content content) = false -> 2 <= value (risk_level (check_content content))).
Proof.
  intros content. unfold check_content.
  destruct content as [|c0 content]; [split; intros; discriminate|].
  destruct (strip (c0 :: content)) as [|s0 st]; [split; intros; discriminate|].
  cbn [is_safe risk_level]. unfold _determine_safety, _determine_risk_level.
  rewrite SafetyFacts.total_risk_weighted, SafetyFacts.critical_score_matches,
    SafetyFacts.severity_high.
  set (t := weighted_total (c0 :: content)).
  set (a := matches medical_advice_patterns (c0 :: content)).
  pose proof (matches_nonneg (tier "critical") (c0 :: content)) as Hc.
  pose proof (matches_nonneg (tier "high") (c0 :: content)) as Hh.
  pose proof (matches_nonneg (tier "medium") (c0 :: content)) as Hm.
  pose proof (matches_nonneg (tier "low") (c0 :: content)) as Hl.
  assert (Ht : 10 * matches (tier "critical") (c0 :: content) <= t)
    by (unfold t, weighted_total; lia).
  unfold _detect_medical_advice. cbn [severity].
  rewrite (SafetyFacts.flagged_count medical_advice_patterns (c0 :: content)). fold a.
  destruct (30 <=? t) eqn:E30; destruct (20 <=? t) eqn:E20;
    destruct (10 <=? t) eqn:E10; destruct (3 <=? a) eqn:E3; destruct (1 <=? a) eqn:E1;
    destruct (0 <? matches (tier "critical") (c0 :: content)) eqn:Ecr;
    simpl; split; intros; try discriminate; try reflexivity; try lia;
    repeat match goal with
           | H : (_ <=? _) = true |- _ => apply Z.leb_le in H
           | H : (_ <=? _) = false |- _ => apply Z.leb_gt in H
           | H : (_ <? _) = true |- _ => apply Z.ltb_lt in H
           | H : (_ <? _) = false |- _ => apply Z.ltb_ge in H
           end; lia.
Qed.

End SafetyMore.

(** * [safety/healthcare_filter.py]: texts without words, and the health check *)

Module SafetyEdges.
Import Py HealthcareSafetyFilter Verdict PyFacts.

Lemma findall_from_wordless : forall p s before skip,
  Forall (fun c => is_word c = false) s ->
  is_word_at before = false ->
  findall_from p before s skip = [].
Proof.
  intros p s. induction s as [|c s IH]; intros before skip Hs Hb; [reflexivity|].
  inversion Hs as [|? ? Hc Hs']; subst.
  simpl. destruct skip as [|k]; [|apply IH; assumption].
  unfold match_at, word_boundary. simpl hd_error. simpl is_word_at at 2.
  rewrite Hb, Hc. simpl. apply IH; assumption.
Qed.

Lemma flagged_items_wordless : forall patterns content,
  Forall (fun c => is_word c = false) content ->
  flagged_items patterns (lower content) = [].
Proof.
  intros patterns content H.
  assert (Hl : Forall (fun c => is_word c = false) (lower content)).
  { unfold lower. apply Forall_map. eapply Forall_impl; [|exact H].
    intros c Hc. rewrite is_word_lower_char. exact Hc. }
  unfold flagged_items.
  induction patterns as [|p patterns IH]; [reflexivity|].
  simpl. rewrite IH. unfold findall.
  rewrite (findall_from_wordless p (lower content) None 0 Hl eq_refl). reflexivity.
Qed.

(** A text without a single word character (letters, digits, underscore)
    is always reported safe at LOW risk with nothing flagged: punctuation,
    symbols and whitespace alone match no pattern. *)
Theorem check_content_wordless : forall content : str,
  Forall (fun c => is_word c = false) content ->
  is_safe (check_content content) = true /\
  risk_level (check_content content) = LOW /\
  (flagged_content (check_content content) = None \/
   flagged_content (check_content content) = Some []).
Proof.
  intros content H. unfold check_content.
  destruct content as [|c0 content]; [simpl; auto|].
  destruct (strip (c0 :: content)); [simpl; auto|].
  cbn [is_safe risk_level flagged_content].
  unfold _determine_safety, _determine_risk_level.
  rewrite SafetyFacts.total_risk_weighted, SafetyFacts.critical_score_matches,
    SafetyFacts.severity_high.
  unfold _detect_medical_advice, _assess_content_risk. cbn [severity].
  unfold weighted_total. rewrite <- !SafetyFacts.flagged_count.
  rewrite !flagged_items_wordless by exact H.
  split; [reflexivity|]. split; [reflexivity|]. right.
  f_equal.
  assert (Hgen : forall tiers acc,
            ra_flagged_content (assess_tiers tiers (lower (c0 :: content)) acc)
            = ra_flagged_content acc).
  { induction tiers as [|[name patterns] tiers IH]; intros acc; [reflexivity|].
    cbn [assess_tiers]. rewrite IH, flagged_items_wordless by exact H. reflexivity. }
  rewrite Hgen. reflexivity.
Qed.

Lemma check_content_wordless_witness :
  is_safe (check_content (lit "?!... -- (;)")) = true /\
  risk_level (check_content (lit "?!... -- (;)")) = LOW /\
  (flagged_content (check_content (lit "?!... -- (;)")) = None \/
   flagged_content (check_content (lit "?!... -- (;)")) = Some []).
Proof.
  apply (check_content_wordless (lit "?!... -- (;)")).
  vm_compute. repeat constructor.
Defined.

Lemma risk_level_and_verdict_witness :
  2 <= value (risk_level (check_content _generate_treatment_response)).
Proof.
  apply (proj2 (SafetyMore.risk_level_and_verdict _generate_treatment_response)).
  vm_compute; reflexivity.
Defined.

(** The filter's own health check fails: its second probe, the sentence
    that it expects to be unsafe, is reported safe (two advice patterns,
    one HIGH and one MEDIUM term, no CRITICAL term: total 7). *)
Theorem filter_health_check_fails :
  FilterHealth.health_check = false /\
  is_safe (check_content (lit "Hello, how are you?")) = true /\
  is_safe (check_content (lit "You should take this medicine for your symptoms")) = true.
Proof. vm_compute. repeat split; reflexivity. Qed.

End SafetyEdges.

(** * [rag/document_processor.py]: the chunks of [process_document] *)

Module ProcessDocument.
Import Py DocumentProcessor SentenceChunker Cleaned PyFacts Shapes.

Lemma strip_not_nil : forall c s, isspace c = false -> In c s -> strip s <> [].
Proof.
  intros c s Hc Hin E.
  apply (CleanTextMore.lstrip_keeps c s Hc) in Hin.
  apply (CleanTextMore.rstrip_keeps c _ Hc) in Hin.
  unfold strip in E. rewrite E in Hin. contradiction.
Qed.

Lemma rfind_from_spec : forall c s i found,
  rfind_from c s i found = found \/
  (i <= rfind_from c s i found /\
   nth_error s (Z.to_nat (rfind_from c s i found - i)) = Some c).
Proof.
  intros c s. induction s as [|x s IH]; intros i found; [left; reflexivity|].
  cbn [rfind_from].
  destruct (IH (i + 1) (if Ascii.eqb x c then i else found)) as [E | [Hle Hn]].
  - rewrite E. destruct (Ascii.eqb x c) eqn:Ex; [|left; reflexivity].
    right. apply Ascii.eqb_eq in Ex; subst x. rewrite Z.sub_diag. split; [lia | reflexivity].
  - right. split; [lia|].
    replace (Z.to_nat (rfind_from c s (i + 1) (if Ascii.eqb x c then i else found) - i))
      with (S (Z.to_nat (rfind_from c s (i + 1) (if Ascii.eqb x c then i else found)
                         - (i + 1)))) by lia.
    exact Hn.
Qed.

Lemma rfind_found : forall s c,
  0 <= rfind s c -> nth_error s (Z.to_nat (rfind s c)) = Some c.
Proof.
  intros s c H. unfold rfind in *.
  destruct (rfind_from_spec c s 0 (-1)) as [E | [_ Hn]]; [lia|].
  rewrite Z.sub_0_r in Hn. exact Hn.
Qed.

Lemma find_break_ending : forall chunk chunk_size endings i,
  find_break chunk chunk_size endings = Some (Some i) ->
  exists ending, In ending endings /\ i = rfind chunk ending.
Proof.
  intros chunk cs endings i. induction endings as [|e rest IH]; intros H; [discriminate|].
  cbn [find_break] in H. destruct (float_of_int cs) as [f|]; [|discriminate].
  destruct (int_gt_float (rfind chunk e) (fmul f Settings.f0_7)).
  - injection H as <-. exists e; split; [left; reflexivity | reflexivity].
  - destruct (IH H) as (e' & Hin & E). exists e'; split; [right; exact Hin | exact E].
Qed.

(** The window for a start inside the text. *)
Lemma slice_window : forall (text : str) start stop,
  0 <= start -> start <= stop ->
  slice text start stop
  = firstn (Z.to_nat (Z.min stop (len text) - Z.min start (len text)))
      (skipn (Z.to_nat (Z.min start (len text))) text).
Proof.
  intros text start stop H0 H1. unfold slice, slice_bound, len.
  replace (start <? 0) with false by (symmetry; apply Z.ltb_ge; lia).
  replace (stop <? 0) with false by (symmetry; apply Z.ltb_ge; lia).
  reflexivity.
Qed.

Lemma settled_ending_not_space : forall c,
  settled c -> In c sentence_endings -> isspace c = false.
Proof.
  intros c Hs Hin. destruct Hs as [-> | [H _]]; [|exact H].
  simpl in Hin. destruct Hin as [E|[E|[E|[E|[]]]]]; discriminate E.
Qed.

Lemma rstrip_last : forall s,
  s <> [] -> rstrip s = s -> exists pre c, s = pre ++ [c] /\ isspace c = false.
Proof.
  intros s Hne Hr. destruct (exists_last Hne) as (pre & c & E). exists pre, c.
  split; [exact E|]. subst s.
  destruct (isspace c) eqn:Ec; [|reflexivity]. exfalso.
  assert (Hlen : (length (rstrip (pre ++ [c])) <= length pre)%nat).
  { clear Hr Hne. induction pre as [|x pre IH]; simpl.
    - rewrite Ec. simpl. lia.
    - destruct (rstrip (pre ++ [c])) eqn:E.
      + destruct (isspace x); simpl; lia.
      + simpl in *. lia. }
  rewrite Hr, length_app in Hlen. simpl in Hlen. lia.
Qed.

Section Cleaned.

Variable text : str.
Hypothesis text_clean : clean_form text.

Variable chunk_size chunk_overlap : Z.
Hypothesis size_checked : threshold_exact chunk_size = true.
Hypothesis size_two : 2 <= chunk_size.
Hypothesis overlap_small : 10 * chunk_overlap <= 7 * chunk_size.

Lemma window_parts : forall start stop,
  0 <= start -> start <= stop ->
  exists before after, text = before ++ slice text start stop ++ after.
Proof.
  intros start stop H0 H1. rewrite (slice_window text start stop H0 H1).
  set (a := Z.to_nat (Z.min start (len text))).
  set (b := Z.to_nat _).
  exists (firstn a text), (skipn b (skipn a text)).
  rewrite firstn_skipn, firstn_skipn. reflexivity.
Qed.

Lemma window_settled : forall start stop c,
  0 <= start -> start <= stop -> In c (slice text start stop) -> settled c.
Proof.
  intros start stop c H0 H1 Hin.
  destruct (window_parts start stop H0 H1) as (before & after & E).
  destruct text_clean as (Hs & _). rewrite Forall_forall in Hs. apply Hs.
  rewrite E. apply in_or_app; right. apply in_or_app; left. exact Hin.
Qed.

Lemma chunk_body_not_empty : forall start chunk start',
  0 <= start < len text ->
  chunk_body text chunk_size chunk_overlap start = Some (chunk, start') ->
  chunk <> [] /\ start + 1 <= start'.
Proof.
  intros start chunk start' Hstart H.
  assert (Hadv : start + 1 <= start').
  { destruct (ChunkingTermination.chunk_body_advances text chunk_size chunk_overlap start
                size_checked ltac:(lia) overlap_small) as (c' & s' & E & Hs).
    rewrite E in H. injection H as _ <-. exact Hs. }
  split; [|exact Hadv].
  unfold chunk_body in H.
  set (w := slice text start (start + chunk_size)) in *.
  assert (Hw : forall c, In c w -> settled c)
    by (intros c; apply window_settled; lia).
  destruct (start + chunk_size <? len text) eqn:Eend.
  - apply Z.ltb_lt in Eend.
    assert (Hlen : length w = Z.to_nat chunk_size).
    { unfold w. rewrite (slice_window text start (start + chunk_size)) by lia.
      rewrite length_firstn, length_skipn. unfold len in *. lia. }
    destruct (find_break w chunk_size sentence_endings) as [[i|]|] eqn:Eb;
      [| |discriminate].
    + injection H as <- _.
      destruct (ChunkingTermination.find_break_position w chunk_size sentence_endings
                  size_checked) as (brk & Eb' & Hpos).
      rewrite Eb in Eb'. injection Eb' as <-. specialize (Hpos i eq_refl).
      destruct (find_break_ending _ _ _ _ Eb) as (ending & Hin & Ei).
      assert (Hnth : nth_error w (Z.to_nat i) = Some ending)
        by (rewrite Ei; apply rfind_found; lia).
      assert (Hi : (Z.to_nat i < length w)%nat)
        by (apply nth_error_Some; rewrite Hnth; discriminate).
      apply (strip_not_nil ending).
      * apply settled_ending_not_space; [|exact Hin].
        apply Hw. eapply nth_error_In; exact Hnth.
      * rewrite (slice_window w 0 (i + 1)) by lia.
        rewrite (Z.min_l 0) by (unfold len; lia).
        simpl skipn. rewrite Z.sub_0_r.
        apply nth_error_In with (n := Z.to_nat i).
        rewrite nth_error_firstn.
        replace (Z.to_nat i <? Z.to_nat (Z.min (i + 1) (len w)))%nat
          with true by (symmetry; apply Nat.ltb_lt; unfold len; lia).
        exact Hnth.
    + injection H as <- _.
      destruct w as [|a [|b w']] eqn:Ew; try (simpl in Hlen; lia).
      assert (Hadj : no_adjacent isspace (a :: b :: w')).
      { destruct (window_parts start (start + chunk_size)) as (before & after & E);
          [lia | lia |].
        destruct text_clean as (_ & Hadj & _).
        rewrite E in Hadj. apply no_adjacent_app_r, no_adjacent_app_l in Hadj.
        fold w in Hadj. rewrite Ew in Hadj. exact Hadj. }
      destruct Hadj as [Hab _].
      destruct (isspace a) eqn:Ea.
      * apply (strip_not_nil b); [exact Hab | right; left; reflexivity].
      * apply (strip_not_nil a); [exact Ea | left; reflexivity].
  - apply Z.ltb_ge in Eend. injection H as <- _.
    destruct text_clean as (_ & _ & _ & Hr).
    assert (Hne : text <> []) by (intros E; rewrite E in Hstart; unfold len in Hstart; simpl in Hstart; lia).
    destruct (rstrip_last text Hne Hr) as (pre & c & E & Hc).
    apply (strip_not_nil c _ Hc).
    unfold w. rewrite (slice_window text start (start + chunk_size)) by lia.
    rewrite !Z.min_r by lia. rewrite Z.min_l by lia.
    rewrite firstn_all2 by (rewrite length_skipn; unfold len; lia).
    rewrite E. rewrite skipn_app. apply in_or_app; right.
    unfold len in Hstart. rewrite E, length_app in Hstart. simpl in Hstart.
    replace (Z.to_nat start - length pre)%nat with 0%nat by lia.
    left; reflexivity.
Qed.

Lemma chunk_loop_not_empty : forall fuel start chunks result,
  0 <= start ->
  Forall (fun c => c <> []) chunks ->
  chunk_loop fuel text chunk_size chunk_overlap start chunks = Returned result ->
  Forall (fun c => c <> []) result.
Proof.
  induction fuel as [|fuel IH]; intros start chunks result Hs Hc H; [discriminate|].
  cbn [chunk_loop] in H.
  destruct (start <? len text) eqn:E; [|injection H as <-; exact Hc].
  apply Z.ltb_lt in E.
  destruct (chunk_body text chunk_size chunk_overlap start) as [[chunk start']|] eqn:Eb;
    [|discriminate].
  destruct (chunk_body_not_empty start chunk start' ltac:(lia) Eb) as [Hne Hadv].
  assert (Hc' : Forall (fun c => c <> []) (chunks ++ [chunk]))
    by (apply Forall_app; split; [exact Hc | repeat constructor; exact Hne]).
  destruct (start' >=? len text); [injection H as <-; exact Hc'|].
  apply (IH start' (chunks ++ [chunk]) result); [lia | exact Hc' | exact H].
Qed.

End Cleaned.

(** [process_document] never yields an empty chunk when the configured
    chunk size is between 2 and 100000 and the configured overlap (after the
    clamp) is at most seven tenths of it, as with the defaults 1000 and
    200: the text is cleaned first, and a window of cleaned text always
    holds a character that stripping keeps. *)
Theorem process_document_no_empty_chunk : forall settings fuel text chunks,
  let cs := Settings.chunk_size settings in
  let ov := Z.min (Settings.chunk_overlap settings) (cs - 1) in
  2 <= cs <= checked_sizes ->
  10 * ov <= 7 * cs ->
  process_extracted_text settings fuel text = Returned chunks ->
  Forall (fun c => c <> []) chunks.
Proof.
  intros settings fuel text chunks cs ov Hcs Hov H.
  unfold process_extracted_text in H.
  destruct text as [|c0 text]; [injection H as <-; constructor|].
  destruct (strip (c0 :: text)); [injection H as <-; constructor|].
  unfold chunk_text in H.
  destruct (_clean_text (c0 :: text)) as [|t0 cleaned] eqn:Ec;
    [injection H as <-; constructor|].
  assert (Ecs : int_or (Some (Settings.chunk_size settings)) (Settings.chunk_size settings)
                = cs).
  { unfold int_or. fold cs. destruct (cs =? 0); reflexivity. }
  assert (Eov : int_or (Some (Settings.chunk_overlap settings))
                  (Settings.chunk_overlap settings)
                = Settings.chunk_overlap settings).
  { unfold int_or. destruct (Settings.chunk_overlap settings =? 0); reflexivity. }
  rewrite Ecs, Eov in H. fold ov in H.
  eapply (chunk_loop_not_empty (t0 :: cleaned)); [| | | | | | exact H].
  - rewrite <- Ec. apply CleanText._clean_text_form.
  - apply ChunkingTermination.threshold_exact_checked. lia.
  - lia.
  - exact Hov.
  - lia.
  - constructor.
Qed.

Lemma process_document_no_empty_chunk_witness :
  Forall (fun c => c <> [])
    [lit "Rest and fluids. Call a doctor if the fever lasts."].
Proof.
  apply (process_document_no_empty_chunk Settings.defaults 1
           (lit "  Rest   and fluids.  Call a doctor if the fever lasts. ")).
  - vm_compute; split; discriminate.
  - vm_compute; discriminate.
  - vm_compute; reflexivity.
Defined.

End ProcessDocument.
